(** * The order processing engine (order processor Lambda, [index.py])

    A shallow embedding of the queue consumer that drives an order through
    the steps VALIDATING, INVENTORY_CHECK, PAYMENT_PROCESSING, FULFILLMENT,
    and of the collaborators it calls: the orders table, the notification
    topic and the metrics sink.

    Python values are a small inductive type, dictionaries are [gmap]s keyed
    by strings, exceptions are an explicit result, and everything the code
    does to the outside world goes through one state: the table, a trace of
    the calls made, and cursors into the oracles that stand for the random
    source, the clock and the faults of the remote services.

    Logger calls carry no control flow and write nothing the code reads
    back, so they are left out; where the f-string of a log line can itself
    raise (the [order['orderId']] of the executors) the raise is kept. *)

From Stdlib Require Import QArith Qminmax Sorted Ascii.
From stdpp Require Import gmap strings list fin_maps.

Local Open Scope string_scope.
Set Warnings "-register-all".

(** ** Python values *)

(** What boto3 and [json.loads] hand to the code: [None], booleans, numbers
    ([Decimal] from the table, int or float from JSON; only their exact
    value matters here), strings, lists and dictionaries. *)
Inductive value : Type :=
| VNone
| VBool (b : bool)
| VNum (q : Q)
| VStr (s : string)
| VList (l : list value)
| VDict (m : gmap string value).

(** An order record as returned by the table: a dictionary. *)
Abbreviation item := (gmap string value).

(** Exceptions: the class name and [str(e)]. *)
Inductive exn : Type := Exn (cls : string) (msg : string).

Definition exn_str (e : exn) : string := let 'Exn _ m := e in m.

Definition KeyError (k : string) : exn := Exn "KeyError" ("'" ++ k ++ "'").
Definition TypeError (m : string) : exn := Exn "TypeError" m.
Definition AttributeError (m : string) : exn := Exn "AttributeError" m.
Definition ValueError (m : string) : exn := Exn "ValueError" m.
Definition UnboundLocalError (var : string) : exn :=
  Exn "UnboundLocalError"
      ("cannot access local variable '" ++ var ++
       "' where it is not associated with a value").
Definition ClientError (m : string) : exn := Exn "ClientError" m.
Definition JSONDecodeError : exn := Exn "JSONDecodeError" "Expecting value".

Inductive res (A : Type) : Type :=
| Ret (a : A)
| Raise (e : exn).
Arguments Ret {A} a.
Arguments Raise {A} e.

(** [bool(v)] *)
Definition truthy (v : value) : bool :=
  match v with
  | VNone => false
  | VBool b => b
  | VNum q => negb (Qeq_bool q 0)
  | VStr s => negb (String.eqb s "")
  | VList l => match l with [] => false | _ => true end
  | VDict m => negb (Nat.eqb (size m) 0)
  end.

(** [v == 'literal'] for a string literal *)
Definition py_eq_str (v : value) (lit : string) : bool :=
  match v with
  | VStr s => String.eqb s lit
  | _ => false
  end.

(** [isinstance(v, list)] *)
Definition is_list (v : value) : bool :=
  match v with VList _ => true | _ => false end.

(** [len(v)], a [TypeError] on a value without a length *)
Definition py_len (v : value) : res nat :=
  match v with
  | VStr s => Ret (String.length s)
  | VList l => Ret (length l)
  | VDict m => Ret (size m)
  | _ => Raise (TypeError "object has no len()")
  end.

Fixpoint chars (s : string) : list value :=
  match s with
  | EmptyString => []
  | String c s' => VStr (String c EmptyString) :: chars s'
  end.

(** [for x in v]: the elements iterated over, a [TypeError] otherwise *)
Definition py_iter (v : value) : res (list value) :=
  match v with
  | VList l => Ret l
  | VStr s => Ret (chars s)
  | VDict m => Ret (VStr <$> (map_to_list m).*1)
  | _ => Raise (TypeError "object is not iterable")
  end.

(** [d[k]] on a dictionary *)
Definition dict_getitem (d : item) (k : string) : res value :=
  match d !! k with
  | Some v => Ret v
  | None => Raise (KeyError k)
  end.

(** [v[k]] for a string key [k]: only a dictionary can be subscripted so *)
Definition getitem (v : value) (k : string) : res value :=
  match v with
  | VDict m => dict_getitem m k
  | VStr _ => Raise (TypeError "string indices must be integers, not 'str'")
  | VList _ => Raise (TypeError "list indices must be integers or slices, not str")
  | _ => Raise (TypeError "object is not subscriptable")
  end.

(** [d.get(k, dflt)] on a dictionary *)
Definition dict_get (d : item) (k : string) (dflt : value) : value :=
  default dflt (d !! k).

(** [v.get(k, dflt)]: an [AttributeError] on anything but a dictionary *)
Definition py_get (v : value) (k : string) (dflt : value) : res value :=
  match v with
  | VDict m => Ret (dict_get m k dflt)
  | _ => Raise (AttributeError "object has no attribute 'get'")
  end.

(** [v[:8]] *)
Definition slice8 (v : value) : res value :=
  match v with
  | VStr s => Ret (VStr (String.substring 0 8 s))
  | VList l => Ret (VList (take 8 l))
  | _ => Raise (TypeError "object is not subscriptable")
  end.

Definition Qlt_bool (x y : Q) : bool := negb (Qle_bool y x).

(** ** The environment and the state *)

(** A structured form of the text the notification builds: the values its
    f-strings interpolate, in the order they are read. *)
Inductive notification : Type :=
| MsgCompleted (order_id8 customer : value) (item_count : nat) (total : value)
               (completed : string)
| MsgFailed (order_id8 customer : value) (reason : option string)
            (failed : string)
| MsgOther (order_id8 : value) (event_type : string) (reason : option string).

(** The calls the engine makes into its collaborators, in program order.
    [EvUpdateItem] is the [update_item] request sent to the table with
    whether the table applied it; [EvExec] is the invocation of a step
    executor with the boolean it returned; [EvNotify] is the entry into
    [send_order_notification]; [EvPublish] and [EvMetrics] are the requests
    to the topic and to the metrics sink with whether they went through. *)
Inductive event : Type :=
| EvQuery (order_id : value)
| EvUpdateItem (order_id timestamp : value) (status : string)
               (error_message : option string) (applied : bool)
| EvExec (step : string) (ok : bool)
| EvNotify (order_id : value) (event_type : string)
           (error_message : option string)
| EvPublish (subject : string) (msg : notification) (delivered : bool)
| EvMetrics (successful failed : nat) (delivered : bool).

(** What the code reads but does not define: the process environment, the
    library functions [json.loads] and [float] on strings, and oracles for
    [random.random()], [datetime.utcnow()] and the faults of the remote
    calls ([Some msg]: the k-th call of that kind raises with that text). *)
Record Env : Type := {
  SNS_TOPIC_ARN : option string;
  json_loads : string -> option value;
  float_of_str : string -> option Q;
  random_random : nat -> Q;
  utcnow : nat -> string;
  query_fault : nat -> option string;
  update_fault : nat -> option string;
  publish_fault : nat -> option string;
  metrics_fault : nat -> option string
}.

Record State : Type := {
  table : list item;
  trace : list event;
  n_random : nat;
  n_clock : nat;
  n_query : nat;
  n_update : nat;
  n_publish : nat;
  n_metrics : nat
}.

(** ** A state and exception monad

    Unlike a state transformer over an error monad, a raise keeps the state
    reached so far: what was written to the table before an exception stays
    written. *)
Definition M (A : Type) : Type := State -> res A * State.

Definition ret {A} (a : A) : M A := fun s => (Ret a, s).

Definition raise {A} (e : exn) : M A := fun s => (Raise e, s).

Definition bind {A B} (c : M A) (k : A -> M B) : M B :=
  fun s =>
    match c s with
    | (Ret a, s') => k a s'
    | (Raise e, s') => (Raise e, s')
    end.

(** [try: c  except Exception as e: h e] *)
Definition try_except {A} (c : M A) (h : exn -> M A) : M A :=
  fun s =>
    match c s with
    | (Ret a, s') => (Ret a, s')
    | (Raise e, s') => h e s'
    end.

Definition lift {A} (r : res A) : M A := fun s => (r, s).

Declare Scope py_scope.
Delimit Scope py_scope with py.
Notation "x <- c ;; k" := (bind c (fun x => k))
  (at level 100, c at next level, right associativity) : py_scope.
Notation "c ;;; k" := (bind c (fun _ => k))
  (at level 100, right associativity) : py_scope.
Local Open Scope py_scope.

Definition emit (e : event) : M unit :=
  fun s =>
    (Ret tt,
     {| table := table s; trace := trace s ++ [e];
        n_random := n_random s; n_clock := n_clock s; n_query := n_query s;
        n_update := n_update s; n_publish := n_publish s;
        n_metrics := n_metrics s |}).

Definition set_table (t : list item) : M unit :=
  fun s =>
    (Ret tt,
     {| table := t; trace := trace s;
        n_random := n_random s; n_clock := n_clock s; n_query := n_query s;
        n_update := n_update s; n_publish := n_publish s;
        n_metrics := n_metrics s |}).

Definition set_random (n : nat) (s : State) : State :=
  {| table := table s; trace := trace s;
     n_random := n; n_clock := n_clock s; n_query := n_query s;
     n_update := n_update s; n_publish := n_publish s;
     n_metrics := n_metrics s |}.

Section Engine.

Variable env : Env.

(** [random.random()] *)
Definition py_random : M Q :=
  fun s =>
    (Ret (random_random env (n_random s)),
     {| table := table s; trace := trace s;
        n_random := S (n_random s); n_clock := n_clock s;
        n_query := n_query s; n_update := n_update s;
        n_publish := n_publish s; n_metrics := n_metrics s |}).

(** [datetime.utcnow()], rendered *)
Definition py_utcnow : M string :=
  fun s =>
    (Ret (utcnow env (n_clock s)),
     {| table := table s; trace := trace s;
        n_random := n_random s; n_clock := S (n_clock s);
        n_query := n_query s; n_update := n_update s;
        n_publish := n_publish s; n_metrics := n_metrics s |}).

(** The next answer of a fault oracle, advancing its cursor. *)
Definition next_query_fault : M (option string) :=
  fun s =>
    (Ret (query_fault env (n_query s)),
     {| table := table s; trace := trace s;
        n_random := n_random s; n_clock := n_clock s;
        n_query := S (n_query s); n_update := n_update s;
        n_publish := n_publish s; n_metrics := n_metrics s |}).

Definition next_update_fault : M (option string) :=
  fun s =>
    (Ret (update_fault env (n_update s)),
     {| table := table s; trace := trace s;
        n_random := n_random s; n_clock := n_clock s;
        n_query := n_query s; n_update := S (n_update s);
        n_publish := n_publish s; n_metrics := n_metrics s |}).

Definition next_publish_fault : M (option string) :=
  fun s =>
    (Ret (publish_fault env (n_publish s)),
     {| table := table s; trace := trace s;
        n_random := n_random s; n_clock := n_clock s;
        n_query := n_query s; n_update := n_update s;
        n_publish := S (n_publish s); n_metrics := n_metrics s |}).

Definition next_metrics_fault : M (option string) :=
  fun s =>
    (Ret (metrics_fault env (n_metrics s)),
     {| table := table s; trace := trace s;
        n_random := n_random s; n_clock := n_clock s;
        n_query := n_query s; n_update := n_update s;
        n_publish := n_publish s; n_metrics := S (n_metrics s) |}).

(** [float(v)] *)
Definition py_float (v : value) : res Q :=
  match v with
  | VNum q => Ret q
  | VBool b => Ret (if b then 1%Q else 0%Q)
  | VStr s =>
      match float_of_str env s with
      | Some q => Ret q
      | None => Raise (ValueError "could not convert string to float")
      end
  | _ => Raise (TypeError "float() argument must be a string or a real number")
  end.

(** [time.sleep(secs)]: latency is not modelled, the [ValueError] on a
    negative duration is. *)
Definition time_sleep (secs : Q) : M unit :=
  if Qlt_bool secs 0
  then raise (ValueError "sleep length must be non-negative")
  else ret tt.

(** ** The orders table

    The table of the stack: partition key [orderId], sort key [timestamp],
    both strings. A query on the partition key returns the matching items in
    ascending order of the sort key (the default [ScanIndexForward]);
    strings are ordered byte by byte. [update_item] rejects a key attribute
    that is not a non-empty string, updates the item with that key, and
    creates it when there is none. New items go to the end of the list, so
    the list is in order of creation. *)

Definition get_table : M (list item) := fun s => (Ret (table s), s).

Definition sort_key (it : item) : string :=
  match it !! "timestamp" with
  | Some (VStr t) => t
  | _ => ""
  end.

Definition has_order_id (o : string) (it : item) : bool :=
  match it !! "orderId" with
  | Some (VStr o') => String.eqb o' o
  | _ => false
  end.

Definition has_key (o t : string) (it : item) : bool :=
  has_order_id o it &&
  match it !! "timestamp" with
  | Some (VStr t') => String.eqb t' t
  | _ => false
  end.

Fixpoint insert_sorted (x : item) (l : list item) : list item :=
  match l with
  | [] => [x]
  | y :: l' =>
      if String.leb (sort_key x) (sort_key y) then x :: l
      else y :: insert_sorted x l'
  end.

Definition sort_items (l : list item) : list item :=
  foldr insert_sorted [] l.

Definition query_items (o : string) (t : list item) : list item :=
  sort_items (List.filter (has_order_id o) t).

Definition validation_exception : exn :=
  ClientError "ValidationException: One or more parameter values are not valid".

(** [table.query(KeyConditionExpression=Key('orderId').eq(order_id))['Items']] *)
Definition table_query (order_id : value) : M (list item) :=
  emit (EvQuery order_id) ;;;
  f <- next_query_fault ;;
  match f with
  | Some msg => raise (ClientError msg)
  | None =>
      match order_id with
      | VStr o =>
          if String.eqb o "" then raise validation_exception
          else t <- get_table ;; ret (query_items o t)
      | _ => raise validation_exception
      end
  end.

(** [SET #status = :status, updatedAt = :updated_at [, errorMessage = :error_message]] *)
Definition set_attrs (status updated_at : string) (error_message : option string)
    (it : item) : item :=
  let it' := <["updatedAt" := VStr updated_at]> (<["status" := VStr status]> it) in
  match error_message with
  | Some m => <["errorMessage" := VStr m]> it'
  | None => it'
  end.

Definition apply_update (o t : string) (upd : item -> item) (tb : list item)
    : list item :=
  if existsb (has_key o t) tb
  then List.map (fun it => if has_key o t it then upd it else it) tb
  else tb ++ [upd (<["timestamp" := VStr t]> (<["orderId" := VStr o]> ∅))].

(** [table.update_item(Key={'orderId': ..., 'timestamp': ...}, ...)] *)
Definition table_update_item (order_id timestamp : value)
    (status updated_at : string) (error_message : option string) : M unit :=
  f <- next_update_fault ;;
  match f with
  | Some msg =>
      emit (EvUpdateItem order_id timestamp status error_message false) ;;;
      raise (ClientError msg)
  | None =>
      match order_id, timestamp with
      | VStr o, VStr t =>
          if String.eqb o "" || String.eqb t ""
          then emit (EvUpdateItem order_id timestamp status error_message false) ;;;
               raise validation_exception
          else tb <- get_table ;;
               set_table (apply_update o t (set_attrs status updated_at error_message) tb) ;;;
               emit (EvUpdateItem order_id timestamp status error_message true)
      | _, _ =>
          emit (EvUpdateItem order_id timestamp status error_message false) ;;;
          raise validation_exception
      end
  end.

(** ** update_order_status *)

(** [if error_message:] an absent or empty message is left out. *)
Definition sent_message (error_message : option string) : option string :=
  match error_message with
  | Some m => if truthy (VStr m) then Some m else None
  | None => None
  end.

Definition update_order_status (order_id : value) (status : string)
    (timestamp : value) (error_message : option string) : M unit :=
  try_except
    (updated_at <- py_utcnow ;;
     table_update_item order_id timestamp status updated_at
                       (sent_message error_message))
    (fun _ => ret tt).

(** ** The notification and metrics sink *)

Definition sns_publish (subject : string) (msg : notification) : M unit :=
  f <- next_publish_fault ;;
  match f with
  | Some m => emit (EvPublish subject msg false) ;;; raise (ClientError m)
  | None => emit (EvPublish subject msg true)
  end.

Definition cloudwatch_put_metric_data (successful failed : nat) : M unit :=
  f <- next_metrics_fault ;;
  match f with
  | Some m => emit (EvMetrics successful failed false) ;;; raise (ClientError m)
  | None => emit (EvMetrics successful failed true)
  end.

(** [not SNS_TOPIC_ARN]: unset, or set to the empty string *)
Definition topic_configured : bool :=
  match SNS_TOPIC_ARN env with
  | Some arn => negb (String.eqb arn "")
  | None => false
  end.

Definition unknown : value := VStr "Unknown".

Definition send_order_notification (order_id : value) (event_type : string)
    (order_data : option item) (error_message : option string) : M unit :=
  emit (EvNotify order_id event_type error_message) ;;;
  if negb topic_configured then ret tt
  else
    try_except
      (message <-
         (if String.eqb event_type "COMPLETED" then
            od <- match order_data with
                  | Some od => ret od
                  | None => raise (AttributeError "'NoneType' object has no attribute 'get'")
                  end ;;
            let total_amount := dict_get od "totalAmount" unknown in
            let customer_id := dict_get od "customerId" unknown in
            item_count <- lift (py_len (dict_get od "items" (VList []))) ;;
            oid8 <- lift (slice8 order_id) ;;
            now <- py_utcnow ;;
            ret (MsgCompleted oid8 customer_id item_count total_amount now)
          else if String.eqb event_type "FAILED" then
            let customer_id :=
              match order_data with
              | Some od => if truthy (VDict od) then dict_get od "customerId" unknown
                           else unknown
              | None => unknown
              end in
            oid8 <- lift (slice8 order_id) ;;
            now <- py_utcnow ;;
            ret (MsgFailed oid8 customer_id (sent_message error_message) now)
          else
            oid8 <- lift (slice8 order_id) ;;
            ret (MsgOther oid8 event_type (sent_message error_message))) ;;
       sns_publish ("eCommerce Order " ++ event_type) message)
      (fun _ => ret tt).

Definition send_processing_metrics (successful_orders failed_orders : nat) : M unit :=
  try_except
    (_ <- py_utcnow ;;
     _ <- py_utcnow ;;
     cloudwatch_put_metric_data successful_orders failed_orders)
    (fun _ => ret tt).


(** ** The step executors *)

Definition Executor : Type := item -> M bool.

Definition required_fields : list string := ["customerId"; "items"; "totalAmount"].

(** [field not in order or not order[field]] *)
Definition missing_or_empty (order : item) (field : string) : bool :=
  match order !! field with
  | None => true
  | Some v => negb (truthy v)
  end.

Definition validate_order : Executor := fun order =>
  try_except
    (if existsb (missing_or_empty order) required_fields then ret false
     else
       items <- lift (dict_getitem order "items") ;;
       (* not isinstance(order['items'], list) or len(order['items']) == 0 *)
       no_items <- (if negb (is_list items) then ret true
                    else n <- lift (py_len items) ;; ret (Nat.eqb n 0)) ;;
       if no_items then ret false
       else
         total <- lift (dict_getitem order "totalAmount") ;;
         amount <- lift (py_float total) ;;
         if Qle_bool amount 0 then ret false
         else
           _ <- lift (dict_getitem order "orderId") ;;
           ret true)
    (fun _ => ret false).

(** The loop of [check_inventory]: [true] when it returned from inside the
    loop on a shortage. *)
Fixpoint shortage_in (items : list value) : M bool :=
  match items with
  | [] => ret false
  | it :: rest =>
      r <- py_random ;;
      if Qlt_bool r (1 # 10) then
        _ <- lift (py_get it "productId" (VStr "unknown")) ;;
        ret true
      else shortage_in rest
  end.

Definition check_inventory : Executor := fun order =>
  try_except
    (items <- lift (dict_getitem order "items") ;;
     its <- lift (py_iter items) ;;
     short <- shortage_in its ;;
     if short then ret false
     else
       _ <- lift (dict_getitem order "orderId") ;;
       ret true)
    (fun _ => ret false).

Definition process_payment : Executor := fun order =>
  try_except
    (total <- lift (dict_getitem order "totalAmount") ;;
     total_amount <- lift (py_float total) ;;
     r <- py_random ;;
     if Qlt_bool r (5 # 100) then
       _ <- lift (dict_getitem order "orderId") ;;
       ret false
     else
       time_sleep (Qmin (1 # 2) (total_amount / 1000)) ;;;
       _ <- lift (dict_getitem order "orderId") ;;
       ret true)
    (fun _ => ret false).

Definition fulfill_order : Executor := fun order =>
  try_except
    (items <- lift (dict_getitem order "items") ;;
     item_count <- lift (py_len items) ;;
     time_sleep (Qmin 1 (inject_Z (Z.of_nat item_count) * (1 # 10))) ;;;
     _ <- lift (dict_getitem order "orderId") ;;
     ret true)
    (fun _ => ret false).

(** ** process_order *)

Definition processing_steps : list (string * Executor) :=
  [("VALIDATING", validate_order);
   ("INVENTORY_CHECK", check_inventory);
   ("PAYMENT_PROCESSING", process_payment);
   ("FULFILLMENT", fulfill_order)].

(** The call [processing_function(order)], recorded in the trace. *)
Definition exec_step (status : string) (processing_function : Executor)
    (order : item) : M bool :=
  success <- processing_function order ;;
  emit (EvExec status success) ;;;
  ret success.

(** The [for status, processing_function in processing_steps] loop. [false]
    is the [return False] of the failure branch; [true] is falling off the
    end of the loop. *)
Fixpoint run_steps (order_id : value) (order : item)
    (steps : list (string * Executor)) : M bool :=
  match steps with
  | [] => ret true
  | (status, processing_function) :: rest =>
      ts <- lift (dict_getitem order "timestamp") ;;
      update_order_status order_id status ts None ;;;
      success <- exec_step status processing_function order ;;
      if negb success then
        ts' <- lift (dict_getitem order "timestamp") ;;
        update_order_status order_id "FAILED" ts' (Some ("Failed at " ++ status)) ;;;
        send_order_notification order_id "FAILED" (Some order)
                                (Some ("Failed at " ++ status)) ;;;
        ret false
      else run_steps order_id order rest
  end.

(** What follows the gate: the loop, then marking the order completed. *)
Definition drive_pipeline (order_id : value) (order : item) : M bool :=
  finished <- run_steps order_id order processing_steps ;;
  if finished then
    ts <- lift (dict_getitem order "timestamp") ;;
    update_order_status order_id "COMPLETED" ts None ;;;
    send_order_notification order_id "COMPLETED" (Some order) None ;;;
    ret true
  else ret false.

(** The body of the [try] from the assignment of [order] on. *)
Definition process_found (order_id : value) (order : item) : M bool :=
  let current_status := dict_get order "status" (VStr "PENDING") in
  if negb (py_eq_str current_status "PENDING") then ret true
  else drive_pipeline order_id order.

(** The [except Exception as e] clause. [order] is the binding of the local
    variable of that name when the exception arrives: [None] when the
    exception was raised before [order = response['Items'][0]] ran, in which
    case reading it raises [UnboundLocalError] out of the handler. *)
Definition process_order_except (order_id : value) (order : option item)
    (e : exn) : M bool :=
  match order with
  | None => raise (UnboundLocalError "order")
  | Some o =>
      update_order_status order_id "FAILED" (dict_get o "timestamp" (VStr ""))
                          (Some (exn_str e)) ;;;
      ret false
  end.

Definition process_order (order_id : value) : M bool :=
  fun s =>
    match table_query order_id s with
    | (Raise e, s1) => process_order_except order_id None e s1
    | (Ret items, s1) =>
        match items with
        | [] => (Ret false, s1)
        | order :: _ =>
            try_except (process_found order_id order)
                       (process_order_except order_id (Some order)) s1
        end
    end.

(** ** The batch handler *)

Inductive response : Type :=
| Response200 (processedOrders failedOrders : list value)
| Response500 (error : string).

(** [json.loads(body)] *)
Definition py_json_loads (body : value) : res value :=
  match body with
  | VStr s =>
      match json_loads env s with
      | Some v => Ret v
      | None => Raise JSONDecodeError
      end
  | _ => Raise (TypeError "the JSON object must be str, bytes or bytearray")
  end.

(** One iteration of [for record in event['Records']], on the two lists. *)
Definition handle_record (record : value) (lists : list value * list value)
    : M (list value * list value) :=
  let '(processed_orders, failed_orders) := lists in
  try_except
    (body <- lift (getitem record "body") ;;
     message_body <- lift (py_json_loads body) ;;
     order_id <- lift (getitem message_body "orderId") ;;
     action <- lift (getitem message_body "action") ;;
     if py_eq_str action "PROCESS_ORDER" then
       result <- process_order order_id ;;
       if result then ret ((processed_orders ++ [order_id])%list, failed_orders)
       else ret (processed_orders, (failed_orders ++ [order_id])%list)
     else ret (processed_orders, (failed_orders ++ [order_id])%list))
    (fun _ =>
       message_id <- lift (py_get record "messageId" (VStr "unknown")) ;;
       ret (processed_orders, (failed_orders ++ [message_id])%list)).

Fixpoint handle_records (records : list value) (lists : list value * list value)
    : M (list value * list value) :=
  match records with
  | [] => ret lists
  | record :: rest =>
      lists' <- handle_record record lists ;;
      handle_records rest lists'
  end.

Definition handler (event : value) : M response :=
  try_except
    (records <- lift (getitem event "Records") ;;
     rs <- lift (py_iter records) ;;
     lists <- handle_records rs ([], []) ;;
     send_processing_metrics (length lists.1) (length lists.2) ;;;
     ret (Response200 lists.1 lists.2))
    (fun e => ret (Response500 (exn_str e))).

End Engine.

(** ** Concrete environments, tables and batches *)

Definition no_fault : nat -> option string := fun _ => None.

(** The bodies of three queue messages, and the decoder restricted to
    them: on these texts it answers as [json.loads] does, and it rejects
    every other text. *)
Definition dq : string := String "034"%char EmptyString.

Definition json_field (k v : string) : string :=
  dq ++ k ++ dq ++ ": " ++ dq ++ v ++ dq.

Definition message_json (order_id action : string) : string :=
  "{" ++ json_field "orderId" order_id ++ ", " ++ json_field "action" action ++ "}".

Definition message_dict (order_id action : string) : value :=
  VDict (<["action" := VStr action]> (<["orderId" := VStr order_id]> ∅)).

Definition toy_json_loads (s : string) : option value :=
  if String.eqb s (message_json "o1" "PROCESS_ORDER") then
    Some (message_dict "o1" "PROCESS_ORDER")
  else if String.eqb s (message_json "o2" "PROCESS_ORDER") then
    Some (message_dict "o2" "PROCESS_ORDER")
  else if String.eqb s (message_json "o1" "CANCEL_ORDER") then
    Some (message_dict "o1" "CANCEL_ORDER")
  else None.

(** Everything works: the topic is configured, no remote call faults, every
    random draw is 1/2 (no shortage, no payment decline). *)
Definition env_ok : Env :=
  {| SNS_TOPIC_ARN := Some "arn:aws:sns:eu-west-1:000000000000:orders";
     json_loads := toy_json_loads;
     float_of_str := fun _ => None;
     random_random := fun _ => 1 # 2;
     utcnow := fun _ => "2024-01-03T00:00:00";
     query_fault := no_fault;
     update_fault := no_fault;
     publish_fault := no_fault;
     metrics_fault := no_fault |}.

Definition state_of (t : list item) : State :=
  {| table := t; trace := [];
     n_random := 0; n_clock := 0; n_query := 0; n_update := 0;
     n_publish := 0; n_metrics := 0 |}.

Definition product_x : value :=
  VDict (<["productId" := VStr "X"]> (<["quantity" := VNum 1]> (<["unitPrice" := VNum 10]> ∅))).

Definition order_of (order_id timestamp status : string) (total : Q) : item :=
  <["orderId" := VStr order_id]> (<["timestamp" := VStr timestamp]>
  (<["customerId" := VStr "c1"]> (<["items" := VList [product_x]]>
  (<["totalAmount" := VNum total]> (<["status" := VStr status]> ∅))))).

Definition o1_pending : item := order_of "o1" "2024-01-01T00:00:00" "PENDING" 10.


Definition o1_completed : item := order_of "o1" "2024-01-01T00:00:00" "COMPLETED" 10.

(** As [env_ok], but the second random draw, the one of [process_payment]
    for an order of one item, falls under the decline threshold. *)
Definition env_payment_declined : Env :=
  {| SNS_TOPIC_ARN := SNS_TOPIC_ARN env_ok;
     json_loads := toy_json_loads;
     float_of_str := fun _ => None;
     random_random := fun n => if Nat.eqb n 1 then 1 # 100 else 1 # 2;
     utcnow := utcnow env_ok;
     query_fault := no_fault;
     update_fault := no_fault;
     publish_fault := no_fault;
     metrics_fault := no_fault |}.

(** As [env_ok], but every query of the table is throttled. *)
Definition env_query_down : Env :=
  {| SNS_TOPIC_ARN := SNS_TOPIC_ARN env_ok;
     json_loads := toy_json_loads;
     float_of_str := fun _ => None;
     random_random := random_random env_ok;
     utcnow := utcnow env_ok;
     query_fault := fun _ => Some "ProvisionedThroughputExceededException";
     update_fault := no_fault;
     publish_fault := no_fault;
     metrics_fault := no_fault |}.

(** A record without a [status] attribute. *)
Definition o1_no_status : item := delete "status" o1_pending.

Definition payment_declined_run : res bool * State :=
  process_order env_payment_declined (VStr "o1") (state_of [o1_pending]).

Definition query_down_run : res bool * State :=
  process_order env_query_down (VStr "o1") (state_of [o1_pending]).

(** Two records of the same order: the one created first is COMPLETED, the
    one created later, with the later timestamp, is PENDING. *)
Definition o1_second : item := order_of "o1" "2024-01-02T00:00:00" "PENDING" 10.

Definition two_records : list item := [o1_completed; o1_second].

Definition two_records_run : res bool * State :=
  process_order env_ok (VStr "o1") (state_of two_records).

(** In the words of the specification of the store: of the records of an
    order, the one written most recently. The table lists its items in
    order of creation, so that is the last of them. *)
Definition most_recently_written (o : string) (tb : list item) : option item :=
  last (List.filter (has_order_id o) tb).

(** As [env_ok], but every random draw is 0: the inventory is short. *)
Definition env_shortage : Env :=
  {| SNS_TOPIC_ARN := SNS_TOPIC_ARN env_ok;
     json_loads := toy_json_loads;
     float_of_str := fun _ => None;
     random_random := fun _ => 0%Q;
     utcnow := utcnow env_ok;
     query_fault := no_fault;
     update_fault := no_fault;
     publish_fault := no_fault;
     metrics_fault := no_fault |}.

(** A record of the queue event, and the event of a batch. *)
Definition record_of (message_id body : string) : value :=
  VDict (<["messageId" := VStr message_id]> (<["body" := VStr body]> ∅)).

Definition event_of (records : list value) : value :=
  VDict (<["Records" := VList records]> ∅).

Definition msg_o1 : value := record_of "m1" (message_json "o1" "PROCESS_ORDER").
Definition msg_cancel : value := record_of "m3" (message_json "o1" "CANCEL_ORDER").
Definition msg_garbage : value := record_of "m4" "not json".

Definition o2_pending : item := order_of "o2" "2024-01-01T00:00:05" "PENDING" 25.


Definition o1_zero_total : item := order_of "o1" "2024-01-01T00:00:00" "PENDING" 0.

(** As [env_shortage], but every status write is rejected. *)
Definition env_shortage_writes_down : Env :=
  {| SNS_TOPIC_ARN := SNS_TOPIC_ARN env_ok;
     json_loads := toy_json_loads;
     float_of_str := fun _ => None;
     random_random := fun _ => 0%Q;
     utcnow := utcnow env_ok;
     query_fault := no_fault;
     update_fault := fun _ => Some "ProvisionedThroughputExceededException";
     publish_fault := no_fault;
     metrics_fault := no_fault |}.

(** The same message delivered twice in one batch. *)
Definition twice_o1 : value := event_of [msg_o1; msg_o1].

(** A PENDING record without a [timestamp] attribute. *)
Definition o1_no_timestamp : item := delete "timestamp" o1_pending.

Definition completed_run : res bool * State :=
  process_order env_ok (VStr "o1") (state_of [o1_pending]).

(** An order whose total is negative. *)
Definition o1_negative_total : item :=
  order_of "o1" "2024-01-01T00:00:00" "PENDING" (-5).

(** An event without a [Records] entry. *)
Definition empty_event : value := VDict ∅.

(** An environment in which the table cannot be queried, with a decoder. *)
Definition env_query_down_batch : Env :=
  {| SNS_TOPIC_ARN := SNS_TOPIC_ARN env_ok;
     json_loads := json_loads env_ok;
     float_of_str := float_of_str env_ok;
     random_random := random_random env_ok;
     utcnow := utcnow env_ok;
     query_fault := fun _ => Some "ProvisionedThroughputExceededException";
     update_fault := update_fault env_ok;
     publish_fault := publish_fault env_ok;
     metrics_fault := metrics_fault env_ok |}.


(** * Vocabulary of the properties *)

Local Open Scope list_scope.

(** The order in which a query returns the items of one partition. *)
Definition item_le (x y : item) : Prop :=
  String.leb (sort_key x) (sort_key y) = true.

(** A well-formed order: it carries its identifier and a customer, at least
    one item, and a positive total. *)
Definition well_formed_order (order : item) : Prop :=
  is_Some (order !! "orderId") /\
  (exists c, order !! "customerId" = Some c /\ truthy c = true) /\
  (exists x l, order !! "items" = Some (VList (x :: l))) /\
  (exists q, order !! "totalAmount" = Some (VNum q) /\ (0 < q)%Q).

(** The boolean [validate_order] returns, as one expression. *)
Definition validate_result (env : Env) (order : item) : bool :=
  if existsb (missing_or_empty order) required_fields then false
  else
    match order !! "items" with
    | Some (VList (_ :: _)) =>
        match order !! "totalAmount" with
        | Some v =>
            match py_float env v with
            | Ret q =>
                if Qle_bool q 0 then false
                else if order !! "orderId" is Some _ then true else false
            | Raise _ => false
            end
        | None => false
        end
    | _ => false
    end.

(** One tag per record of a batch: the entry it contributes and whether it
    goes to [processedOrders] ([true]) or to [failedOrders]. *)
Definition processed_of (tags : list (bool * value)) : list value :=
  List.map snd (List.filter fst tags).

Definition failed_of (tags : list (bool * value)) : list value :=
  List.map snd (List.filter (fun t => negb t.1) tags).







(** ** Two runs side by side

    [rel_M P Q c1 c2]: from states related by [P], the two computations
    give the same result and leave states related by [Q]. *)
Definition rel_M {A} (P Q : State -> State -> Prop) (c1 c2 : M A) : Prop :=
  forall s1 s2, P s1 s2 ->
    (c1 s1).1 = (c2 s2).1 /\ Q (c1 s1).2 (c2 s2).2.

(** Two environments that give the code the same inputs: they may differ in
    the notification target, in the clock, and in which status writes,
    publishes and metric reports fault. *)
Definition same_inputs (env1 env2 : Env) : Prop :=
  json_loads env1 = json_loads env2 /\
  float_of_str env1 = float_of_str env2 /\
  random_random env1 = random_random env2 /\
  query_fault env1 = query_fault env2.

(** Two environments that differ at most in which publishes and metric
    reports fault. *)
Definition same_but_sink_faults (env1 env2 : Env) : Prop :=
  same_inputs env1 env2 /\
  SNS_TOPIC_ARN env1 = SNS_TOPIC_ARN env2 /\
  utcnow env1 = utcnow env2 /\
  update_fault env1 = update_fault env2.

Definition same_random (s1 s2 : State) : Prop := n_random s1 = n_random s2.

Definition same_store (s1 s2 : State) : Prop :=
  table s1 = table s2 /\ n_query s1 = n_query s2 /\ n_random s1 = n_random s2.

(** Equal but for the trace. *)
Definition same_but_trace (s1 s2 : State) : Prop :=
  table s1 = table s2 /\ n_random s1 = n_random s2 /\
  n_clock s1 = n_clock s2 /\ n_query s1 = n_query s2 /\
  n_update s1 = n_update s2 /\ n_publish s1 = n_publish s2 /\
  n_metrics s1 = n_metrics s2.

(** The order id a record hands to [process_order], if it gets that far. *)
Definition dispatched_id (env : Env) (record : value) : option value :=
  match getitem record "body" with
  | Ret body =>
      match py_json_loads env body with
      | Ret message_body =>
          match getitem message_body "orderId", getitem message_body "action" with
          | Ret order_id, Ret action =>
              if py_eq_str action "PROCESS_ORDER" then Some order_id else None
          | _, _ => None
          end
      | Raise _ => None
      end
  | Raise _ => None
  end.

(** The partition key an order id stands for, when it can be one. *)
Definition order_key (order_id : value) : option string :=
  match order_id with
  | VStr o => Some o
  | _ => None
  end.

(** The orders a batch hands to [process_order], in order. *)
Definition batch_keys (env : Env) (records : list value) : list string :=
  omap (fun record => dispatched_id env record ≫= order_key) records.

(** The two tables answer alike for the orders in [K]. *)
Definition agree_on (K : list string) (s1 s2 : State) : Prop :=
  n_random s1 = n_random s2 /\ n_query s1 = n_query s2 /\
  forall o, In o K -> query_items o (table s1) = query_items o (table s2).

Definition is_publish (e : event) : Prop :=
  match e with EvPublish _ _ _ => True | _ => False end.

Definition is_exec (e : event) : Prop :=
  match e with EvExec _ _ => True | _ => False end.

Definition is_notify (e : event) : Prop :=
  match e with EvNotify _ _ _ => True | _ => False end.

(** What [f order] returns and where it leaves the random cursor depend on
    the state through that cursor only. *)
Definition quiet (f : Executor) : Prop :=
  forall order n, exists b n',
    forall s, n_random s = n -> f order s = (Ret b, set_random n' s).

(** The table holds the record with that key, with that status and, when a
    message is given, that [errorMessage]. *)
Definition recorded (order_id timestamp : value) (status : string)
    (error_message : option string) (tb : list item) : Prop :=
  exists o t,
    order_id = VStr o /\ timestamp = VStr t /\
    (exists it, In it tb /\ has_key o t it = true) /\
    forall it, In it tb -> has_key o t it = true ->
      it !! "status" = Some (VStr status) /\
      forall m, error_message = Some m -> it !! "errorMessage" = Some (VStr m).

Definition failed_at (status : string) : string := ("Failed at " ++ status)%string.

(** The calls made by the loop over the steps named [names], its outcome
    ([true]: fell off the end) and the table [tb] it leaves. *)
Inductive steps_trace (order_id ts : value) (tb : list item)
    : list string -> bool -> list event -> Prop :=
| steps_done :
    steps_trace order_id ts tb [] true []
| steps_ok k ks a r tr :
    steps_trace order_id ts tb ks r tr ->
    steps_trace order_id ts tb (k :: ks) r
      (EvUpdateItem order_id ts k None a :: EvExec k true :: tr)
| steps_failed k ks a a' pubs :
    Forall is_publish pubs -> length pubs <= 1 ->
    (a' = true -> recorded order_id ts "FAILED" (Some (failed_at k)) tb) ->
    steps_trace order_id ts tb (k :: ks) false
      (EvUpdateItem order_id ts k None a :: EvExec k false ::
       EvUpdateItem order_id ts "FAILED" (Some (failed_at k)) a' ::
       EvNotify order_id "FAILED" (Some (failed_at k)) :: pubs).

Definition step_names : list string :=
  ["VALIDATING"; "INVENTORY_CHECK"; "PAYMENT_PROCESSING"; "FULFILLMENT"].

(** The calls made by one [process_order] after its query, with its result
    and the table it leaves. *)
Inductive order_run (order_id : value) (tb0 tb : list item)
    : res bool -> list event -> Prop :=
| run_query_raised :
    tb = tb0 ->
    order_run order_id tb0 tb (Raise (UnboundLocalError "order")) []
| run_not_found :
    tb = tb0 ->
    order_run order_id tb0 tb (Ret false) []
| run_already_handled :
    tb = tb0 ->
    order_run order_id tb0 tb (Ret true) []
| run_no_timestamp :
    tb = tb0 ->
    order_run order_id tb0 tb (Ret false)
      [EvUpdateItem order_id (VStr "") "FAILED" (Some "'timestamp'") false]
| run_step_failed ts tr :
    steps_trace order_id ts tb step_names false tr ->
    order_run order_id tb0 tb (Ret false) tr
| run_completed ts tr a pubs :
    steps_trace order_id ts tb step_names true tr ->
    Forall is_publish pubs -> length pubs <= 1 ->
    (a = true -> recorded order_id ts "COMPLETED" None tb) ->
    order_run order_id tb0 tb (Ret true)
      (tr ++ EvUpdateItem order_id ts "COMPLETED" None a ::
             EvNotify order_id "COMPLETED" None :: pubs).

(** ** Reading a trace, and what a run preserves *)

(** The executors invoked in a trace, with what each returned, in order. *)
Definition exec_results (tr : list event) : list (string * bool) :=
  omap (fun e => match e with EvExec k b => Some (k, b) | _ => None end) tr.

Definition succeeded (names : list string) : list (string * bool) :=
  List.map (fun k => (k, true)) names.

Definition is_metrics (e : event) : Prop :=
  match e with EvMetrics _ _ _ => True | _ => False end.

(** The customer a notification names: the [customerId] of the order data,
    ['Unknown'] without order data or without that attribute. *)
Definition customer_of (order_data : option item) : value :=
  default unknown (order_data ≫= (fun od => od !! "customerId")).

(** Two records with the same primary key attributes. *)
Definition same_key (a b : item) : Prop :=
  a !! "orderId" = b !! "orderId" /\ a !! "timestamp" = b !! "timestamp".

(** A status write the table applied. *)
Definition applied_write (e : event) : Prop :=
  match e with EvUpdateItem _ _ _ _ true => True | _ => False end.

(** The record carries a status other than PENDING. *)
Definition past_pending (it : item) : Prop :=
  exists st, it !! "status" = Some (VStr st) /\ st <> "PENDING".

(** [keeps J c]: the computation [c] preserves the property [J] of states. *)
Definition keeps {A} (J : State -> Prop) (c : M A) : Prop :=
  forall s, J s -> J (c s).2.

(** What holds while [process_order] works on the record of order [o] with
    timestamp [ts], from the table [tb0] and the trace [pre]: the records
    keep their keys and their places, and once the table has applied a write
    the records under the key of the order are past PENDING. *)
Definition pipeline_inv (o : string) (ts : value) (tb0 : list item)
    (pre : list event) (s : State) : Prop :=
  exists tr,
    trace s = (pre ++ tr)%list /\
    Forall2 same_key tb0 (table s) /\
    (Exists applied_write tr ->
     exists t, ts = VStr t /\
       forall it, In it (table s) -> has_key o t it = true -> past_pending it).

(** ** The failure of a step, call by call *)







(** * Verification *)

(** ** The monad *)

Lemma try_except_unit (c : M unit) (s : State) :
  exists s', try_except c (fun _ => ret tt) s = (Ret tt, s').
Proof.
  unfold try_except, ret.
  destruct (c s) as [[[]|e] s']; eauto.
Qed.

(** Closed goals: split the conjunctions, then evaluate each equation. *)
Ltac by_evaluation :=
  repeat match goal with |- _ /\ _ => split end;
  reflexivity.

Ltac mred :=
  cbv beta iota delta
    [bind ret raise lift try_except emit set_table get_table
     py_random py_utcnow next_query_fault next_update_fault
     next_publish_fault next_metrics_fault];
  cbn [table trace n_random n_clock n_query n_update n_publish n_metrics].

(** ** update_order_status *)

Lemma update_order_status_spec env order_id status timestamp error_message s :
  exists s' applied,
    update_order_status env order_id status timestamp error_message s = (Ret tt, s') /\
    trace s' = trace s ++
      [EvUpdateItem order_id timestamp status (sent_message error_message) applied] /\
    n_random s' = n_random s /\ n_query s' = n_query s /\
    n_publish s' = n_publish s /\ n_metrics s' = n_metrics s /\
    (applied = false -> table s' = table s) /\
    (applied = true ->
     exists o t, order_id = VStr o /\ timestamp = VStr t /\
       table s' = apply_update o t
         (set_attrs status (utcnow env (n_clock s)) (sent_message error_message))
         (table s)).
Proof.
  unfold update_order_status, table_update_item, sent_message.
  destruct s as [tb tr nr nc nq nu np nm]. mred.
  destruct (update_fault env nu) as [msg|].
  { eexists _, false. repeat split; try reflexivity; discriminate. }
  destruct order_id as [| | |o| |];
    try (eexists _, false; repeat split; try reflexivity; discriminate).
  destruct timestamp as [| | |t| |];
    try (eexists _, false; repeat split; try reflexivity; discriminate).
  destruct (String.eqb o "" || String.eqb t "") eqn:E.
  { eexists _, false. repeat split; try reflexivity; discriminate. }
  eexists _, true. repeat split; try reflexivity; try discriminate.
  intros _. eexists o, t. repeat split; reflexivity.
Qed.

(** Case on an innermost scrutinee of the goal, then reduce. *)
Ltac mcase :=
  match goal with
  | |- context [match ?x with _ => _ end] =>
      lazymatch x with
      | context [match _ with _ => _ end] => fail
      | _ => destruct x eqn:?
      end
  end; mred.

(** ** The notification and metrics sink *)

Lemma send_order_notification_spec env order_id event_type order_data error_message s :
  exists s' pubs,
    send_order_notification env order_id event_type order_data error_message s
      = (Ret tt, s') /\
    trace s' = trace s ++ EvNotify order_id event_type error_message :: pubs /\
    Forall is_publish pubs /\ length pubs <= 1 /\
    (topic_configured env = false -> pubs = []) /\
    table s' = table s /\
    n_random s' = n_random s /\ n_query s' = n_query s /\
    n_update s' = n_update s /\ n_metrics s' = n_metrics s.
Proof.
  unfold send_order_notification, sns_publish.
  destruct s as [tb tr nr nc nq nu np nm]. mred.
  destruct (topic_configured env) eqn:Hc; cbn [negb].
  2:{ eexists _, []. repeat split; auto. }
  repeat (mcase; try discriminate);
    match goal with
    | |- context [EvPublish ?a ?b ?c] => eexists _, [EvPublish a b c]
    | |- _ => eexists _, []
    end;
    repeat split; try reflexivity; try discriminate;
    try (cbn; rewrite <- ?app_assoc; reflexivity);
    try (repeat constructor); cbn; lia.
Qed.

(** ** The step executors: they never raise, and touch nothing but the
    cursor of the random source *)

Lemma set_random_id s : set_random (n_random s) s = s.
Proof. destruct s; reflexivity. Qed.

Lemma shortage_in_frame env items :
  forall n, exists r n',
    forall s, n_random s = n -> shortage_in env items s = (r, set_random n' s).
Proof.
  induction items as [|it rest IH]; intros n.
  - exists (Ret false), n. intros s <-. cbn. unfold ret.
    now rewrite set_random_id.
  - cbn [shortage_in]. destruct (IH (S n)) as (r & n' & Hr).
    destruct (Qlt_bool (random_random env n) (1 # 10)) eqn:Hq.
    + destruct (py_get it "productId" (VStr "unknown")) as [v|e] eqn:Hg.
      * exists (Ret true), (S n). intros [tb tr nr nc nq nu np nm] Hn.
        cbn in Hn; subst nr. mred. rewrite ?Hq, ?Hg. reflexivity.
      * exists (Raise e), (S n). intros [tb tr nr nc nq nu np nm] Hn.
        cbn in Hn; subst nr. mred. rewrite ?Hq, ?Hg. reflexivity.
    + exists r, n'. intros [tb tr nr nc nq nu np nm] Hn.
      cbn in Hn; subst nr. mred. rewrite Hq. rewrite Hr by reflexivity.
      reflexivity.
Qed.

Lemma validate_order_quiet env : quiet (validate_order env).
Proof.
  intros order n. unfold validate_order. mred.
  repeat (mcase; try discriminate);
    match goal with
    | |- context [Ret ?b] => exists b, n; intros s <-; now rewrite set_random_id
    end.
Qed.

Lemma fulfill_order_quiet : quiet fulfill_order.
Proof.
  intros order n. unfold fulfill_order, time_sleep. mred.
  repeat (mcase; try discriminate);
    match goal with
    | |- context [Ret ?b] => exists b, n; intros s <-; now rewrite set_random_id
    end.
Qed.

Lemma process_payment_quiet env : quiet (process_payment env).
Proof.
  intros order n. unfold process_payment, time_sleep. mred.
  destruct (dict_getitem order "totalAmount") as [total|e].
  2:{ exists false, n. intros s <-. now rewrite set_random_id. }
  destruct (py_float env total) as [amount|e].
  2:{ exists false, n. intros s <-. now rewrite set_random_id. }
  destruct (Qlt_bool (random_random env n) (5 # 100)) eqn:Hq;
    [|destruct (Qlt_bool (Qmin (1 # 2) (amount / 1000)) 0)];
    destruct (dict_getitem order "orderId");
    match goal with
    | |- context [Ret ?b] =>
        exists b, (S n); intros [tb tr nr nc nq nu np nm] Hn;
        cbn in Hn; subst nr; cbn [n_random]; rewrite Hq; reflexivity
    end.
Qed.

Lemma check_inventory_quiet env : quiet (check_inventory env).
Proof.
  intros order n. unfold check_inventory. mred.
  destruct (dict_getitem order "items") as [items|e].
  2:{ exists false, n. intros s <-. now rewrite set_random_id. }
  destruct (py_iter items) as [its|e].
  2:{ exists false, n. intros s <-. now rewrite set_random_id. }
  destruct (shortage_in_frame env its n) as (r & n' & Hr).
  destruct r as [[]|e]; [| destruct (dict_getitem order "orderId") |];
    match goal with
    | |- context [Ret ?b] =>
        exists b, n'; intros s Hn; rewrite (Hr s Hn); reflexivity
    end.
Qed.

Lemma processing_steps_quiet env :
  Forall (fun step => quiet step.2) (processing_steps env).
Proof.
  repeat constructor; cbn [snd].
  - apply validate_order_quiet.
  - apply check_inventory_quiet.
  - apply process_payment_quiet.
  - apply fulfill_order_quiet.
Qed.

(** ** The table *)

Lemma has_key_set_attrs o t status now msg it :
  has_key o t (set_attrs status now msg it) = has_key o t it.
Proof.
  unfold has_key, has_order_id, set_attrs.
  destruct msg; now rewrite !lookup_insert_ne by discriminate.
Qed.

Lemma set_attrs_status status now msg it :
  set_attrs status now msg it !! "status" = Some (VStr status) /\
  forall m, msg = Some m ->
    set_attrs status now msg it !! "errorMessage" = Some (VStr m).
Proof.
  unfold set_attrs. destruct msg as [m'|]; split.
  - rewrite lookup_insert_ne by discriminate.
    rewrite lookup_insert_ne by discriminate. apply lookup_insert_eq.
  - intros m [= ->]. apply lookup_insert_eq.
  - rewrite lookup_insert_ne by discriminate. apply lookup_insert_eq.
  - discriminate.
Qed.

Lemma apply_update_recorded o t status now msg tb :
  recorded (VStr o) (VStr t) status msg
           (apply_update o t (set_attrs status now msg) tb).
Proof.
  exists o, t. split; [reflexivity|]. split; [reflexivity|].
  unfold apply_update. destruct (existsb (has_key o t) tb) eqn:Hex.
  - split.
    + apply existsb_exists in Hex as (it & Hin & Hk).
      exists (set_attrs status now msg it). split.
      * apply in_map_iff. exists it. now rewrite Hk.
      * now rewrite has_key_set_attrs.
    + intros it' Hin Hk'. apply in_map_iff in Hin as (it & <- & Hin).
      destruct (has_key o t it) eqn:Hk.
      * apply set_attrs_status.
      * congruence.
  - assert (Hnew : has_key o t
        (set_attrs status now msg
           (<["timestamp" := VStr t]> (<["orderId" := VStr o]> ∅))) = true).
    { rewrite has_key_set_attrs. unfold has_key, has_order_id.
      rewrite lookup_insert_ne by discriminate.
      rewrite !lookup_insert_eq. now rewrite !String.eqb_refl. }
    split.
    + eexists. split; [apply in_or_app; right; left; reflexivity | exact Hnew].
    + intros it Hin Hk. apply in_app_or in Hin as [Hin|[<-|[]]].
      * assert (existsb (has_key o t) tb = true)
          by (apply existsb_exists; eauto).
        congruence.
      * apply set_attrs_status.
Qed.

Lemma update_order_status_recorded env order_id status timestamp error_message s :
  exists s' applied,
    update_order_status env order_id status timestamp error_message s = (Ret tt, s') /\
    trace s' = trace s ++
      [EvUpdateItem order_id timestamp status (sent_message error_message) applied] /\
    n_random s' = n_random s /\ n_query s' = n_query s /\
    (applied = false -> table s' = table s) /\
    (applied = true ->
     recorded order_id timestamp status (sent_message error_message) (table s')).
Proof.
  destruct (update_order_status_spec env order_id status timestamp error_message s)
    as (s' & a & Hrun & Htr & Hr & Hq & _ & _ & Hf & Ht).
  exists s', a. repeat split; auto.
  intros Ha. destruct (Ht Ha) as (o & t & -> & -> & ->).
  apply apply_update_recorded.
Qed.

(** ** The loop over the steps *)

Lemma bind_eq {A B} (c : M A) (k : A -> M B) s a s' :
  c s = (Ret a, s') -> bind c k s = k a s'.
Proof. unfold bind. now intros ->. Qed.

Lemma exec_step_eq k (f : Executor) order s b s' :
  f order s = (Ret b, s') ->
  exists s'', exec_step k f order s = (Ret b, s'') /\
    trace s'' = trace s' ++ [EvExec k b] /\ table s'' = table s' /\
    n_random s'' = n_random s' /\ n_query s'' = n_query s'.
Proof.
  intros H. unfold exec_step. rewrite (bind_eq _ _ _ _ _ H).
  eexists. split; [reflexivity|]. repeat split.
Qed.

Lemma sent_failed_at k : sent_message (Some (failed_at k)) = Some (failed_at k).
Proof. reflexivity. Qed.

Lemma run_steps_trace env order_id order ts steps :
  order !! "timestamp" = Some ts ->
  Forall (fun step => quiet step.2) steps ->
  forall s, exists r s' tr,
    run_steps env order_id order steps s = (Ret r, s') /\
    trace s' = trace s ++ tr /\
    steps_trace order_id ts (table s') (List.map fst steps) r tr /\
    n_query s' = n_query s.
Proof.
  intros Hts Hq. induction Hq as [|[k f] rest Hf Hrest IH]; intros s.
  - exists true, s, []. cbn. rewrite app_nil_r. repeat split. constructor.
  - cbn [run_steps List.map fst]. unfold dict_getitem. rewrite Hts.
    cbn [lift]. rewrite (bind_eq _ _ s ts s) by reflexivity.
    destruct (update_order_status_recorded env order_id k ts None s)
      as (s1 & a & Hu & Htr1 & Hr1 & Hq1 & _ & _).
    rewrite (bind_eq _ _ _ _ _ Hu).
    destruct (Hf order (n_random s1)) as (b & n' & Hb). cbn [snd] in Hb.
    specialize (Hb s1 eq_refl).
    destruct (exec_step_eq k f order _ _ _ Hb)
      as (s2' & He & Htr2' & _ & _ & Hq2').
    rewrite (bind_eq _ _ _ _ _ He).
    assert (Htr2 : trace s2' = trace s ++
               [EvUpdateItem order_id ts k None a; EvExec k b]).
    { rewrite Htr2'. cbn. rewrite Htr1. now rewrite <- app_assoc. }
    assert (Hq2 : n_query s2' = n_query s) by (rewrite Hq2'; cbn; congruence).
    clear He Htr2' Hq2'. destruct b; cbn [negb].
    + destruct (IH s2') as (r & s' & tr & Hrun & Htr & Hst & Hq').
      exists r, s', (EvUpdateItem order_id ts k None a :: EvExec k true :: tr).
      repeat split.
      * exact Hrun.
      * rewrite Htr, Htr2. now rewrite <- app_assoc.
      * now constructor.
      * congruence.
    + rewrite (bind_eq _ _ s2' ts s2') by reflexivity.
      destruct (update_order_status_recorded env order_id "FAILED" ts
                  (Some (failed_at k)) s2')
        as (s3 & a' & Hu3 & Htr3 & Hr3 & Hq3 & _ & Hrec).
      fold (failed_at k). rewrite (bind_eq _ _ _ _ _ Hu3).
      destruct (send_order_notification_spec env order_id "FAILED" (Some order)
                  (Some (failed_at k)) s3)
        as (s4 & pubs & Hn & Htr4 & Hp & Hl & _ & Htb4 & _ & Hq4 & _).
      rewrite (bind_eq _ _ _ _ _ Hn).
      eexists false, s4, _. repeat split.
      * rewrite Htr4, Htr3, Htr2, sent_failed_at.
        rewrite <- !app_assoc. cbn [app]. reflexivity.
      * constructor; auto. rewrite Htb4. exact Hrec.
      * congruence.
Qed.

Lemma steps_trace_true_table order_id ts tb tb' names r tr :
  steps_trace order_id ts tb names r tr -> r = true ->
  steps_trace order_id ts tb' names r tr.
Proof.
  induction 1; intros Hr; try discriminate; constructor; auto.
Qed.

(** ** process_order *)

Lemma table_query_spec env order_id s :
  exists r s1,
    table_query env order_id s = (r, s1) /\
    trace s1 = trace s ++ [EvQuery order_id] /\
    table s1 = table s /\ n_random s1 = n_random s /\
    n_query s1 = S (n_query s) /\
    match r with
    | Ret items =>
        query_fault env (n_query s) = None /\
        exists o, order_id = VStr o /\ String.eqb o "" = false /\
                  items = query_items o (table s)
    | Raise _ => True
    end.
Proof.
  unfold table_query. destruct s as [tb tr nr nc nq nu np nm]. mred.
  destruct (query_fault env nq) as [msg|] eqn:Hf.
  { eexists _, _. repeat split. }
  destruct order_id as [| | |o| |]; try (eexists _, _; repeat split; fail).
  destruct (String.eqb o "") eqn:Ho.
  { eexists _, _. repeat split. }
  eexists _, _. repeat split. exists o. auto.
Qed.

Lemma table_query_ok env o s :
  query_fault env (n_query s) = None -> String.eqb o "" = false ->
  exists s1,
    table_query env (VStr o) s = (Ret (query_items o (table s)), s1) /\
    trace s1 = trace s ++ [EvQuery (VStr o)] /\
    table s1 = table s /\ n_random s1 = n_random s /\
    n_query s1 = S (n_query s).
Proof.
  intros Hf Ho. unfold table_query.
  destruct s as [tb tr nr nc nq nu np nm]. cbn in Hf. mred.
  rewrite Hf, Ho. eexists. repeat split.
Qed.

Lemma update_without_timestamp env order_id status error_message s :
  exists s',
    update_order_status env order_id status (VStr "") error_message s = (Ret tt, s') /\
    trace s' = trace s ++
      [EvUpdateItem order_id (VStr "") status (sent_message error_message) false] /\
    table s' = table s /\ n_random s' = n_random s /\ n_query s' = n_query s.
Proof.
  unfold update_order_status, table_update_item.
  destruct s as [tb tr nr nc nq nu np nm]. mred.
  destruct (update_fault env nu); [eexists; repeat split|].
  destruct order_id; try (eexists; repeat split; fail).
  rewrite orb_true_r. eexists; repeat split.
Qed.

Lemma steps_names env : List.map fst (processing_steps env) = step_names.
Proof. reflexivity. Qed.

(** After the gate, on a record with a timestamp. *)
Lemma drive_pipeline_run env order_id order ts s :
  order !! "timestamp" = Some ts ->
  exists r s' tr,
    drive_pipeline env order_id order s = (Ret r, s') /\
    trace s' = trace s ++ tr /\
    n_query s' = n_query s /\
    order_run order_id (table s) (table s') (Ret r) tr /\
    exists a b tr',
      tr = EvUpdateItem order_id ts "VALIDATING" None a ::
           EvExec "VALIDATING" b :: tr'.
Proof.
  intros Hts.
  destruct (run_steps_trace env order_id order ts (processing_steps env) Hts
              (processing_steps_quiet env) s)
    as (r & s1 & tr & Hrun & Htr & Hst & Hq).
  rewrite steps_names in Hst. unfold drive_pipeline.
  rewrite (bind_eq _ _ _ _ _ Hrun). destruct r.
  - unfold dict_getitem. rewrite Hts. cbn [lift].
    rewrite (bind_eq _ _ s1 ts s1) by reflexivity.
    destruct (update_order_status_recorded env order_id "COMPLETED" ts None s1)
      as (s2 & a & Hu & Htr2 & _ & Hq2 & _ & Hrec).
    rewrite (bind_eq _ _ _ _ _ Hu).
    destruct (send_order_notification_spec env order_id "COMPLETED" (Some order)
                None s2)
      as (s3 & pubs & Hn & Htr3 & Hp & Hl & _ & Htb3 & _ & Hq3 & _).
    rewrite (bind_eq _ _ _ _ _ Hn).
    eexists true, s3, _. repeat split.
    + rewrite Htr3, Htr2, Htr. rewrite <- !app_assoc. cbn [app]. reflexivity.
    + congruence.
    + apply run_completed; auto.
      * eapply steps_trace_true_table; eauto.
      * rewrite Htb3. exact Hrec.
    + inversion Hst; subst. cbn. eauto.
  - exists false, s1, tr. repeat split; auto.
    + eapply run_step_failed; eauto.
    + inversion Hst; subst; eauto.
Qed.

(** After the gate, on a record without a timestamp: the first
    [order['timestamp']] raises, the handler tries to mark the order FAILED
    under an empty timestamp, which the table rejects. *)
Lemma drive_pipeline_no_timestamp env order_id order s :
  order !! "timestamp" = None ->
  exists s',
    try_except (drive_pipeline env order_id order)
               (process_order_except env order_id (Some order)) s
      = (Ret false, s') /\
    trace s' = trace s ++
      [EvUpdateItem order_id (VStr "") "FAILED" (Some "'timestamp'") false] /\
    table s' = table s /\ n_query s' = n_query s.
Proof.
  intros Hts. unfold try_except, drive_pipeline. cbn [processing_steps run_steps].
  unfold dict_getitem. rewrite Hts. cbn [lift bind].
  unfold process_order_except, dict_get. rewrite Hts. cbn [from_option].
  destruct (update_without_timestamp env order_id "FAILED"
              (Some (exn_str (KeyError "timestamp"))) s)
    as (s' & Hu & Htr & Htb & _ & Hq).
  rewrite (bind_eq _ _ _ _ _ Hu). exists s'. auto.
Qed.

(** Every run of [process_order] is one of the six shapes of [order_run]. *)
Lemma process_order_run env order_id s :
  exists r s' tr,
    process_order env order_id s = (r, s') /\
    trace s' = trace s ++ EvQuery order_id :: tr /\
    n_query s' = S (n_query s) /\
    order_run order_id (table s) (table s') r tr.
Proof.
  unfold process_order.
  destruct (table_query_spec env order_id s)
    as (r & s1 & Hq & Htr1 & Htb1 & _ & Hn1 & _).
  rewrite Hq. destruct r as [[|order rest]|e].
  - exists (Ret false), s1, []. repeat split; auto. now constructor.
  - unfold process_found.
    destruct (negb (py_eq_str (dict_get order "status" (VStr "PENDING")) "PENDING"))
      eqn:Hgate.
    + unfold try_except, ret.
      exists (Ret true), s1, []. repeat split; auto. now constructor.
    + destruct (order !! "timestamp") as [ts|] eqn:Hts.
      * destruct (drive_pipeline_run env order_id order ts s1 Hts)
          as (r & s' & tr & Hrun & Htr & Hn & Hor & _).
        unfold try_except. rewrite Hrun.
        exists (Ret r), s', tr. repeat split.
        -- rewrite Htr, Htr1. now rewrite <- app_assoc.
        -- congruence.
        -- now rewrite <- Htb1.
      * destruct (drive_pipeline_no_timestamp env order_id order s1 Hts)
          as (s' & Hrun & Htr & Htb & Hn).
        rewrite Hrun. eexists (Ret false), s', _. repeat split.
        -- rewrite Htr, Htr1. now rewrite <- app_assoc.
        -- congruence.
        -- apply run_no_timestamp. congruence.
  - exists (Raise (UnboundLocalError "order")), s1, []. repeat split; auto.
    now constructor.
Qed.

Lemma py_eq_str_true v lit : py_eq_str v lit = true <-> v = VStr lit.
Proof.
  destruct v; cbn; try (split; [discriminate | discriminate]).
  rewrite String.eqb_eq. split; [now intros -> | now intros [= ->]].
Qed.

(** C1. An order that is already at a status other than PENDING (COMPLETED
    and FAILED among them): processing it again returns success, makes no
    call after the query, so invokes no step executor, and leaves the table,
    and with it the status of the record, as it was. *)
Theorem process_order_idempotent env o order rest status s :
  query_fault env (n_query s) = None ->
  String.eqb o "" = false ->
  query_items o (table s) = order :: rest ->
  order !! "status" = Some status ->
  status <> VStr "PENDING" ->
  exists s',
    process_order env (VStr o) s = (Ret true, s') /\
    table s' = table s /\
    trace s' = trace s ++ [EvQuery (VStr o)] /\
    Forall (fun e => ~ is_exec e) [EvQuery (VStr o)].
Proof.
  intros Hf Ho Hq Hst Hne.
  destruct (table_query_ok env o s Hf Ho) as (s1 & Hrun & Htr & Htb & _).
  unfold process_order. rewrite Hrun, Hq.
  unfold try_except, process_found, dict_get. rewrite Hst.
  cbn [from_option id].
  destruct (py_eq_str status "PENDING") eqn:He.
  { apply py_eq_str_true in He. contradiction. }
  cbn [negb]. exists s1. repeat split; auto.
Qed.

Lemma process_order_idempotent_witness :
  exists s',
    process_order env_ok (VStr "o1") (state_of [o1_completed]) = (Ret true, s') /\
    table s' = table (state_of [o1_completed]) /\
    trace s' = trace (state_of [o1_completed]) ++ [EvQuery (VStr "o1")] /\
    Forall (fun e => ~ is_exec e) [EvQuery (VStr "o1")].
Proof.
  apply (process_order_idempotent env_ok "o1" o1_completed [] (VStr "COMPLETED"));
    [reflexivity | reflexivity | reflexivity | reflexivity | discriminate].
Defined.

(** ** Consequences of the shape of the traces *)



Lemma steps_trace_failure order_id ts tb names r tr k :
  steps_trace order_id ts tb names r tr ->
  In (EvExec k false) tr ->
  r = false /\ In k names /\
  exists pre a pubs,
    tr = pre ++ [EvExec k false;
                 EvUpdateItem order_id ts "FAILED" (Some (failed_at k)) a;
                 EvNotify order_id "FAILED" (Some (failed_at k))] ++ pubs /\
    Forall (fun e => ~ is_notify e) pre /\
    Forall is_publish pubs /\ length pubs <= 1 /\
    (a = true -> recorded order_id ts "FAILED" (Some (failed_at k)) tb).
Proof.
  induction 1 as [|k0 ks a r tr Hst IH|k0 ks a a' pubs Hp Hl Hrec]; intros Hin.
  - destruct Hin.
  - destruct Hin as [Hin|[Hin|Hin]]; try discriminate.
    destruct (IH Hin) as (-> & Hk & pre & a0 & pubs & -> & Hpre & Hp & Hl & Hrec).
    split; [reflexivity|]. split; [now right|].
    exists (EvUpdateItem order_id ts k0 None a :: EvExec k0 true :: pre), a0, pubs.
    repeat split; auto; repeat constructor; auto.
  - assert (k = k0) as ->.
    { destruct Hin as [Hin|[Hin|[Hin|[Hin|Hin]]]]; try discriminate.
      - now injection Hin.
      - exfalso. rewrite List.Forall_forall in Hp. exact (Hp _ Hin). }
    split; [reflexivity|]. split; [now left|].
    exists [EvUpdateItem order_id ts k0 None a], a', pubs.
    repeat split; auto; repeat constructor; intros [].
Qed.

Lemma steps_trace_true_no_failure order_id ts tb names tr k :
  steps_trace order_id ts tb names true tr -> ~ In (EvExec k false) tr.
Proof.
  intros Hst Hin. now destruct (steps_trace_failure _ _ _ _ _ _ _ Hst Hin).
Qed.

Lemma process_order_trace env order_id s r s' tr :
  process_order env order_id s = (r, s') ->
  trace s' = trace s ++ tr ->
  exists tr0, tr = EvQuery order_id :: tr0 /\
              order_run order_id (table s) (table s') r tr0.
Proof.
  intros Hrun Htr.
  destruct (process_order_run env order_id s) as (r0 & s0 & tr0 & Hrun0 & Htr0 & _ & Hor).
  rewrite Hrun in Hrun0. injection Hrun0 as <- <-.
  rewrite Htr0 in Htr. apply app_inv_head in Htr. subst tr. eauto.
Qed.

Lemma failed_customer order_data :
  match order_data with
  | Some od => if truthy (VDict od) then dict_get od "customerId" unknown
               else unknown
  | None => unknown
  end = customer_of order_data.
Proof.
  destruct order_data as [od|]; [|reflexivity].
  unfold customer_of, dict_get. cbn [mbind option_bind truthy].
  destruct (Nat.eqb (size od) 0) eqn:E; cbn [negb]; [|reflexivity].
  apply Nat.eqb_eq, map_size_empty_iff in E. subst od.
  now rewrite lookup_empty.
Qed.













(** C9. A record that has no status attribute passes the gate as a PENDING
    one does: [process_order] is the run of the pipeline on it, which starts
    by writing status VALIDATING and invoking the validation executor. *)
Theorem missing_status_is_pending env o order rest ts s :
  query_fault env (n_query s) = None ->
  String.eqb o "" = false ->
  query_items o (table s) = order :: rest ->
  order !! "status" = None ->
  order !! "timestamp" = Some ts ->
  exists s1 r s' a b tr,
    table_query env (VStr o) s = (Ret (order :: rest), s1) /\
    process_order env (VStr o) s = drive_pipeline env (VStr o) order s1 /\
    process_order env (VStr o) s = (Ret r, s') /\
    trace s' = trace s ++ EvQuery (VStr o) ::
                 EvUpdateItem (VStr o) ts "VALIDATING" None a ::
                 EvExec "VALIDATING" b :: tr.
Proof.
  intros Hf Ho Hq Hst Hts.
  destruct (table_query_ok env o s Hf Ho) as (s1 & Hrun & Htr & _).
  rewrite Hq in Hrun.
  destruct (drive_pipeline_run env (VStr o) order ts s1 Hts)
    as (r & s' & tr & Hd & Htr' & _ & _ & a & b & tr' & ->).
  assert (Hp : process_order env (VStr o) s = drive_pipeline env (VStr o) order s1).
  { unfold process_order. rewrite Hrun.
    unfold try_except, process_found, dict_get. rewrite Hst.
    cbn [from_option negb py_eq_str String.eqb Ascii.eqb Bool.eqb].
    now rewrite Hd. }
  exists s1, r, s', a, b, tr'. repeat split; auto.
  - now rewrite Hp.
  - rewrite Htr', Htr. now rewrite <- app_assoc.
Qed.

Lemma missing_status_is_pending_witness :
  exists s1 r s' a b tr,
    table_query env_ok (VStr "o1") (state_of [o1_no_status])
      = (Ret [o1_no_status], s1) /\
    process_order env_ok (VStr "o1") (state_of [o1_no_status])
      = drive_pipeline env_ok (VStr "o1") o1_no_status s1 /\
    process_order env_ok (VStr "o1") (state_of [o1_no_status]) = (Ret r, s') /\
    trace s' = trace (state_of [o1_no_status]) ++ EvQuery (VStr "o1") ::
                 EvUpdateItem (VStr "o1") (VStr "2024-01-01T00:00:00")
                              "VALIDATING" None a ::
                 EvExec "VALIDATING" b :: tr.
Proof.
  apply (missing_status_is_pending env_ok "o1" o1_no_status []
           (VStr "2024-01-01T00:00:00") (state_of [o1_no_status]));
    [reflexivity | reflexivity | reflexivity | reflexivity | reflexivity].
Defined.

(** ** Faults of the query *)

Lemma process_order_query_fault env order_id msg s :
  query_fault env (n_query s) = Some msg ->
  exists s',
    process_order env order_id s = (Raise (UnboundLocalError "order"), s') /\
    table s' = table s /\ trace s' = trace s ++ [EvQuery order_id].
Proof.
  intros Hf. unfold process_order, table_query.
  destruct s as [tb tr nr nc nq nu np nm]. cbn in Hf. mred. rewrite Hf.
  eexists. repeat split.
Qed.

(** C3. When the query of the table faults, the [except] clause of
    [process_order] reads the local [order], which was never assigned: an
    [UnboundLocalError] leaves [process_order], which neither returns
    failure nor attempts to mark the record FAILED. *)
Theorem query_fault_escapes_process_order :
  query_down_run.1 = Raise (UnboundLocalError "order") /\
  table query_down_run.2 = [o1_pending] /\
  trace query_down_run.2 = [EvQuery (VStr "o1")].
Proof. by_evaluation. Qed.

(** ** Which record the query hands to [process_order] *)

Lemma ascii_compare_refl c : Ascii.compare c c = Eq.
Proof. unfold Ascii.compare. apply N.compare_refl. Qed.

Lemma ascii_compare_lt_trans a b c :
  Ascii.compare a b = Lt -> Ascii.compare b c = Lt -> Ascii.compare a c = Lt.
Proof. unfold Ascii.compare. rewrite !N.compare_lt_iff. lia. Qed.

Lemma string_compare_trans s1 : forall s2 s3,
  String.compare s1 s2 <> Gt -> String.compare s2 s3 <> Gt ->
  String.compare s1 s3 <> Gt.
Proof.
  induction s1 as [|c1 s1 IH]; intros [|c2 s2] [|c3 s3]; cbn; try congruence.
  destruct (Ascii.compare c1 c2) eqn:E12; try congruence;
    destruct (Ascii.compare c2 c3) eqn:E23; try congruence; intros H1 H2.
  - apply Ascii.compare_eq_iff in E12, E23. subst.
    rewrite ascii_compare_refl. eauto.
  - apply Ascii.compare_eq_iff in E12. subst. now rewrite E23.
  - apply Ascii.compare_eq_iff in E23. subst. now rewrite E12.
  - now rewrite (ascii_compare_lt_trans _ _ _ E12 E23).
Qed.

Lemma string_leb_trans s1 s2 s3 :
  String.leb s1 s2 = true -> String.leb s2 s3 = true -> String.leb s1 s3 = true.
Proof.
  unfold String.leb. intros H1 H2.
  assert (String.compare s1 s3 <> Gt).
  { apply (string_compare_trans s1 s2 s3).
    - destruct (String.compare s1 s2); congruence.
    - destruct (String.compare s2 s3); congruence. }
  destruct (String.compare s1 s3); congruence.
Qed.

Lemma string_leb_refl s : String.leb s s = true.
Proof. now destruct (String.leb_total s s). Qed.

Lemma in_insert_sorted x z l : In z (insert_sorted x l) <-> z = x \/ In z l.
Proof.
  induction l as [|y l IH]; cbn.
  - intuition.
  - destruct (String.leb (sort_key x) (sort_key y)); cbn; rewrite ?IH; intuition.
Qed.

Lemma in_sort_items z l : In z (sort_items l) <-> In z l.
Proof.
  induction l as [|x l IH]; cbn; [tauto|].
  fold (sort_items l). rewrite in_insert_sorted, IH. intuition.
Qed.

Lemma insert_sorted_sorted x l :
  StronglySorted item_le l -> StronglySorted item_le (insert_sorted x l).
Proof.
  induction 1 as [|y l Hs IH Hall]; cbn.
  - repeat constructor.
  - destruct (String.leb (sort_key x) (sort_key y)) eqn:Hxy.
    + constructor; [now constructor|].
      constructor; [exact Hxy|].
      rewrite List.Forall_forall in Hall |- *. intros z Hz.
      exact (string_leb_trans _ _ _ Hxy (Hall z Hz)).
    + constructor; [exact IH|].
      rewrite List.Forall_forall in Hall |- *. intros z Hz.
      apply in_insert_sorted in Hz as [->|Hz]; [|now apply Hall].
      unfold item_le.
      destruct (String.leb_total (sort_key x) (sort_key y)); congruence.
Qed.

Lemma sort_items_sorted l : StronglySorted item_le (sort_items l).
Proof.
  induction l as [|x l IH]; cbn; [constructor|].
  now apply insert_sorted_sorted.
Qed.

(** The record [process_order] works on, the first one of the query, is the
    one of that order with the least timestamp. *)
Lemma query_items_head_oldest o tb order rest :
  query_items o tb = order :: rest ->
  has_order_id o order = true /\ In order tb /\
  forall it, In it tb -> has_order_id o it = true -> item_le order it.
Proof.
  unfold query_items. intros Hq.
  assert (Hin : forall z, In z (order :: rest) <->
                          In z tb /\ has_order_id o z = true).
  { intros z. rewrite <- Hq, in_sort_items. apply filter_In. }
  destruct (proj1 (Hin order) (or_introl eq_refl)) as [Ho Hk].
  repeat split; auto.
  intros it Hit Hid.
  destruct (proj2 (Hin it) (conj Hit Hid)) as [<-|Hr].
  - apply string_leb_refl.
  - pose proof (sort_items_sorted (List.filter (has_order_id o) tb)) as Hs.
    rewrite Hq in Hs. apply StronglySorted_inv in Hs as [_ Hall].
    rewrite List.Forall_forall in Hall. now apply Hall.
Qed.

(** C4. Of the two records of order o1, the one written most recently is
    the PENDING one, yet the query lists the older, COMPLETED one first and
    [process_order] works on that: it reports the order as already handled
    and never touches the record written last. *)
Theorem query_returns_oldest_record :
  most_recently_written "o1" two_records = Some o1_second /\
  query_items "o1" two_records = [o1_completed; o1_second] /\
  two_records_run.1 = Ret true /\
  trace two_records_run.2 = [EvQuery (VStr "o1")] /\
  table two_records_run.2 = two_records.
Proof. by_evaluation. Qed.

(** ** validate_order *)

Lemma validate_order_eq env order s :
  validate_order env order s = (Ret (validate_result env order), s).
Proof.
  unfold validate_order, validate_result, dict_getitem. mred.
  destruct (existsb (missing_or_empty order) required_fields); [reflexivity|].
  destruct (order !! "items") as [[| | | |[|x l]|]|]; try reflexivity.
  cbn [is_list negb py_len length Nat.eqb].
  destruct (order !! "totalAmount") as [v|]; [|reflexivity].
  destruct (py_float env v) as [q|e]; [|reflexivity].
  destruct (Qle_bool q 0); [reflexivity|].
  destruct (order !! "orderId"); reflexivity.
Qed.

(** C5. [validate_order] returns false when one of customerId, items,
    totalAmount is missing or empty, when items is not a non-empty list, and
    when totalAmount is zero or negative; it returns true on every
    well-formed order. It never raises and changes nothing. *)
Theorem validate_order_spec env order s :
  (exists b, validate_order env order s = (Ret b, s)) /\
  (forall field, In field required_fields ->
     missing_or_empty order field = true ->
     validate_order env order s = (Ret false, s)) /\
  (forall v, order !! "items" = Some v ->
     is_list v = false \/ v = VList [] ->
     validate_order env order s = (Ret false, s)) /\
  (forall v q, order !! "totalAmount" = Some v ->
     py_float env v = Ret q -> (q <= 0)%Q ->
     validate_order env order s = (Ret false, s)) /\
  (well_formed_order order ->
     validate_order env order s = (Ret true, s)).
Proof.
  rewrite validate_order_eq. unfold validate_result.
  split; [eauto|]. split; [|split; [|split]].
  - intros field Hin Hm.
    assert (existsb (missing_or_empty order) required_fields = true) as ->
      by (apply existsb_exists; eauto).
    reflexivity.
  - intros v Hv Hbad.
    destruct (existsb (missing_or_empty order) required_fields); [reflexivity|].
    rewrite Hv. destruct Hbad as [Hl| ->]; [|reflexivity].
    destruct v as [| | | |[|x l]|]; try reflexivity; discriminate.
  - intros v q Hv Hf Hq.
    destruct (existsb (missing_or_empty order) required_fields); [reflexivity|].
    destruct (order !! "items") as [[| | | |[|x l]|]|]; try reflexivity.
    rewrite Hv, Hf. apply Qle_bool_iff in Hq. now rewrite Hq.
  - intros ([oid Hoid] & (c & Hc & Hct) & (x & l & Hi) & (q & Ht & Hq)).
    assert (Hqe : Qeq_bool q 0 = false).
    { destruct (Qeq_bool q 0) eqn:E; [|reflexivity].
      apply Qeq_bool_iff in E. rewrite E in Hq. now apply Qlt_irrefl in Hq. }
    assert (Hql : Qle_bool q 0 = false).
    { destruct (Qle_bool q 0) eqn:E; [|reflexivity].
      apply Qle_bool_iff in E. exfalso. exact (Qlt_not_le _ _ Hq E). }
    assert (existsb (missing_or_empty order) required_fields = false) as ->.
    { cbn. unfold missing_or_empty. rewrite Hc, Hi, Ht, Hct. cbn.
      now rewrite Hqe. }
    rewrite Hi, Ht. cbn [py_float]. now rewrite Hql, Hoid.
Qed.

(** ** The batch handler *)

Lemma processed_failed_length tags :
  length (processed_of tags) + length (failed_of tags) = length tags.
Proof.
  unfold processed_of, failed_of. rewrite !length_map.
  induction tags as [|[[] e] tags IH]; cbn; lia.
Qed.

Lemma processed_of_cons t tags :
  processed_of (t :: tags) = processed_of [t] ++ processed_of tags.
Proof. unfold processed_of. cbn. destruct (fst t); reflexivity. Qed.

Lemma failed_of_cons t tags :
  failed_of (t :: tags) = failed_of [t] ++ failed_of tags.
Proof. unfold failed_of. cbn. destruct (negb t.1); reflexivity. Qed.

(** An iteration that does not raise appends one entry to one list. *)
Lemma handle_record_entry env record p f lists s s' :
  handle_record env record (p, f) s = (Ret lists, s') ->
  exists tag, lists = (p ++ processed_of [tag], f ++ failed_of [tag]).
Proof.
  unfold handle_record. mred.
  destruct (getitem record "body") as [body|e]; mred.
  2:{ destruct (py_get record "messageId" (VStr "unknown")) as [mid|e'];
      intros [= <- <-]. exists (false, mid). cbn. now rewrite app_nil_r. }
  destruct (py_json_loads env body) as [mb|e]; mred.
  2:{ destruct (py_get record "messageId" (VStr "unknown")) as [mid|e'];
      intros [= <- <-]. exists (false, mid). cbn. now rewrite app_nil_r. }
  destruct (getitem mb "orderId") as [oid|e]; mred.
  2:{ destruct (py_get record "messageId" (VStr "unknown")) as [mid|e'];
      intros [= <- <-]. exists (false, mid). cbn. now rewrite app_nil_r. }
  destruct (getitem mb "action") as [action|e]; mred.
  2:{ destruct (py_get record "messageId" (VStr "unknown")) as [mid|e'];
      intros [= <- <-]. exists (false, mid). cbn. now rewrite app_nil_r. }
  destruct (py_eq_str action "PROCESS_ORDER"); mred.
  2:{ intros [= <- <-]. exists (false, oid). cbn. now rewrite app_nil_r. }
  destruct (process_order env oid s) as [[[]|e] s1]; mred.
  - intros [= <- <-]. exists (true, oid). cbn. now rewrite app_nil_r.
  - intros [= <- <-]. exists (false, oid). cbn. now rewrite app_nil_r.
  - destruct (py_get record "messageId" (VStr "unknown")) as [mid|e'];
      intros [= <- <-]. exists (false, mid). cbn. now rewrite app_nil_r.
Qed.

Lemma handle_records_tags env records : forall p f lists s s',
  handle_records env records (p, f) s = (Ret lists, s') ->
  exists tags, length tags = length records /\
    lists = (p ++ processed_of tags, f ++ failed_of tags).
Proof.
  induction records as [|record rest IH]; intros p f lists s s'; cbn [handle_records].
  - intros [= <- <-]. exists []. cbn. now rewrite !app_nil_r.
  - unfold bind at 1.
    destruct (handle_record env record (p, f) s) as [[lists1|e] s1] eqn:H1;
      [|discriminate].
    apply handle_record_entry in H1 as (tag & ->). intros Hrest.
    apply IH in Hrest as (tags & Hlen & ->).
    exists (tag :: tags). split; [cbn; congruence|].
    rewrite (processed_of_cons tag tags), (failed_of_cons tag tags).
    now rewrite !app_assoc.
Qed.

(** When the loop over the records returns, so does the handler, with
    status 200 and the two lists of the loop. *)
Lemma handler_after_records env event records rs lists s s1 :
  getitem event "Records" = Ret records ->
  py_iter records = Ret rs ->
  handle_records env rs ([], []) s = (Ret lists, s1) ->
  exists s', handler env event s = (Ret (Response200 lists.1 lists.2), s').
Proof.
  intros He Hi Hrun.
  destruct (try_except_unit
              (_ <- py_utcnow env ;; _ <- py_utcnow env ;;
               cloudwatch_put_metric_data env (length lists.1)
                                          (length lists.2))%py s1)
    as (s' & Hm).
  exists s'. unfold handler. unfold try_except at 1.
  rewrite He. cbn [lift].
  rewrite (bind_eq _ _ s records s) by reflexivity.
  rewrite Hi.
  rewrite (bind_eq _ _ s rs s) by reflexivity.
  rewrite (bind_eq _ _ _ _ _ Hrun).
  unfold send_processing_metrics.
  now rewrite (bind_eq _ _ _ _ _ Hm).
Qed.

(** C10. Whenever no fault escapes the handling of the single records, the
    handler answers with status 200, however many orders failed, and every
    record contributes one entry to one of the two lists: they partition the
    batch, and their lengths add up to the number of records. *)
Theorem handler_partitions_batch env event records rs lists s s1 :
  getitem event "Records" = Ret records ->
  py_iter records = Ret rs ->
  handle_records env rs ([], []) s = (Ret lists, s1) ->
  exists tags s',
    handler env event s
      = (Ret (Response200 (processed_of tags) (failed_of tags)), s') /\
    lists = (processed_of tags, failed_of tags) /\
    length tags = length rs /\
    length (processed_of tags) + length (failed_of tags) = length rs.
Proof.
  intros He Hi Hrun.
  destruct (handler_after_records _ _ _ _ _ _ _ He Hi Hrun) as (s' & Hh).
  destruct (handle_records_tags _ _ _ _ _ _ _ Hrun) as (tags & Hlen & ->).
  cbn [app fst snd] in Hh.
  exists tags, s'. split; [exact Hh|]. split; [reflexivity|].
  split; [exact Hlen|].
  rewrite processed_failed_length. exact Hlen.
Qed.

Lemma handler_partitions_batch_witness :
  exists tags s',
    handler env_ok (event_of [msg_o1; msg_cancel]) (state_of [o1_pending])
      = (Ret (Response200 (processed_of tags) (failed_of tags)), s') /\
    ([VStr "o1"], [VStr "o1"]) = (processed_of tags, failed_of tags) /\
    length tags = length [msg_o1; msg_cancel] /\
    length (processed_of tags) + length (failed_of tags)
      = length [msg_o1; msg_cancel].
Proof.
  apply (handler_partitions_batch env_ok (event_of [msg_o1; msg_cancel])
           (VList [msg_o1; msg_cancel]) [msg_o1; msg_cancel]
           ([VStr "o1"], [VStr "o1"]) (state_of [o1_pending])
           (handle_records env_ok [msg_o1; msg_cancel] ([], [])
                           (state_of [o1_pending])).2).
  - reflexivity.
  - reflexivity.
  - etransitivity; [apply surjective_pairing|].
    f_equal; vm_compute; reflexivity.
Defined.











Lemma validate_order_spec_witness :
  validate_order env_ok o1_pending (state_of []) = (Ret true, state_of []) /\
  validate_order env_ok o1_zero_total (state_of []) = (Ret false, state_of []).
Proof.
  split.
  - apply (proj2 (proj2 (proj2 (proj2
             (validate_order_spec env_ok o1_pending (state_of [])))))).
    split; [eexists; reflexivity|].
    split; [eexists; split; reflexivity|].
    split; [eexists _, _; reflexivity|].
    exists 10%Q. split; reflexivity.
  - apply (proj1 (proj2 (proj2 (proj2
             (validate_order_spec env_ok o1_zero_total (state_of [])))))
           (VNum 0) 0%Q).
    + reflexivity.
    + reflexivity.
    + apply Qle_refl.
Defined.

(** ** Best-effort side effects *)

Lemma rel_ret {A} (I : State -> State -> Prop) (a : A) : rel_M I I (ret a) (ret a).
Proof. intros s1 s2 H. now split. Qed.

Lemma rel_raise {A} (I : State -> State -> Prop) (e : exn) :
  rel_M I I (@raise A e) (raise e).
Proof. intros s1 s2 H. now split. Qed.

Lemma rel_lift {A} (I : State -> State -> Prop) (r : res A) :
  rel_M I I (lift r) (lift r).
Proof. intros s1 s2 H. now split. Qed.

Lemma rel_bind {A B} (P Q : State -> State -> Prop)
    (c1 c2 : M A) (k1 k2 : A -> M B) :
  rel_M P Q c1 c2 ->
  (forall a, rel_M Q Q (k1 a) (k2 a)) ->
  rel_M P Q (bind c1 k1) (bind c2 k2).
Proof.
  intros Hc Hk s1 s2 HP. unfold bind.
  destruct (Hc s1 s2 HP) as [Hr HQ].
  destruct (c1 s1) as [[a1|e1] s1'], (c2 s2) as [[a2|e2] s2'];
    cbn in Hr, HQ; try discriminate.
  - injection Hr as ->. now apply Hk.
  - injection Hr as ->. now split.
Qed.

Lemma rel_try_except {A} (P Q : State -> State -> Prop)
    (c1 c2 : M A) (h1 h2 : exn -> M A) :
  rel_M P Q c1 c2 ->
  (forall e, rel_M Q Q (h1 e) (h2 e)) ->
  rel_M P Q (try_except c1 h1) (try_except c2 h2).
Proof.
  intros Hc Hh s1 s2 HP. unfold try_except.
  destruct (Hc s1 s2 HP) as [Hr HQ].
  destruct (c1 s1) as [[a1|e1] s1'], (c2 s2) as [[a2|e2] s2'];
    cbn in Hr, HQ; try discriminate.
  - injection Hr as ->. now split.
  - injection Hr as ->. now apply Hh.
Qed.

Lemma rel_weaken {A} (P P' Q Q' : State -> State -> Prop) (c1 c2 : M A) :
  rel_M P Q c1 c2 ->
  (forall s1 s2, P' s1 s2 -> P s1 s2) ->
  (forall s1 s2, Q s1 s2 -> Q' s1 s2) ->
  rel_M P' Q' c1 c2.
Proof.
  intros Hc HP HQ s1 s2 H. destruct (Hc s1 s2 (HP _ _ H)). auto.
Qed.

(** The executors read the environment through [float] and the random
    source only. *)
Lemma processing_steps_env env1 env2 :
  same_inputs env1 env2 -> processing_steps env1 = processing_steps env2.
Proof.
  intros (_ & Hf & Hr & _).
  unfold processing_steps, validate_order, check_inventory, process_payment,
    shortage_in, py_float, py_random.
  now rewrite Hf, Hr.
Qed.

Section PipelineRelated.

Variables env1 env2 : Env.
Variable I : State -> State -> Prop.
Variable order_id : value.

Hypothesis I_random : forall s1 s2, I s1 s2 -> n_random s1 = n_random s2.
Hypothesis I_set_random :
  forall n s1 s2, I s1 s2 -> I (set_random n s1) (set_random n s2).
Hypothesis I_emit :
  forall e s1 s2, I s1 s2 -> I (emit e s1).2 (emit e s2).2.
Hypothesis I_update : forall status ts msg,
  rel_M I I (update_order_status env1 order_id status ts msg)
            (update_order_status env2 order_id status ts msg).
Hypothesis I_notify : forall kind od msg,
  rel_M I I (send_order_notification env1 order_id kind od msg)
            (send_order_notification env2 order_id kind od msg).

Lemma rel_emit e : rel_M I I (emit e) (emit e).
Proof. intros s1 s2 H. split; [reflexivity|now apply I_emit]. Qed.

Lemma rel_executor (f : Executor) order :
  quiet f -> rel_M I I (f order) (f order).
Proof.
  intros Hq s1 s2 H. destruct (Hq order (n_random s1)) as (b & n' & Hb).
  rewrite (Hb s1 eq_refl), (Hb s2 (eq_sym (I_random _ _ H))).
  split; [reflexivity|now apply I_set_random].
Qed.

Lemma rel_exec_step k (f : Executor) order :
  quiet f -> rel_M I I (exec_step k f order) (exec_step k f order).
Proof.
  intros Hq. unfold exec_step.
  apply rel_bind; [now apply rel_executor|]. intros b.
  apply rel_bind; [apply rel_emit|]. intros _. apply rel_ret.
Qed.

Lemma rel_run_steps order steps :
  Forall (fun step => quiet step.2) steps ->
  rel_M I I (run_steps env1 order_id order steps)
            (run_steps env2 order_id order steps).
Proof.
  induction 1 as [|[k f] rest Hq Hrest IH]; cbn [run_steps].
  - apply rel_ret.
  - apply rel_bind; [apply rel_lift|]. intros ts.
    apply rel_bind; [apply I_update|]. intros _.
    apply rel_bind; [now apply rel_exec_step|]. intros [|]; cbn [negb].
    + exact IH.
    + apply rel_bind; [apply rel_lift|]. intros ts'.
      apply rel_bind; [apply I_update|]. intros _.
      apply rel_bind; [apply I_notify|]. intros _. apply rel_ret.
Qed.

Hypothesis Henv : same_inputs env1 env2.

Lemma rel_drive_pipeline order :
  rel_M I I (drive_pipeline env1 order_id order)
            (drive_pipeline env2 order_id order).
Proof.
  unfold drive_pipeline. rewrite (processing_steps_env env1 env2 Henv).
  apply rel_bind.
  - apply rel_run_steps. apply processing_steps_quiet.
  - intros [|]; [|apply rel_ret].
    apply rel_bind; [apply rel_lift|]. intros ts.
    apply rel_bind; [apply I_update|]. intros _.
    apply rel_bind; [apply I_notify|]. intros _. apply rel_ret.
Qed.

Lemma rel_process_found order :
  rel_M I I
    (try_except (process_found env1 order_id order)
                (process_order_except env1 order_id (Some order)))
    (try_except (process_found env2 order_id order)
                (process_order_except env2 order_id (Some order))).
Proof.
  apply rel_try_except.
  - unfold process_found.
    destruct (negb (py_eq_str (dict_get order "status" (VStr "PENDING")) "PENDING")).
    + apply rel_ret.
    + apply rel_drive_pipeline.
  - intros e. unfold process_order_except.
    apply rel_bind; [apply I_update|]. intros _. apply rel_ret.
Qed.

(** From a query that answers alike in the two runs. *)
Lemma rel_process_order (P : State -> State -> Prop) :
  rel_M P I (table_query env1 order_id) (table_query env2 order_id) ->
  rel_M P I (process_order env1 order_id) (process_order env2 order_id).
Proof.
  intros Hq s1 s2 HP. unfold process_order.
  destruct (Hq s1 s2 HP) as [Hr HI].
  destruct (table_query env1 order_id s1) as [[items1|e1] s1'],
           (table_query env2 order_id s2) as [[items2|e2] s2'];
    cbn in Hr, HI; try discriminate.
  - injection Hr as ->. destruct items2 as [|order rest].
    + now split.
    + now apply rel_process_found.
  - now split.
Qed.

End PipelineRelated.

(** *** One [process_order]: only the random cursor matters after the query *)

Lemma same_random_update env1 env2 order_id status ts msg :
  rel_M same_random same_random
        (update_order_status env1 order_id status ts msg)
        (update_order_status env2 order_id status ts msg).
Proof.
  intros s1 s2 H. unfold same_random in *.
  destruct (update_order_status_spec env1 order_id status ts msg s1)
    as (s1' & a1 & -> & _ & Hr1 & _).
  destruct (update_order_status_spec env2 order_id status ts msg s2)
    as (s2' & a2 & -> & _ & Hr2 & _).
  cbn. split; [reflexivity|congruence].
Qed.

Lemma same_random_notify env1 env2 order_id kind od msg :
  rel_M same_random same_random
        (send_order_notification env1 order_id kind od msg)
        (send_order_notification env2 order_id kind od msg).
Proof.
  intros s1 s2 H. unfold same_random in *.
  destruct (send_order_notification_spec env1 order_id kind od msg s1)
    as (s1' & p1 & -> & _ & _ & _ & _ & _ & Hr1 & _).
  destruct (send_order_notification_spec env2 order_id kind od msg s2)
    as (s2' & p2 & -> & _ & _ & _ & _ & _ & Hr2 & _).
  cbn. split; [reflexivity|congruence].
Qed.

Lemma same_store_query env1 env2 order_id :
  query_fault env1 = query_fault env2 ->
  rel_M same_store same_store (table_query env1 order_id) (table_query env2 order_id).
Proof.
  intros Hf [tb1 tr1 nr1 nc1 nq1 nu1 np1 nm1] [tb2 tr2 nr2 nc2 nq2 nu2 np2 nm2]
         (Ht & Hq & Hr).
  cbn in Ht, Hq, Hr. subst tb2 nq2 nr2.
  unfold table_query, same_store. mred. rewrite Hf.
  destruct (query_fault env2 nq1); [now split|].
  destruct order_id as [| | |o| |]; try now split.
  destruct (String.eqb o ""); now split.
Qed.

Lemma process_order_same_result env1 env2 order_id :
  same_inputs env1 env2 ->
  rel_M same_store same_random
        (process_order env1 order_id) (process_order env2 order_id).
Proof.
  intros Henv. apply rel_process_order; unfold same_random.
  - auto.
  - intros n [] []; reflexivity.
  - intros e [] []; cbn; auto.
  - intros. apply same_random_update.
  - intros. apply same_random_notify.
  - exact Henv.
  - eapply rel_weaken; [apply same_store_query, Henv| auto |].
    intros s1 s2 (_ & _ & H). exact H.
Qed.

(** *** One record of a batch *)

Lemma rel_handle_record env1 env2 (P Q : State -> State -> Prop) record lists :
  json_loads env1 = json_loads env2 ->
  (forall s1 s2, P s1 s2 -> Q s1 s2) ->
  (forall order_id, dispatched_id env1 record = Some order_id ->
     rel_M P Q (process_order env1 order_id) (process_order env2 order_id)) ->
  rel_M P Q (handle_record env1 record lists) (handle_record env2 record lists).
Proof.
  intros Hj HPQ Hproc s1 s2 HP. destruct lists as [p f].
  revert Hproc. unfold dispatched_id, handle_record, py_json_loads.
  rewrite Hj. mred.
  destruct (getitem record "body") as [body|e]; mred.
  2:{ intros _.
      destruct (py_get record "messageId" (VStr "unknown")); split; cbn; auto. }
  destruct (match body with
            | VStr s => match json_loads env2 s with
                        | Some v => Ret v
                        | None => Raise JSONDecodeError
                        end
            | _ => Raise (TypeError "the JSON object must be str, bytes or bytearray")
            end) as [mb|e]; mred.
  2:{ intros _.
      destruct (py_get record "messageId" (VStr "unknown")); split; cbn; auto. }
  destruct (getitem mb "orderId") as [oid|e]; mred.
  2:{ intros _.
      destruct (py_get record "messageId" (VStr "unknown")); split; cbn; auto. }
  destruct (getitem mb "action") as [action|e]; mred.
  2:{ intros _.
      destruct (py_get record "messageId" (VStr "unknown")); split; cbn; auto. }
  destruct (py_eq_str action "PROCESS_ORDER"); mred.
  2:{ intros _. split; cbn; auto. }
  intros Hproc. destruct (Hproc oid eq_refl s1 s2 HP) as [Hr HQ].
  destruct (process_order env1 oid s1) as [[[]|e1] s1'],
           (process_order env2 oid s2) as [[[]|e2] s2'];
    cbn in Hr, HQ; try discriminate; mred; try (split; cbn; auto; fail).
  destruct (py_get record "messageId" (VStr "unknown")); split; cbn; auto.
Qed.

Lemma rel_handle_records env1 env2 (I : State -> State -> Prop) records :
  json_loads env1 = json_loads env2 ->
  (forall order_id,
     rel_M I I (process_order env1 order_id) (process_order env2 order_id)) ->
  forall lists,
    rel_M I I (handle_records env1 records lists)
              (handle_records env2 records lists).
Proof.
  intros Hj Hproc. induction records as [|record rest IH]; intros lists;
    cbn [handle_records].
  - apply rel_ret.
  - apply rel_bind; [|exact IH].
    apply rel_handle_record; auto.
Qed.

(** *** Faults of the sink only: the two runs differ in the trace alone *)

Ltac same_but_trace_start :=
  intros [tb1 tr1 nr1 nc1 nq1 nu1 np1 nm1] [tb2 tr2 nr2 nc2 nq2 nu2 np2 nm2]
         (Ht & Hr & Hc & Hq & Hu & Hp & Hm);
  cbn in Ht, Hr, Hc, Hq, Hu, Hp, Hm; subst tb2 nr2 nc2 nq2 nu2 np2 nm2;
  unfold same_but_trace.

Lemma same_but_trace_update env1 env2 order_id status ts msg :
  utcnow env1 = utcnow env2 -> update_fault env1 = update_fault env2 ->
  rel_M same_but_trace same_but_trace
        (update_order_status env1 order_id status ts msg)
        (update_order_status env2 order_id status ts msg).
Proof.
  intros Hnow Hf. same_but_trace_start.
  unfold update_order_status, table_update_item. mred. rewrite Hnow, Hf.
  repeat (mcase; try discriminate); cbn; repeat split.
Qed.

Lemma same_but_trace_notify env1 env2 order_id kind od msg :
  SNS_TOPIC_ARN env1 = SNS_TOPIC_ARN env2 -> utcnow env1 = utcnow env2 ->
  rel_M same_but_trace same_but_trace
        (send_order_notification env1 order_id kind od msg)
        (send_order_notification env2 order_id kind od msg).
Proof.
  intros Harn Hnow. same_but_trace_start.
  unfold send_order_notification, sns_publish, topic_configured. mred.
  rewrite Harn, Hnow.
  destruct (publish_fault env1 np1), (publish_fault env2 np1);
    repeat (mcase; try discriminate); cbn; repeat split.
Qed.

Lemma same_but_trace_metrics env1 env2 a b :
  rel_M same_but_trace same_but_trace
        (send_processing_metrics env1 a b) (send_processing_metrics env2 a b).
Proof.
  same_but_trace_start.
  unfold send_processing_metrics, cloudwatch_put_metric_data. mred.
  destruct (metrics_fault env1 nm1), (metrics_fault env2 nm1);
    cbn; repeat split.
Qed.

Lemma same_but_trace_query env1 env2 order_id :
  query_fault env1 = query_fault env2 ->
  rel_M same_but_trace same_but_trace
        (table_query env1 order_id) (table_query env2 order_id).
Proof.
  intros Hf. same_but_trace_start.
  unfold table_query. mred. rewrite Hf.
  repeat (mcase; try discriminate); cbn; repeat split.
Qed.

Lemma same_but_trace_process_order env1 env2 order_id :
  same_but_sink_faults env1 env2 ->
  rel_M same_but_trace same_but_trace
        (process_order env1 order_id) (process_order env2 order_id).
Proof.
  intros (Henv & Harn & Hnow & Hf). apply rel_process_order.
  - intros s1 s2 H. apply H.
  - intros n [] [] (? & ? & ? & ? & ? & ? & ?); cbn in *.
    unfold same_but_trace; cbn; repeat split; auto.
  - intros e [] [] (? & ? & ? & ? & ? & ? & ?); cbn in *.
    unfold same_but_trace; cbn; repeat split; auto.
  - intros. now apply same_but_trace_update.
  - intros. now apply same_but_trace_notify.
  - exact Henv.
  - apply same_but_trace_query, Henv.
Qed.

(** The handler, from two runs of the loop over the records that agree. *)
Lemma rel_handler env1 env2 (P Q : State -> State -> Prop) event :
  (forall records rs,
     getitem event "Records" = Ret records -> py_iter records = Ret rs ->
     rel_M P Q (handle_records env1 rs ([], []))
               (handle_records env2 rs ([], []))) ->
  forall s1 s2, P s1 s2 -> (handler env1 event s1).1 = (handler env2 event s2).1.
Proof.
  intros Hrec s1 s2 HP. unfold handler. mred.
  destruct (getitem event "Records") as [records|e]; mred; [|reflexivity].
  destruct (py_iter records) as [rs|e] eqn:Hi; mred; [|reflexivity].
  destruct (Hrec records rs eq_refl Hi s1 s2 HP) as [Hr _].
  destruct (handle_records env1 rs ([], []) s1) as [[lists1|e1] s1'],
           (handle_records env2 rs ([], []) s2) as [[lists2|e2] s2'];
    cbn in Hr; try discriminate.
  - injection Hr as ->.
    destruct (try_except_unit
                (_ <- py_utcnow env1 ;; _ <- py_utcnow env1 ;;
                 cloudwatch_put_metric_data env1 (length lists2.1)
                                            (length lists2.2))%py s1')
      as (t1 & H1).
    destruct (try_except_unit
                (_ <- py_utcnow env2 ;; _ <- py_utcnow env2 ;;
                 cloudwatch_put_metric_data env2 (length lists2.1)
                                            (length lists2.2))%py s2')
      as (t2 & H2).
    unfold send_processing_metrics. rewrite H1, H2. reflexivity.
  - now injection Hr as ->.
Qed.

(** *** Faults of the status writes too: batches that name no order twice *)

Lemma rel_bind_seq {A B} (P Q T : State -> State -> Prop)
    (c1 c2 : M A) (k1 k2 : A -> M B) :
  rel_M P Q c1 c2 ->
  (forall a, rel_M Q T (k1 a) (k2 a)) ->
  (forall s1 s2, Q s1 s2 -> T s1 s2) ->
  rel_M P T (bind c1 k1) (bind c2 k2).
Proof.
  intros Hc Hk HQT s1 s2 HP. unfold bind.
  destruct (Hc s1 s2 HP) as [Hr HQ].
  destruct (c1 s1) as [[a1|e1] s1'], (c2 s2) as [[a2|e2] s2'];
    cbn in Hr, HQ; try discriminate.
  - injection Hr as ->. now apply Hk.
  - injection Hr as ->. split; [reflexivity|now apply HQT].
Qed.

Lemma has_order_id_set_attrs o status now msg it :
  has_order_id o (set_attrs status now msg it) = has_order_id o it.
Proof.
  unfold has_order_id, set_attrs.
  destruct msg; now rewrite !lookup_insert_ne by discriminate.
Qed.

Lemma has_key_order_id o t it : has_key o t it = true -> has_order_id o it = true.
Proof. unfold has_key. now intros [H _]%andb_prop. Qed.

Lemma has_order_id_other o o' it :
  o' <> o -> has_order_id o it = true -> has_order_id o' it = false.
Proof.
  unfold has_order_id. destruct (it !! "orderId") as [[| | |x| |]|]; try discriminate.
  intros Hne ->%String.eqb_eq. now apply String.eqb_neq.
Qed.

Lemma filter_apply_update o o' t status now msg tb :
  o' <> o ->
  List.filter (has_order_id o') (apply_update o t (set_attrs status now msg) tb)
  = List.filter (has_order_id o') tb.
Proof.
  intros Hne. unfold apply_update.
  destruct (existsb (has_key o t) tb).
  - induction tb as [|it tb IH]; [reflexivity|]. cbn [List.map List.filter].
    destruct (has_key o t it) eqn:Hk.
    + rewrite has_order_id_set_attrs.
      rewrite (has_order_id_other o o' it Hne (has_key_order_id _ _ _ Hk)).
      exact IH.
    + now rewrite IH.
  - rewrite List.filter_app. cbn [List.filter].
    rewrite has_order_id_set_attrs.
    assert (has_order_id o'
              (<["timestamp" := VStr t]> (<["orderId" := VStr o]> ∅)) = false) as ->.
    { apply (has_order_id_other o o'); [exact Hne|].
      unfold has_order_id. rewrite lookup_insert_ne by discriminate.
      rewrite lookup_insert_eq. apply String.eqb_refl. }
    apply app_nil_r.
Qed.

Lemma agree_on_update env1 env2 K order_id status ts msg :
  (forall o, order_id = VStr o -> ~ In o K) ->
  rel_M (agree_on K) (agree_on K)
        (update_order_status env1 order_id status ts msg)
        (update_order_status env2 order_id status ts msg).
Proof.
  intros HK s1 s2 (Hr & Hq & Ht).
  destruct (update_order_status_spec env1 order_id status ts msg s1)
    as (s1' & a1 & -> & _ & Hr1 & Hq1 & _ & _ & Hf1 & Ha1).
  destruct (update_order_status_spec env2 order_id status ts msg s2)
    as (s2' & a2 & -> & _ & Hr2 & Hq2 & _ & _ & Hf2 & Ha2).
  cbn [fst snd]. split; [reflexivity|].
  split; [congruence|]. split; [congruence|].
  intros o' Ho'.
  assert (H1 : query_items o' (table s1') = query_items o' (table s1)).
  { destruct a1; [|now rewrite Hf1].
    destruct (Ha1 eq_refl) as (o & t & Hoid & _ & ->).
    unfold query_items. rewrite filter_apply_update; [reflexivity|].
    intros ->. exact (HK _ Hoid Ho'). }
  assert (H2 : query_items o' (table s2') = query_items o' (table s2)).
  { destruct a2; [|now rewrite Hf2].
    destruct (Ha2 eq_refl) as (o & t & Hoid & _ & ->).
    unfold query_items. rewrite filter_apply_update; [reflexivity|].
    intros ->. exact (HK _ Hoid Ho'). }
  rewrite H1, H2. now apply Ht.
Qed.

Lemma agree_on_notify env1 env2 K order_id kind od msg :
  rel_M (agree_on K) (agree_on K)
        (send_order_notification env1 order_id kind od msg)
        (send_order_notification env2 order_id kind od msg).
Proof.
  intros s1 s2 (Hr & Hq & Ht).
  destruct (send_order_notification_spec env1 order_id kind od msg s1)
    as (s1' & p1 & -> & _ & _ & _ & _ & Htb1 & Hr1 & Hq1 & _).
  destruct (send_order_notification_spec env2 order_id kind od msg s2)
    as (s2' & p2 & -> & _ & _ & _ & _ & Htb2 & Hr2 & Hq2 & _).
  cbn [fst snd]. split; [reflexivity|].
  split; [congruence|]. split; [congruence|].
  intros o Ho. rewrite Htb1, Htb2. now apply Ht.
Qed.

Lemma agree_on_query env1 env2 K order_id :
  query_fault env1 = query_fault env2 ->
  rel_M (agree_on (match order_key order_id with
                   | Some o => o :: K
                   | None => K
                   end))
        (agree_on K)
        (table_query env1 order_id) (table_query env2 order_id).
Proof.
  intros Hf [tb1 tr1 nr1 nc1 nq1 nu1 np1 nm1] [tb2 tr2 nr2 nc2 nq2 nu2 np2 nm2]
         (Hr & Hq & Ht).
  cbn in Hr, Hq, Ht. subst nr2 nq2.
  unfold table_query, agree_on. mred. rewrite Hf.
  destruct (query_fault env2 nq1).
  { split; [reflexivity|]. repeat split; auto.
    intros o Ho. apply Ht. destruct (order_key order_id); [now right|exact Ho]. }
  destruct order_id as [| | |o| |]; cbn [order_key] in Ht;
    try (split; [reflexivity|]; repeat split; auto; fail).
  destruct (String.eqb o "").
  - split; [reflexivity|]. repeat split; auto. intros o' Ho'. apply Ht. now right.
  - split.
    + cbn. f_equal. apply Ht. now left.
    + repeat split; auto. intros o' Ho'. apply Ht. now right.
Qed.

Lemma agree_on_process_order env1 env2 K order_id :
  same_inputs env1 env2 ->
  (forall o, order_id = VStr o -> ~ In o K) ->
  rel_M (agree_on (match order_key order_id with
                   | Some o => o :: K
                   | None => K
                   end))
        (agree_on K)
        (process_order env1 order_id) (process_order env2 order_id).
Proof.
  intros Henv HK. apply rel_process_order.
  - intros s1 s2 H. apply H.
  - intros n [] [] (? & ? & ?); cbn in *. unfold agree_on; cbn; auto.
  - intros e [] [] (? & ? & ?); cbn in *. unfold agree_on; cbn; auto.
  - intros. now apply agree_on_update.
  - intros. apply agree_on_notify.
  - exact Henv.
  - apply agree_on_query, Henv.
Qed.

Lemma agree_on_weaken K K' s1 s2 :
  (forall o, In o K' -> In o K) -> agree_on K s1 s2 -> agree_on K' s1 s2.
Proof. intros Hsub (Hr & Hq & Ht). repeat split; auto. Qed.

Lemma rel_handle_records_distinct env1 env2 records :
  same_inputs env1 env2 ->
  NoDup (batch_keys env1 records) ->
  forall lists,
    rel_M (agree_on (batch_keys env1 records)) (agree_on [])
          (handle_records env1 records lists)
          (handle_records env2 records lists).
Proof.
  intros Henv. induction records as [|record rest IH]; intros Hnd lists;
    cbn [handle_records].
  - apply rel_ret.
  - unfold batch_keys in Hnd |- *. cbn [omap list_omap] in Hnd |- *.
    fold (batch_keys env1 rest) in Hnd |- *.
    destruct (dispatched_id env1 record) as [oid|] eqn:Hd; cbn [mbind option_bind] in Hnd |- *.
    + assert (Hrest : NoDup (batch_keys env1 rest) /\
                      forall o, oid = VStr o -> ~ In o (batch_keys env1 rest)).
      { destruct oid as [| | |o| |]; cbn [order_key] in Hnd;
          try (split; [exact Hnd|discriminate]).
        apply NoDup_cons in Hnd as [Hin Hnd]. split; [exact Hnd|].
        intros o' [= <-]. now rewrite <- list_elem_of_In. }
      destruct Hrest as [Hnd' Hfresh].
      eapply rel_bind_seq; [|intros l; apply (IH Hnd')|].
      * apply rel_handle_record; [apply Henv| |].
        -- intros s1 s2. apply agree_on_weaken.
           intros o Ho. destruct (order_key oid); [now right|exact Ho].
        -- intros oid' Hoid'. rewrite Hd in Hoid'. injection Hoid' as <-.
           now apply agree_on_process_order.
      * intros s1 s2. apply agree_on_weaken. intros o [].
    + eapply rel_bind_seq; [|intros l; apply (IH Hnd)|].
      * apply rel_handle_record; [apply Henv|auto|].
        intros oid' Hoid'. rewrite Hd in Hoid'. discriminate.
      * intros s1 s2. apply agree_on_weaken. intros o [].
Qed.

Lemma same_store_agree_on K s1 s2 : same_store s1 s2 -> agree_on K s1 s2.
Proof.
  intros (Ht & Hq & Hr). repeat split; auto. intros o _. now rewrite Ht.
Qed.

(** C8 (as amended). The three best-effort calls always return normally,
    whatever faults inside them; without a configured topic the
    notification only records that it was entered. The result of one
    [process_order] is the same whichever of these calls fault. The result
    of the batch handler is the same whichever publishes and metric reports
    fault, and also whichever status writes fault provided no two messages
    of the batch hand the same order to [process_order]. *)
Theorem side_effects_do_not_change_outcome :
  (forall env order_id status ts msg s,
     exists s', update_order_status env order_id status ts msg s = (Ret tt, s')) /\
  (forall env order_id kind od msg s,
     exists s', send_order_notification env order_id kind od msg s = (Ret tt, s')) /\
  (forall env a b s,
     exists s', send_processing_metrics env a b s = (Ret tt, s')) /\
  (forall env order_id kind od msg s,
     topic_configured env = false ->
     send_order_notification env order_id kind od msg s
       = emit (EvNotify order_id kind msg) s) /\
  (forall env1 env2 order_id s1 s2,
     same_inputs env1 env2 -> same_store s1 s2 ->
     (process_order env1 order_id s1).1 = (process_order env2 order_id s2).1) /\
  (forall env1 env2 event s1 s2,
     same_but_sink_faults env1 env2 -> same_but_trace s1 s2 ->
     (handler env1 event s1).1 = (handler env2 event s2).1) /\
  (forall env1 env2 event records rs s1 s2,
     same_inputs env1 env2 -> same_store s1 s2 ->
     getitem event "Records" = Ret records -> py_iter records = Ret rs ->
     NoDup (batch_keys env1 rs) ->
     (handler env1 event s1).1 = (handler env2 event s2).1).
Proof.
  split; [|split; [|split; [|split; [|split; [|split]]]]].
  - intros. apply try_except_unit.
  - intros env order_id kind od msg s.
    destruct (send_order_notification_spec env order_id kind od msg s)
      as (s' & pubs & H & _). eauto.
  - intros. apply try_except_unit.
  - intros env order_id kind od msg s Hc.
    unfold send_order_notification. rewrite Hc. reflexivity.
  - intros env1 env2 order_id s1 s2 Henv Hs.
    apply (process_order_same_result env1 env2 order_id Henv s1 s2 Hs).
  - intros env1 env2 event s1 s2 Henv Hs.
    apply (rel_handler env1 env2 same_but_trace same_but_trace); [|exact Hs].
    intros records rs _ _. apply rel_handle_records; [apply Henv|].
    intros oid. now apply same_but_trace_process_order.
  - intros env1 env2 event records rs s1 s2 Henv Hs He Hi Hnd.
    apply (rel_handler env1 env2 (agree_on (batch_keys env1 rs)) (agree_on []));
      [|now apply same_store_agree_on].
    intros records' rs' He' Hi'.
    rewrite He in He'. injection He' as <-.
    rewrite Hi in Hi'. injection Hi' as <-.
    now apply rel_handle_records_distinct.
Qed.

Lemma side_effects_do_not_change_outcome_witness :
  (process_order env_shortage (VStr "o1") (state_of [o1_pending])).1
  = (process_order env_shortage_writes_down (VStr "o1") (state_of [o1_pending])).1.
Proof.
  apply (proj1 (proj2 (proj2 (proj2 (proj2 side_effects_do_not_change_outcome))))
           env_shortage env_shortage_writes_down (VStr "o1")
           (state_of [o1_pending]) (state_of [o1_pending])).
  - repeat split; reflexivity.
  - repeat split; reflexivity.
Defined.

(** C8, as stated, fails for the batch handler: the same message comes
    twice in one batch, and the order fails its inventory check. With
    working status writes the second delivery finds the order FAILED and
    reports it processed; with faulting status writes it finds it PENDING
    still, runs it again and reports it failed. The two environments
    differ in the faults of the status writes only. *)
Lemma write_faults_change_batch_outcome :
  same_inputs env_shortage env_shortage_writes_down /\
  SNS_TOPIC_ARN env_shortage = SNS_TOPIC_ARN env_shortage_writes_down /\
  publish_fault env_shortage = publish_fault env_shortage_writes_down /\
  metrics_fault env_shortage = metrics_fault env_shortage_writes_down /\
  (handler env_shortage twice_o1 (state_of [o1_pending])).1
    = Ret (Response200 [VStr "o1"] [VStr "o1"]) /\
  (handler env_shortage_writes_down twice_o1 (state_of [o1_pending])).1
    = Ret (Response200 [] [VStr "o1"; VStr "o1"]) /\
  (handler env_shortage twice_o1 (state_of [o1_pending])).1
    <> (handler env_shortage_writes_down twice_o1 (state_of [o1_pending])).1.
Proof.
  assert (H1 : (handler env_shortage twice_o1 (state_of [o1_pending])).1
               = Ret (Response200 [VStr "o1"] [VStr "o1"]))
    by (vm_compute; reflexivity).
  assert (H2 : (handler env_shortage_writes_down twice_o1 (state_of [o1_pending])).1
               = Ret (Response200 [] [VStr "o1"; VStr "o1"]))
    by (vm_compute; reflexivity).
  repeat split; try reflexivity; try assumption.
  rewrite H1, H2. discriminate.
Qed.

(** * Further properties of the engine *)

(** ** Outcomes of [process_order] *)

(** X1. An order id without a record: [process_order] returns failure after
    the query alone; nothing is written and no step runs. *)
Theorem process_order_not_found env o s :
  query_fault env (n_query s) = None ->
  String.eqb o "" = false ->
  query_items o (table s) = [] ->
  exists s',
    process_order env (VStr o) s = (Ret false, s') /\
    table s' = table s /\
    trace s' = trace s ++ [EvQuery (VStr o)].
Proof.
  intros Hf Ho Hq.
  destruct (table_query_ok env o s Hf Ho) as (s1 & Hrun & Htr & Htb & _).
  unfold process_order. rewrite Hrun, Hq. eauto.
Qed.

Lemma process_order_not_found_witness :
  exists s',
    process_order env_ok (VStr "o2") (state_of [o1_pending]) = (Ret false, s') /\
    table s' = table (state_of [o1_pending]) /\
    trace s' = trace (state_of [o1_pending]) ++ [EvQuery (VStr "o2")].
Proof.
  apply (process_order_not_found env_ok "o2" (state_of [o1_pending]));
    reflexivity.
Defined.

(** X2. A PENDING record that carries no timestamp: the first
    [order['timestamp']] raises, the [except] clause tries to mark the order
    FAILED under the empty timestamp, which the table rejects, and
    [process_order] returns failure. No step runs and the table is
    untouched. *)
Theorem process_order_without_timestamp env o order rest s :
  query_fault env (n_query s) = None ->
  String.eqb o "" = false ->
  query_items o (table s) = order :: rest ->
  py_eq_str (dict_get order "status" (VStr "PENDING")) "PENDING" = true ->
  order !! "timestamp" = None ->
  exists s',
    process_order env (VStr o) s = (Ret false, s') /\
    table s' = table s /\
    trace s' = trace s ++
      [EvQuery (VStr o);
       EvUpdateItem (VStr o) (VStr "") "FAILED" (Some "'timestamp'") false].
Proof.
  intros Hf Ho Hq Hst Hts.
  destruct (table_query_ok env o s Hf Ho) as (s1 & Hrun & Htr & Htb & _).
  destruct (drive_pipeline_no_timestamp env (VStr o) order s1 Hts)
    as (s' & Hd & Htr' & Htb' & _).
  exists s'. unfold process_order. rewrite Hrun, Hq.
  unfold process_found at 1. rewrite Hst. cbn [negb].
  split; [exact Hd|]. split; [congruence|].
  rewrite Htr', Htr. now rewrite <- app_assoc.
Qed.

Lemma process_order_without_timestamp_witness :
  exists s',
    process_order env_ok (VStr "o1") (state_of [o1_no_timestamp]) = (Ret false, s') /\
    table s' = table (state_of [o1_no_timestamp]) /\
    trace s' = trace (state_of [o1_no_timestamp]) ++
      [EvQuery (VStr "o1");
       EvUpdateItem (VStr "o1") (VStr "") "FAILED" (Some "'timestamp'") false].
Proof.
  apply (process_order_without_timestamp env_ok "o1" o1_no_timestamp []
           (state_of [o1_no_timestamp])); reflexivity.
Defined.

(** ** The order in which the steps run *)

Lemma exec_results_app tr1 tr2 :
  exec_results (tr1 ++ tr2) = exec_results tr1 ++ exec_results tr2.
Proof. apply omap_app. Qed.

Lemma exec_results_publish pubs :
  Forall is_publish pubs -> exec_results pubs = [].
Proof.
  induction 1 as [|e pubs He Hp IH]; [reflexivity|].
  destruct e; try destruct He. exact IH.
Qed.

Lemma steps_trace_exec_results order_id ts tb names r tr :
  steps_trace order_id ts tb names r tr ->
  (r = true -> exec_results tr = succeeded names) /\
  (r = false ->
   exists pre k post,
     names = pre ++ k :: post /\
     exec_results tr = succeeded pre ++ [(k, false)]).
Proof.
  induction 1 as [|k0 ks a r tr Hst [IHt IHf]|k0 ks a a' pubs Hp Hl Hrec].
  - split; [reflexivity|discriminate].
  - split.
    + intros Hr. cbn. f_equal. exact (IHt Hr).
    + intros Hr. destruct (IHf Hr) as (pre & k & post & -> & Hex).
      exists (k0 :: pre), k, post. split; [reflexivity|].
      cbn. f_equal. exact Hex.
  - split; [discriminate|]. intros _.
    exists [], k0, ks. split; [reflexivity|].
    cbn. f_equal. now apply exec_results_publish.
Qed.

(** X3. The steps run in the fixed order, none skipped and none repeated. A
    run of [process_order] invokes no executor at all, or all four with
    every one returning true and the result True, or the steps up to the
    first one that returns false, and then the result is False. *)
Theorem executors_run_in_order env order_id s r s' tr :
  process_order env order_id s = (r, s') ->
  trace s' = trace s ++ tr ->
  exec_results tr = [] \/
  (r = Ret true /\ exec_results tr = succeeded step_names) \/
  (r = Ret false /\
   exists pre k post,
     step_names = pre ++ k :: post /\
     exec_results tr = succeeded pre ++ [(k, false)]).
Proof.
  intros Hrun Htr.
  destruct (process_order_trace _ _ _ _ _ _ Hrun Htr) as (tr0 & -> & Hor).
  change (exec_results (EvQuery order_id :: tr0)) with (exec_results tr0).
  destruct Hor as [Htb|Htb|Htb|Htb|ts str Hst|ts str a pubs Hst Hp Hl Hrec];
    try (left; reflexivity).
  - right; right. split; [reflexivity|].
    exact (proj2 (steps_trace_exec_results _ _ _ _ _ _ Hst) eq_refl).
  - right; left. split; [reflexivity|].
    rewrite exec_results_app.
    change (exec_results (_ :: _ :: pubs)) with (exec_results pubs).
    rewrite (exec_results_publish pubs Hp), app_nil_r.
    exact (proj1 (steps_trace_exec_results _ _ _ _ _ _ Hst) eq_refl).
Qed.

Lemma executors_run_in_order_witness :
  exec_results (trace payment_declined_run.2) = [] \/
  (payment_declined_run.1 = Ret true /\
   exec_results (trace payment_declined_run.2) = succeeded step_names) \/
  (payment_declined_run.1 = Ret false /\
   exists pre k post,
     step_names = pre ++ k :: post /\
     exec_results (trace payment_declined_run.2) = succeeded pre ++ [(k, false)]).
Proof.
  apply (executors_run_in_order env_payment_declined (VStr "o1")
           (state_of [o1_pending]) payment_declined_run.1 payment_declined_run.2
           (trace payment_declined_run.2)).
  - apply surjective_pairing.
  - reflexivity.
Defined.

Lemma steps_trace_statuses order_id ts tb names r tr o t status msg a :
  steps_trace order_id ts tb names r tr ->
  In (EvUpdateItem o t status msg a) tr ->
  In status names \/ status = "FAILED".
Proof.
  induction 1 as [|k0 ks a0 r tr Hst IH|k0 ks a0 a' pubs Hp Hl Hrec]; intros Hin.
  - destruct Hin.
  - destruct Hin as [Hin|[Hin|Hin]]; try discriminate.
    + injection Hin as _ _ <- _ _. left; now left.
    + destruct (IH Hin) as [H|H]; [left; now right|now right].
  - destruct Hin as [Hin|[Hin|[Hin|[Hin|Hin]]]]; try discriminate.
    + injection Hin as _ _ <- _ _. left; now left.
    + injection Hin as _ _ <- _ _. now right.
    + exfalso. rewrite List.Forall_forall in Hp. exact (Hp _ Hin).
Qed.

(** X4. Status COMPLETED is written only at the end of a run in which all
    four steps ran and succeeded, and that run returns True; when the table
    applied the write, the record is left COMPLETED. *)
Theorem completed_only_after_all_steps env order_id s r s' tr o t msg a :
  process_order env order_id s = (r, s') ->
  trace s' = trace s ++ tr ->
  In (EvUpdateItem o t "COMPLETED" msg a) tr ->
  r = Ret true /\
  exec_results tr = succeeded step_names /\
  o = order_id /\ msg = None /\
  (a = true -> recorded order_id t "COMPLETED" None (table s')).
Proof.
  intros Hrun Htr Hin.
  destruct (process_order_trace _ _ _ _ _ _ Hrun Htr) as (tr0 & -> & Hor).
  destruct Hin as [Hin|Hin]; [discriminate|].
  change (exec_results (EvQuery order_id :: tr0)) with (exec_results tr0).
  destruct Hor as [Htb|Htb|Htb|Htb|ts str Hst|ts str a0 pubs Hst Hp Hl Hrec].
  - destruct Hin.
  - destruct Hin.
  - destruct Hin.
  - destruct Hin as [Hin|[]]. discriminate.
  - exfalso.
    destruct (steps_trace_statuses _ _ _ _ _ _ _ _ _ _ _ Hst Hin) as [H|H];
      [|discriminate].
    cbn in H. intuition discriminate.
  - apply in_app_or in Hin as [Hin|[Hin|[Hin|Hin]]]; try discriminate.
    + exfalso.
      destruct (steps_trace_statuses _ _ _ _ _ _ _ _ _ _ _ Hst Hin) as [H|H];
        [|discriminate].
      cbn in H. intuition discriminate.
    + injection Hin as <- <- <- <-.
      split; [reflexivity|]. split; [|auto].
      rewrite exec_results_app.
      change (exec_results (_ :: _ :: pubs)) with (exec_results pubs).
      rewrite (exec_results_publish pubs Hp), app_nil_r.
      exact (proj1 (steps_trace_exec_results _ _ _ _ _ _ Hst) eq_refl).
    + exfalso. rewrite List.Forall_forall in Hp. exact (Hp _ Hin).
Qed.

Lemma completed_only_after_all_steps_witness :
  completed_run.1 = Ret true /\
  exec_results (trace completed_run.2) = succeeded step_names /\
  VStr "o1" = VStr "o1" /\ @None string = None /\
  (true = true ->
   recorded (VStr "o1") (VStr "2024-01-01T00:00:00") "COMPLETED" None
            (table completed_run.2)).
Proof.
  apply (completed_only_after_all_steps env_ok (VStr "o1") (state_of [o1_pending])
           completed_run.1 completed_run.2 (trace completed_run.2)).
  - apply surjective_pairing.
  - reflexivity.
  - vm_compute. do 9 right. left. reflexivity.
Defined.

(** ** The executors, one by one *)

Lemma Qlt_bool_false x y : Qlt_bool x y = false <-> (y <= x)%Q.
Proof.
  unfold Qlt_bool. rewrite negb_false_iff. apply Qle_bool_iff.
Qed.

Lemma Qlt_bool_true x y : Qlt_bool x y = true <-> (x < y)%Q.
Proof.
  unfold Qlt_bool. rewrite negb_true_iff. split.
  - intros H. apply Qnot_le_lt. intros Hle.
    apply Qle_bool_iff in Hle. congruence.
  - intros H. destruct (Qle_bool y x) eqn:E; [|reflexivity].
    apply Qle_bool_iff in E. exfalso. exact (Qlt_not_le _ _ H E).
Qed.

Lemma payment_sleep_nonneg q :
  (0 <= q)%Q -> Qlt_bool (Qmin (1 # 2) (q / 1000)) 0 = false.
Proof.
  intros H. apply Qlt_bool_false. apply Q.min_glb_iff. split; [discriminate|].
  apply Qle_shift_div_l; [reflexivity|]. now rewrite Qmult_0_l.
Qed.

Lemma payment_sleep_negative q :
  (q < 0)%Q -> Qlt_bool (Qmin (1 # 2) (q / 1000)) 0 = true.
Proof.
  intros H. apply Qlt_bool_true. apply Q.min_lt_iff. right.
  apply Qlt_shift_div_r; [reflexivity|]. now rewrite Qmult_0_l.
Qed.

Lemma fulfill_sleep_nonneg n :
  Qlt_bool (Qmin 1 (inject_Z (Z.of_nat n) * (1 # 10))) 0 = false.
Proof.
  apply Qlt_bool_false. apply Q.min_glb_iff. split; [discriminate|].
  apply Qmult_le_0_compat; [|discriminate].
  unfold Qle. cbn. lia.
Qed.

Lemma set_random_step n m s :
  set_random n
    {| table := table s; trace := trace s; n_random := m;
       n_clock := n_clock s; n_query := n_query s; n_update := n_update s;
       n_publish := n_publish s; n_metrics := n_metrics s |}
  = set_random n s.
Proof. reflexivity. Qed.

Lemma shortage_in_none env items : forall s,
  (forall i, i < length items ->
     Qlt_bool (random_random env (n_random s + i)) (1 # 10) = false) ->
  shortage_in env items s
    = (Ret false, set_random (n_random s + length items) s).
Proof.
  induction items as [|it rest IH]; intros s Hd.
  - cbn. unfold ret. now rewrite Nat.add_0_r, set_random_id.
  - cbn [shortage_in]. unfold bind at 1, py_random at 1.
    pose proof (Hd 0 ltac:(cbn; lia)) as H0. rewrite Nat.add_0_r in H0.
    rewrite H0. rewrite IH.
    + cbn [n_random length]. rewrite set_random_step.
      now rewrite Nat.add_succ_r.
    + cbn [n_random]. intros i Hi.
      rewrite <- (Hd (S i)) by (cbn; lia). now rewrite Nat.add_succ_r.
Qed.

Lemma shortage_in_first env items : forall i s,
  i < length items ->
  (forall j, j < i ->
     Qlt_bool (random_random env (n_random s + j)) (1 # 10) = false) ->
  Qlt_bool (random_random env (n_random s + i)) (1 # 10) = true ->
  exists r,
    shortage_in env items s = (r, set_random (n_random s + S i) s) /\
    r <> Ret false.
Proof.
  induction items as [|it rest IH]; intros i s Hi Hbefore Hshort.
  - cbn in Hi. lia.
  - cbn [shortage_in]. unfold bind at 1, py_random at 1.
    destruct i as [|i].
    + rewrite Nat.add_0_r in Hshort. rewrite Hshort.
      unfold bind, lift. rewrite Nat.add_1_r.
      destruct (py_get it "productId" (VStr "unknown")); eexists;
        (split; [reflexivity|discriminate]).
    + pose proof (Hbefore 0 ltac:(lia)) as H0. rewrite Nat.add_0_r in H0.
      rewrite H0.
      edestruct (IH i) as (r & Hr & Hne); cycle 3.
      * rewrite Hr. cbn [n_random]. rewrite set_random_step.
        exists r. split; [|exact Hne]. now rewrite !Nat.add_succ_r.
      * cbn in Hi. lia.
      * cbn [n_random]. intros j Hj.
        rewrite <- (Hbefore (S j)) by lia. now rewrite Nat.add_succ_r.
      * cbn [n_random]. rewrite <- Hshort. now rewrite Nat.add_succ_r.
Qed.

(** X5. [check_inventory] takes one random draw per item. When none of them
    falls under 0.1 it returns True, having taken as many draws as the order
    has items. *)
Theorem check_inventory_in_stock env order items s :
  order !! "items" = Some (VList items) ->
  is_Some (order !! "orderId") ->
  (forall i, i < length items ->
     Qlt_bool (random_random env (n_random s + i)) (1 # 10) = false) ->
  check_inventory env order s
    = (Ret true, set_random (n_random s + length items) s).
Proof.
  intros Hi [oid Ho] Hd. unfold check_inventory, try_except, dict_getitem.
  rewrite Hi, Ho.
  rewrite (bind_eq _ _ s (VList items) s) by reflexivity.
  rewrite (bind_eq _ _ s items s) by reflexivity.
  rewrite (bind_eq _ _ _ _ _ (shortage_in_none env items s Hd)).
  reflexivity.
Qed.

(** X6. [check_inventory] stops at the first item whose draw falls under
    0.1: it returns False, and the items after it cost no draw. *)
Theorem check_inventory_first_shortage env order items i s :
  order !! "items" = Some (VList items) ->
  i < length items ->
  (forall j, j < i ->
     Qlt_bool (random_random env (n_random s + j)) (1 # 10) = false) ->
  Qlt_bool (random_random env (n_random s + i)) (1 # 10) = true ->
  check_inventory env order s
    = (Ret false, set_random (n_random s + S i) s).
Proof.
  intros Hi Hlt Hbefore Hshort.
  destruct (shortage_in_first env items i s Hlt Hbefore Hshort) as (r & Hr & Hne).
  unfold check_inventory, try_except, dict_getitem.
  rewrite Hi.
  rewrite (bind_eq _ _ s (VList items) s) by reflexivity.
  rewrite (bind_eq _ _ s items s) by reflexivity.
  unfold bind at 1. rewrite Hr.
  destruct r as [[|]|e]; try reflexivity. now destruct Hne.
Qed.

(** X7. [process_payment] takes exactly one random draw. For an order whose
    total is a number that is not negative it returns True exactly when the
    draw does not fall under 0.05; for a negative total it returns False
    whatever the draw, because the sleep of negative length raises. *)
Theorem process_payment_outcome env order total q s :
  order !! "totalAmount" = Some total ->
  py_float env total = Ret q ->
  is_Some (order !! "orderId") ->
  process_payment env order s
    = (Ret (if Qlt_bool q 0 then false
            else negb (Qlt_bool (random_random env (n_random s)) (5 # 100))),
       set_random (S (n_random s)) s).
Proof.
  intros Ht Hf [oid Ho]. unfold process_payment, try_except, dict_getitem.
  rewrite Ht, Ho.
  rewrite (bind_eq _ _ s total s) by reflexivity.
  rewrite Hf.
  rewrite (bind_eq _ _ s q s) by reflexivity.
  unfold bind at 1, py_random at 1.
  destruct (Qlt_bool (random_random env (n_random s)) (5 # 100)) eqn:Hd.
  - cbn [negb]. now destruct (Qlt_bool q 0).
  - unfold time_sleep. destruct (Qlt_bool q 0) eqn:Hq.
    + apply Qlt_bool_true in Hq. rewrite (payment_sleep_negative q Hq).
      reflexivity.
    + apply Qlt_bool_false in Hq. rewrite (payment_sleep_nonneg q Hq).
      reflexivity.
Qed.

(** X8. [fulfill_order] cannot fail on an order that passed
    [validate_order]: it returns True and takes no random draw. *)
Theorem fulfill_order_after_validation env order s :
  validate_result env order = true ->
  fulfill_order order s = (Ret true, s).
Proof.
  unfold validate_result. intros Hv.
  destruct (existsb (missing_or_empty order) required_fields); [discriminate|].
  destruct (order !! "items") as [[| | | |[|x l]|]|] eqn:Hi; try discriminate.
  destruct (order !! "totalAmount") as [v|]; [|discriminate].
  destruct (py_float env v) as [q|e]; [|discriminate].
  destruct (Qle_bool q 0); [discriminate|].
  destruct (order !! "orderId") as [oid|] eqn:Ho; [|discriminate].
  unfold fulfill_order, try_except, dict_getitem. rewrite Hi, Ho.
  rewrite (bind_eq _ _ s (VList (x :: l)) s) by reflexivity.
  rewrite (bind_eq _ _ s (length (x :: l)) s) by reflexivity.
  unfold time_sleep. rewrite fulfill_sleep_nonneg. reflexivity.
Qed.

Lemma check_inventory_in_stock_witness :
  check_inventory env_ok o1_pending (state_of [])
  = (Ret true, set_random (n_random (state_of []) + length [product_x]) (state_of [])).
Proof.
  apply (check_inventory_in_stock env_ok o1_pending [product_x] (state_of [])).
  - reflexivity.
  - eexists. reflexivity.
  - intros i Hi. reflexivity.
Defined.

Lemma check_inventory_first_shortage_witness :
  check_inventory env_shortage o1_pending (state_of [])
  = (Ret false, set_random (n_random (state_of []) + 1) (state_of [])).
Proof.
  apply (check_inventory_first_shortage env_shortage o1_pending [product_x] 0
           (state_of [])).
  - reflexivity.
  - cbn. lia.
  - intros j Hj. lia.
  - reflexivity.
Defined.

Lemma process_payment_outcome_witness :
  process_payment env_ok o1_negative_total (state_of [])
  = (Ret (if Qlt_bool (-5) 0 then false
          else negb (Qlt_bool (random_random env_ok (n_random (state_of [])))
                              (5 # 100))),
     set_random (S (n_random (state_of []))) (state_of [])).
Proof.
  apply (process_payment_outcome env_ok o1_negative_total (VNum (-5)) (-5)
           (state_of [])).
  - reflexivity.
  - reflexivity.
  - eexists. reflexivity.
Defined.

Lemma fulfill_order_after_validation_witness :
  fulfill_order o1_pending (state_of []) = (Ret true, state_of []).
Proof.
  apply (fulfill_order_after_validation env_ok o1_pending (state_of [])).
  vm_compute. reflexivity.
Defined.

(** ** A well-formed pending order, end to end *)

Lemma well_formed_validates env order :
  well_formed_order order -> validate_result env order = true.
Proof.
  intros ([oid Hoid] & (c & Hc & Hct) & (x & l & Hi) & (q & Ht & Hq)).
  assert (Hqe : Qeq_bool q 0 = false).
  { destruct (Qeq_bool q 0) eqn:E; [|reflexivity].
    apply Qeq_bool_iff in E. rewrite E in Hq. now apply Qlt_irrefl in Hq. }
  assert (Hql : Qle_bool q 0 = false).
  { destruct (Qle_bool q 0) eqn:E; [|reflexivity].
    apply Qle_bool_iff in E. exfalso. exact (Qlt_not_le _ _ Hq E). }
  unfold validate_result.
  assert (existsb (missing_or_empty order) required_fields = false) as ->.
  { cbn. unfold missing_or_empty. rewrite Hc, Hi, Ht, Hct. cbn.
    now rewrite Hqe. }
  rewrite Hi, Ht. cbn [py_float]. now rewrite Hql, Hoid.
Qed.

(** One turn of the loop, when what the executor returns is known. *)
Lemma run_steps_step env order_id order ts k (f : Executor) rest s b n' :
  order !! "timestamp" = Some ts ->
  (forall s1, n_random s1 = n_random s ->
     f order s1 = (Ret b, set_random n' s1)) ->
  exists s2 a,
    trace s2 = trace s ++ [EvUpdateItem order_id ts k None a; EvExec k b] /\
    n_random s2 = n' /\ n_query s2 = n_query s /\
    run_steps env order_id order ((k, f) :: rest) s =
      (if b then run_steps env order_id order rest
       else
         (ts' <- lift (dict_getitem order "timestamp") ;;
          update_order_status env order_id "FAILED" ts'
                              (Some ("Failed at " ++ k)%string) ;;;
          send_order_notification env order_id "FAILED" (Some order)
                                  (Some ("Failed at " ++ k)%string) ;;;
          ret false)%py) s2.
Proof.
  intros Hts Hf. cbn [run_steps]. unfold dict_getitem. rewrite Hts.
  rewrite (bind_eq _ _ s ts s) by reflexivity.
  destruct (update_order_status_recorded env order_id k ts None s)
    as (s1 & a & Hu & Htr1 & Hr1 & Hq1 & _ & _).
  rewrite (bind_eq _ _ _ _ _ Hu).
  destruct (exec_step_eq k f order s1 b _ (Hf s1 Hr1))
    as (s2 & He & Htr2 & _ & Hr2 & Hq2).
  rewrite (bind_eq _ _ _ _ _ He).
  exists s2, a. repeat split.
  - rewrite Htr2. cbn [trace set_random]. rewrite Htr1.
    now rewrite <- app_assoc.
  - rewrite Hr2. reflexivity.
  - rewrite Hq2. cbn. exact Hq1.
  - now destruct b.
Qed.

(** The failure branch of the loop. *)
Lemma run_steps_failure_branch env order_id order ts k s :
  order !! "timestamp" = Some ts ->
  exists s' a pubs,
    (ts' <- lift (dict_getitem order "timestamp") ;;
     update_order_status env order_id "FAILED" ts'
                         (Some ("Failed at " ++ k)%string) ;;;
     send_order_notification env order_id "FAILED" (Some order)
                             (Some ("Failed at " ++ k)%string) ;;;
     ret false)%py s = (Ret false, s') /\
    trace s' = trace s ++
      EvUpdateItem order_id ts "FAILED" (Some ("Failed at " ++ k)%string) a ::
      EvNotify order_id "FAILED" (Some ("Failed at " ++ k)%string) :: pubs /\
    Forall is_publish pubs /\
    (a = true ->
     recorded order_id ts "FAILED" (Some ("Failed at " ++ k)%string) (table s')).
Proof.
  intros Hts. unfold dict_getitem. rewrite Hts.
  rewrite (bind_eq _ _ s ts s) by reflexivity.
  destruct (update_order_status_recorded env order_id "FAILED" ts
              (Some (failed_at k)) s)
    as (s1 & a & Hu & Htr1 & _ & _ & _ & Hrec).
  fold (failed_at k). rewrite (bind_eq _ _ _ _ _ Hu).
  destruct (send_order_notification_spec env order_id "FAILED" (Some order)
              (Some (failed_at k)) s1)
    as (s2 & pubs & Hn & Htr2 & Hp & _ & _ & Htb2 & _).
  rewrite (bind_eq _ _ _ _ _ Hn).
  exists s2, a, pubs. repeat split; auto.
  - rewrite Htr2, Htr1, sent_failed_at. now rewrite <- app_assoc.
  - intros Ha. rewrite Htb2. now apply Hrec.
Qed.

(** What the four executors return on a well-formed order, as equations in
    the form the loop uses: from any state whose random cursor is [n]. *)
Lemma validate_at env order n :
  well_formed_order order ->
  forall s1, n_random s1 = n ->
    validate_order env order s1 = (Ret true, set_random n s1).
Proof.
  intros Hwf s1 <-.
  now rewrite validate_order_eq, (well_formed_validates env order Hwf), set_random_id.
Qed.

Lemma check_inventory_at env order items n :
  order !! "items" = Some (VList items) ->
  is_Some (order !! "orderId") ->
  (forall i, i < length items ->
     Qlt_bool (random_random env (n + i)) (1 # 10) = false) ->
  forall s1, n_random s1 = n ->
    check_inventory env order s1 = (Ret true, set_random (n + length items) s1).
Proof.
  intros Hi [oid Ho] Hd s1 <-.
  unfold check_inventory, try_except, dict_getitem. rewrite Hi, Ho.
  rewrite (bind_eq _ _ s1 (VList items) s1) by reflexivity.
  rewrite (bind_eq _ _ s1 items s1) by reflexivity.
  rewrite (bind_eq _ _ _ _ _ (shortage_in_none env items s1 Hd)).
  reflexivity.
Qed.

Lemma check_inventory_short_at env order items i n :
  order !! "items" = Some (VList items) ->
  i < length items ->
  (forall j, j < i -> Qlt_bool (random_random env (n + j)) (1 # 10) = false) ->
  Qlt_bool (random_random env (n + i)) (1 # 10) = true ->
  forall s1, n_random s1 = n ->
    check_inventory env order s1 = (Ret false, set_random (n + S i) s1).
Proof.
  intros Hi Hlt Hbefore Hshort s1 <-.
  destruct (shortage_in_first env items i s1 Hlt Hbefore Hshort) as (r & Hr & Hne).
  unfold check_inventory, try_except, dict_getitem. rewrite Hi.
  rewrite (bind_eq _ _ s1 (VList items) s1) by reflexivity.
  rewrite (bind_eq _ _ s1 items s1) by reflexivity.
  unfold bind at 1. rewrite Hr.
  destruct r as [[|]|e]; try reflexivity. now destruct Hne.
Qed.

Lemma process_payment_at env order q n :
  order !! "totalAmount" = Some (VNum q) -> (0 < q)%Q ->
  is_Some (order !! "orderId") ->
  forall s1, n_random s1 = n ->
    process_payment env order s1
    = (Ret (negb (Qlt_bool (random_random env n) (5 # 100))), set_random (S n) s1).
Proof.
  intros Ht Hq [oid Ho] s1 <-.
  unfold process_payment, try_except, dict_getitem. rewrite Ht, Ho.
  rewrite (bind_eq _ _ s1 (VNum q) s1) by reflexivity.
  cbn [py_float]. rewrite (bind_eq _ _ s1 q s1) by reflexivity.
  unfold bind at 1, py_random at 1.
  destruct (Qlt_bool (random_random env (n_random s1)) (5 # 100)); [reflexivity|].
  unfold time_sleep. rewrite (payment_sleep_nonneg q (Qlt_le_weak _ _ Hq)).
  reflexivity.
Qed.

Lemma fulfill_order_at order items n :
  order !! "items" = Some (VList items) ->
  is_Some (order !! "orderId") ->
  forall s1, n_random s1 = n ->
    fulfill_order order s1 = (Ret true, set_random n s1).
Proof.
  intros Hi [oid Ho] s1 <-.
  unfold fulfill_order, try_except, dict_getitem. rewrite Hi, Ho.
  rewrite (bind_eq _ _ s1 (VList items) s1) by reflexivity.
  rewrite (bind_eq _ _ s1 (length items) s1) by reflexivity.
  unfold time_sleep. rewrite fulfill_sleep_nonneg.
  now rewrite set_random_id.
Qed.

(** From the query to the loop, for a PENDING record. *)
Lemma process_order_pending env o order rest s :
  query_fault env (n_query s) = None ->
  String.eqb o "" = false ->
  query_items o (table s) = order :: rest ->
  py_eq_str (dict_get order "status" (VStr "PENDING")) "PENDING" = true ->
  exists s1,
    trace s1 = trace s ++ [EvQuery (VStr o)] /\
    n_random s1 = n_random s /\ table s1 = table s /\
    process_order env (VStr o) s =
      try_except (drive_pipeline env (VStr o) order)
                 (process_order_except env (VStr o) (Some order)) s1.
Proof.
  intros Hf Ho Hq Hst.
  destruct (table_query_ok env o s Hf Ho) as (s1 & Hrun & Htr & Htb & Hr & _).
  exists s1. repeat split; auto.
  unfold process_order. rewrite Hrun, Hq.
  unfold process_found. now rewrite Hst.
Qed.

(** The end of a run in which every step succeeded. *)
Lemma completion_branch env order_id order ts s :
  order !! "timestamp" = Some ts ->
  exists s' a pubs,
    (ts' <- lift (dict_getitem order "timestamp") ;;
     update_order_status env order_id "COMPLETED" ts' None ;;;
     send_order_notification env order_id "COMPLETED" (Some order) None ;;;
     ret true)%py s = (Ret true, s') /\
    trace s' = trace s ++
      EvUpdateItem order_id ts "COMPLETED" None a ::
      EvNotify order_id "COMPLETED" None :: pubs /\
    Forall is_publish pubs /\
    (a = true -> recorded order_id ts "COMPLETED" None (table s')).
Proof.
  intros Hts. unfold dict_getitem. rewrite Hts.
  rewrite (bind_eq _ _ s ts s) by reflexivity.
  destruct (update_order_status_recorded env order_id "COMPLETED" ts None s)
    as (s1 & a & Hu & Htr1 & _ & _ & _ & Hrec).
  rewrite (bind_eq _ _ _ _ _ Hu).
  destruct (send_order_notification_spec env order_id "COMPLETED" (Some order)
              None s1)
    as (s2 & pubs & Hn & Htr2 & Hp & _ & _ & Htb2 & _).
  rewrite (bind_eq _ _ _ _ _ Hn).
  exists s2, a, pubs. repeat split; auto.
  - rewrite Htr2, Htr1. now rewrite <- app_assoc.
  - intros Ha. rewrite Htb2. now apply Hrec.
Qed.

(** X9. A well-formed PENDING order none of whose draws is unlucky is
    completed: with no draw of the inventory check under 0.1 and the draw of
    the payment not under 0.05, [process_order] returns True after running
    the four steps, writes status COMPLETED, the record being left COMPLETED
    when the table applied that write, and enters the completion
    notification. *)
Theorem pending_order_completes env o order rest ts items s :
  query_fault env (n_query s) = None ->
  String.eqb o "" = false ->
  query_items o (table s) = order :: rest ->
  py_eq_str (dict_get order "status" (VStr "PENDING")) "PENDING" = true ->
  well_formed_order order ->
  order !! "timestamp" = Some ts ->
  order !! "items" = Some (VList items) ->
  (forall i, i < length items ->
     Qlt_bool (random_random env (n_random s + i)) (1 # 10) = false) ->
  Qlt_bool (random_random env (n_random s + length items)) (5 # 100) = false ->
  exists s' tr a,
    process_order env (VStr o) s = (Ret true, s') /\
    trace s' = trace s ++ tr /\
    exec_results tr = succeeded step_names /\
    In (EvUpdateItem (VStr o) ts "COMPLETED" None a) tr /\
    In (EvNotify (VStr o) "COMPLETED" None) tr /\
    (a = true -> recorded (VStr o) ts "COMPLETED" None (table s')).
Proof.
  intros Hf Ho Hq Hst Hwf Hts Hit Hdraws Hpay.
  pose proof Hwf as (Hoid & _ & _ & (q & Htot & Hqpos)).
  destruct (process_order_pending env o order rest s Hf Ho Hq Hst)
    as (s1 & Htr1 & Hr1 & _ & ->).
  unfold try_except, drive_pipeline, processing_steps. unfold bind at 1.
  destruct (run_steps_step env (VStr o) order ts "VALIDATING" (validate_order env)
              [("INVENTORY_CHECK", check_inventory env);
               ("PAYMENT_PROCESSING", process_payment env);
               ("FULFILLMENT", fulfill_order)] s1 true (n_random s1) Hts
              (validate_at env order _ Hwf))
    as (s2 & a1 & Htr2 & Hr2 & _ & ->).
  rewrite Hr1 in Hr2.
  destruct (run_steps_step env (VStr o) order ts "INVENTORY_CHECK"
              (check_inventory env)
              [("PAYMENT_PROCESSING", process_payment env);
               ("FULFILLMENT", fulfill_order)] s2 true
              (n_random s + length items) Hts)
    as (s3 & a2 & Htr3 & Hr3 & _ & ->).
  { rewrite Hr2. now apply check_inventory_at. }
  destruct (run_steps_step env (VStr o) order ts "PAYMENT_PROCESSING"
              (process_payment env) [("FULFILLMENT", fulfill_order)] s3 true
              (S (n_random s + length items)) Hts)
    as (s4 & a3 & Htr4 & Hr4 & _ & ->).
  { rewrite Hr3. intros s' Hs'.
    rewrite (process_payment_at env order q _ Htot Hqpos Hoid s' Hs').
    now rewrite Hpay. }
  destruct (run_steps_step env (VStr o) order ts "FULFILLMENT" fulfill_order
              [] s4 true (S (n_random s + length items)) Hts)
    as (s5 & a4 & Htr5 & Hr5 & _ & ->).
  { rewrite Hr4. now apply (fulfill_order_at order items). }
  cbn [run_steps]. unfold ret at 1.
  destruct (completion_branch env (VStr o) order ts s5 Hts)
    as (s6 & a & pubs & -> & Htr6 & Hp & Hrec).
  eexists s6, _, a. split; [reflexivity|]. split.
  { rewrite Htr6, Htr5, Htr4, Htr3, Htr2, Htr1.
    rewrite <- !app_assoc. reflexivity. }
  split.
  { transitivity (succeeded step_names ++ exec_results pubs); [reflexivity|].
    now rewrite (exec_results_publish pubs Hp), app_nil_r. }
  split.
  { cbn [app]. do 9 right. now left. }
  split.
  { cbn [app]. do 10 right. now left. }
  exact Hrec.
Qed.

Lemma pending_order_completes_witness :
  exists s' tr a,
    process_order env_ok (VStr "o1") (state_of [o1_pending]) = (Ret true, s') /\
    trace s' = trace (state_of [o1_pending]) ++ tr /\
    exec_results tr = succeeded step_names /\
    In (EvUpdateItem (VStr "o1") (VStr "2024-01-01T00:00:00") "COMPLETED" None a) tr /\
    In (EvNotify (VStr "o1") "COMPLETED" None) tr /\
    (a = true ->
     recorded (VStr "o1") (VStr "2024-01-01T00:00:00") "COMPLETED" None (table s')).
Proof.
  apply (pending_order_completes env_ok "o1" o1_pending []
           (VStr "2024-01-01T00:00:00") [product_x] (state_of [o1_pending])).
  - reflexivity.
  - reflexivity.
  - reflexivity.
  - reflexivity.
  - split; [eexists; reflexivity|].
    split; [eexists; split; reflexivity|].
    split; [eexists _, _; reflexivity|].
    exists 10%Q. split; reflexivity.
  - reflexivity.
  - reflexivity.
  - intros i Hi. reflexivity.
  - reflexivity.
Defined.

(** X10. A well-formed PENDING order with a short item fails at
    INVENTORY_CHECK: validation ran and succeeded, the inventory check
    returned false, payment and fulfilment never ran; [process_order]
    returns False and writes FAILED with "Failed at INVENTORY_CHECK". *)
Theorem pending_order_short_inventory env o order rest ts items i s :
  query_fault env (n_query s) = None ->
  String.eqb o "" = false ->
  query_items o (table s) = order :: rest ->
  py_eq_str (dict_get order "status" (VStr "PENDING")) "PENDING" = true ->
  well_formed_order order ->
  order !! "timestamp" = Some ts ->
  order !! "items" = Some (VList items) ->
  i < length items ->
  (forall j, j < i ->
     Qlt_bool (random_random env (n_random s + j)) (1 # 10) = false) ->
  Qlt_bool (random_random env (n_random s + i)) (1 # 10) = true ->
  exists s' tr a,
    process_order env (VStr o) s = (Ret false, s') /\
    trace s' = trace s ++ tr /\
    exec_results tr = [("VALIDATING", true); ("INVENTORY_CHECK", false)] /\
    In (EvUpdateItem (VStr o) ts "FAILED" (Some "Failed at INVENTORY_CHECK") a) tr /\
    (a = true ->
     recorded (VStr o) ts "FAILED" (Some "Failed at INVENTORY_CHECK") (table s')).
Proof.
  intros Hf Ho Hq Hst Hwf Hts Hit Hi Hbefore Hshort.
  destruct (process_order_pending env o order rest s Hf Ho Hq Hst)
    as (s1 & Htr1 & Hr1 & _ & ->).
  unfold try_except, drive_pipeline, processing_steps. unfold bind at 1.
  destruct (run_steps_step env (VStr o) order ts "VALIDATING" (validate_order env)
              [("INVENTORY_CHECK", check_inventory env);
               ("PAYMENT_PROCESSING", process_payment env);
               ("FULFILLMENT", fulfill_order)] s1 true (n_random s1) Hts
              (validate_at env order _ Hwf))
    as (s2 & a1 & Htr2 & Hr2 & _ & ->).
  rewrite Hr1 in Hr2.
  destruct (run_steps_step env (VStr o) order ts "INVENTORY_CHECK"
              (check_inventory env)
              [("PAYMENT_PROCESSING", process_payment env);
               ("FULFILLMENT", fulfill_order)] s2 false
              (n_random s + S i) Hts)
    as (s3 & a2 & Htr3 & _ & _ & ->).
  { rewrite Hr2. now apply (check_inventory_short_at env order items). }
  destruct (run_steps_failure_branch env (VStr o) order ts "INVENTORY_CHECK" s3 Hts)
    as (s4 & a & pubs & -> & Htr4 & Hp & Hrec).
  eexists s4, _, a. split; [reflexivity|]. split.
  { rewrite Htr4, Htr3, Htr2, Htr1. rewrite <- !app_assoc. reflexivity. }
  split.
  { transitivity ([("VALIDATING", true); ("INVENTORY_CHECK", false)]
                  ++ exec_results pubs); [reflexivity|].
    now rewrite (exec_results_publish pubs Hp), app_nil_r. }
  split; [|exact Hrec].
  cbn [app]. do 5 right. now left.
Qed.

(** X11. A well-formed PENDING order whose payment is declined fails at
    PAYMENT_PROCESSING: validation and the inventory check succeeded,
    fulfilment never ran; [process_order] returns False and writes FAILED
    with "Failed at PAYMENT_PROCESSING". *)
Theorem pending_order_payment_declined env o order rest ts items s :
  query_fault env (n_query s) = None ->
  String.eqb o "" = false ->
  query_items o (table s) = order :: rest ->
  py_eq_str (dict_get order "status" (VStr "PENDING")) "PENDING" = true ->
  well_formed_order order ->
  order !! "timestamp" = Some ts ->
  order !! "items" = Some (VList items) ->
  (forall i, i < length items ->
     Qlt_bool (random_random env (n_random s + i)) (1 # 10) = false) ->
  Qlt_bool (random_random env (n_random s + length items)) (5 # 100) = true ->
  exists s' tr a,
    process_order env (VStr o) s = (Ret false, s') /\
    trace s' = trace s ++ tr /\
    exec_results tr = [("VALIDATING", true); ("INVENTORY_CHECK", true);
                       ("PAYMENT_PROCESSING", false)] /\
    In (EvUpdateItem (VStr o) ts "FAILED" (Some "Failed at PAYMENT_PROCESSING") a) tr /\
    (a = true ->
     recorded (VStr o) ts "FAILED" (Some "Failed at PAYMENT_PROCESSING") (table s')).
Proof.
  intros Hf Ho Hq Hst Hwf Hts Hit Hdraws Hpay.
  pose proof Hwf as (Hoid & _ & _ & (q & Htot & Hqpos)).
  destruct (process_order_pending env o order rest s Hf Ho Hq Hst)
    as (s1 & Htr1 & Hr1 & _ & ->).
  unfold try_except, drive_pipeline, processing_steps. unfold bind at 1.
  destruct (run_steps_step env (VStr o) order ts "VALIDATING" (validate_order env)
              [("INVENTORY_CHECK", check_inventory env);
               ("PAYMENT_PROCESSING", process_payment env);
               ("FULFILLMENT", fulfill_order)] s1 true (n_random s1) Hts
              (validate_at env order _ Hwf))
    as (s2 & a1 & Htr2 & Hr2 & _ & ->).
  rewrite Hr1 in Hr2.
  destruct (run_steps_step env (VStr o) order ts "INVENTORY_CHECK"
              (check_inventory env)
              [("PAYMENT_PROCESSING", process_payment env);
               ("FULFILLMENT", fulfill_order)] s2 true
              (n_random s + length items) Hts)
    as (s3 & a2 & Htr3 & Hr3 & _ & ->).
  { rewrite Hr2. now apply check_inventory_at. }
  destruct (run_steps_step env (VStr o) order ts "PAYMENT_PROCESSING"
              (process_payment env) [("FULFILLMENT", fulfill_order)] s3 false
              (S (n_random s + length items)) Hts)
    as (s4 & a3 & Htr4 & _ & _ & ->).
  { rewrite Hr3. intros s' Hs'.
    rewrite (process_payment_at env order q _ Htot Hqpos Hoid s' Hs').
    now rewrite Hpay. }
  destruct (run_steps_failure_branch env (VStr o) order ts "PAYMENT_PROCESSING" s4 Hts)
    as (s5 & a & pubs & -> & Htr5 & Hp & Hrec).
  eexists s5, _, a. split; [reflexivity|]. split.
  { rewrite Htr5, Htr4, Htr3, Htr2, Htr1. rewrite <- !app_assoc. reflexivity. }
  split.
  { transitivity ([("VALIDATING", true); ("INVENTORY_CHECK", true);
                   ("PAYMENT_PROCESSING", false)]
                  ++ exec_results pubs); [reflexivity|].
    now rewrite (exec_results_publish pubs Hp), app_nil_r. }
  split; [|exact Hrec].
  cbn [app]. do 7 right. now left.
Qed.

Lemma pending_order_short_inventory_witness :
  exists s' tr a,
    process_order env_shortage (VStr "o1") (state_of [o1_pending]) = (Ret false, s') /\
    trace s' = trace (state_of [o1_pending]) ++ tr /\
    exec_results tr = [("VALIDATING", true); ("INVENTORY_CHECK", false)] /\
    In (EvUpdateItem (VStr "o1") (VStr "2024-01-01T00:00:00") "FAILED"
                     (Some "Failed at INVENTORY_CHECK") a) tr /\
    (a = true ->
     recorded (VStr "o1") (VStr "2024-01-01T00:00:00") "FAILED"
              (Some "Failed at INVENTORY_CHECK") (table s')).
Proof.
  apply (pending_order_short_inventory env_shortage "o1" o1_pending []
           (VStr "2024-01-01T00:00:00") [product_x] 0 (state_of [o1_pending])).
  - reflexivity.
  - reflexivity.
  - reflexivity.
  - reflexivity.
  - split; [eexists; reflexivity|].
    split; [eexists; split; reflexivity|].
    split; [eexists _, _; reflexivity|].
    exists 10%Q. split; reflexivity.
  - reflexivity.
  - reflexivity.
  - cbn. lia.
  - intros j Hj. lia.
  - reflexivity.
Defined.

Lemma pending_order_payment_declined_witness :
  exists s' tr a,
    process_order env_payment_declined (VStr "o1") (state_of [o1_pending])
      = (Ret false, s') /\
    trace s' = trace (state_of [o1_pending]) ++ tr /\
    exec_results tr = [("VALIDATING", true); ("INVENTORY_CHECK", true);
                       ("PAYMENT_PROCESSING", false)] /\
    In (EvUpdateItem (VStr "o1") (VStr "2024-01-01T00:00:00") "FAILED"
                     (Some "Failed at PAYMENT_PROCESSING") a) tr /\
    (a = true ->
     recorded (VStr "o1") (VStr "2024-01-01T00:00:00") "FAILED"
              (Some "Failed at PAYMENT_PROCESSING") (table s')).
Proof.
  apply (pending_order_payment_declined env_payment_declined "o1" o1_pending []
           (VStr "2024-01-01T00:00:00") [product_x] (state_of [o1_pending])).
  - reflexivity.
  - reflexivity.
  - reflexivity.
  - reflexivity.
  - split; [eexists; reflexivity|].
    split; [eexists; split; reflexivity|].
    split; [eexists _, _; reflexivity|].
    exists 10%Q. split; reflexivity.
  - reflexivity.
  - reflexivity.
  - intros i Hi. cbn in Hi. assert (i = 0) as -> by lia. reflexivity.
  - reflexivity.
Defined.

(** ** What a status write leaves alone *)

Lemma lookup_map_item (f : item -> item) (l : list item) (i : nat) :
  List.map f l !! i = f <$> (l !! i).
Proof.
  revert i. induction l as [|x l IH]; intros [|i]; cbn; auto.
Qed.

Lemma set_attrs_other status now msg it k :
  k <> "status" -> k <> "updatedAt" -> k <> "errorMessage" ->
  set_attrs status now msg it !! k = it !! k.
Proof.
  intros H1 H2 H3. unfold set_attrs.
  destruct msg; now rewrite !lookup_insert_ne by congruence.
Qed.

(** X12. A status write is a partial update: it removes no record and moves
    none, it leaves every record of another key exactly as it was, and on
    the record it updates it changes nothing but [status], [updatedAt] and
    [errorMessage]. *)
Theorem update_order_status_partial env order_id status ts msg s i it :
  table s !! i = Some it ->
  exists it',
    table (update_order_status env order_id status ts msg s).2 !! i = Some it' /\
    (forall k, k <> "status" -> k <> "updatedAt" -> k <> "errorMessage" ->
       it' !! k = it !! k) /\
    (forall o t, order_id = VStr o -> ts = VStr t -> has_key o t it = false ->
       it' = it).
Proof.
  intros Hi.
  destruct (update_order_status_spec env order_id status ts msg s)
    as (s' & a & -> & _ & _ & _ & _ & _ & Hf & Ha).
  cbn [snd]. destruct a.
  - destruct (Ha eq_refl) as (o & t & -> & -> & ->).
    unfold apply_update. destruct (existsb (has_key o t) (table s)).
    + rewrite lookup_map_item, Hi. cbn [fmap option_fmap option_map].
      destruct (has_key o t it) eqn:Hk.
      * eexists. split; [reflexivity|]. split.
        -- intros k H1 H2 H3. now apply set_attrs_other.
        -- intros o' t' [= <-] [= <-] Hk'. congruence.
      * exists it. repeat split.
    + exists it. split; [|repeat split].
      rewrite lookup_app_l; [exact Hi|]. now apply lookup_lt_Some in Hi.
  - rewrite (Hf eq_refl). exists it. repeat split; auto.
Qed.

Lemma update_order_status_partial_witness :
  exists it',
    table (update_order_status env_ok (VStr "o1") "FAILED"
             (VStr "2024-01-01T00:00:00") (Some "Failed at FULFILLMENT")
             (state_of [o1_pending; o2_pending])).2 !! 1 = Some it' /\
    (forall k, k <> "status" -> k <> "updatedAt" -> k <> "errorMessage" ->
       it' !! k = o2_pending !! k) /\
    (forall o t, VStr "o1" = VStr o -> VStr "2024-01-01T00:00:00" = VStr t ->
       has_key o t o2_pending = false -> it' = o2_pending).
Proof.
  apply (update_order_status_partial env_ok (VStr "o1") "FAILED"
           (VStr "2024-01-01T00:00:00") (Some "Failed at FULFILLMENT")
           (state_of [o1_pending; o2_pending]) 1 o2_pending).
  reflexivity.
Defined.

(** ** The handler and its metrics *)

(** X13. An event from which the records cannot be taken, because it has no
    [Records] entry or because that entry cannot be iterated, is answered
    with status 500 and the text of the fault; nothing is processed and no
    metrics are reported. *)
Theorem handler_without_records env event e s :
  getitem event "Records" = Raise e \/
  (exists records,
     getitem event "Records" = Ret records /\ py_iter records = Raise e) ->
  handler env event s = (Ret (Response500 (exn_str e)), s).
Proof.
  intros [He|(records & He & Hi)]; unfold handler, try_except; rewrite He.
  - reflexivity.
  - rewrite (bind_eq _ _ s records s) by reflexivity. now rewrite Hi.
Qed.

Lemma handler_without_records_witness :
  handler env_ok empty_event (state_of [o1_pending])
  = (Ret (Response500 (exn_str (KeyError "Records"))), state_of [o1_pending]).
Proof.
  apply (handler_without_records env_ok empty_event (KeyError "Records")
           (state_of [o1_pending])).
  left. reflexivity.
Defined.

Lemma send_processing_metrics_spec env a b s :
  exists s' delivered,
    send_processing_metrics env a b s = (Ret tt, s') /\
    trace s' = trace s ++ [EvMetrics a b delivered] /\
    table s' = table s /\
    (delivered = true <-> metrics_fault env (n_metrics s) = None).
Proof.
  unfold send_processing_metrics, cloudwatch_put_metric_data.
  destruct s as [tb tr nr nc nq nu np nm]. mred.
  destruct (metrics_fault env nm) as [m|]; mred.
  - eexists _, false. repeat split; try reflexivity; discriminate.
  - eexists _, true. repeat split; reflexivity.
Qed.

Lemma publish_not_metrics pubs :
  Forall is_publish pubs -> Forall (fun e => ~ is_metrics e) pubs.
Proof.
  intros H. eapply Forall_impl; [exact H|].
  intros [] Hp; cbn in *; tauto.
Qed.

Lemma steps_trace_no_metrics order_id ts tb names r tr :
  steps_trace order_id ts tb names r tr ->
  Forall (fun e => ~ is_metrics e) tr.
Proof.
  induction 1.
  - constructor.
  - repeat (constructor; [intros []|]). assumption.
  - repeat (constructor; [intros []|]). now apply publish_not_metrics.
Qed.

Lemma order_run_no_metrics order_id tb0 tb r tr :
  order_run order_id tb0 tb r tr -> Forall (fun e => ~ is_metrics e) tr.
Proof.
  destruct 1; try (constructor; fail).
  - repeat (constructor; [intros []|]). constructor.
  - eapply steps_trace_no_metrics; eauto.
  - apply Forall_app. split; [eapply steps_trace_no_metrics; eauto|].
    repeat (constructor; [intros []|]). now apply publish_not_metrics.
Qed.

(** The handling of a record leaves the state as it was, or as the one run
    of [process_order] it made left it. *)
Lemma handle_record_state env record lists s r s' :
  handle_record env record lists s = (r, s') ->
  s' = s \/ exists order_id r0, process_order env order_id s = (r0, s').
Proof.
  destruct lists as [p f]. unfold handle_record. mred.
  destruct (getitem record "body") as [body|e]; mred.
  2:{ destruct (py_get record "messageId" (VStr "unknown")); intros [= <- <-]; auto. }
  destruct (py_json_loads env body) as [mb|e]; mred.
  2:{ destruct (py_get record "messageId" (VStr "unknown")); intros [= <- <-]; auto. }
  destruct (getitem mb "orderId") as [oid|e]; mred.
  2:{ destruct (py_get record "messageId" (VStr "unknown")); intros [= <- <-]; auto. }
  destruct (getitem mb "action") as [action|e]; mred.
  2:{ destruct (py_get record "messageId" (VStr "unknown")); intros [= <- <-]; auto. }
  destruct (py_eq_str action "PROCESS_ORDER"); mred.
  2:{ intros [= <- <-]; auto. }
  destruct (process_order env oid s) as [[[]|e] s1] eqn:Hp; mred.
  - intros [= <- <-]. right. eauto.
  - intros [= <- <-]. right. eauto.
  - destruct (py_get record "messageId" (VStr "unknown")); intros [= <- <-];
      right; eauto.
Qed.

Lemma handle_records_no_metrics env records : forall lists s,
  exists tr,
    trace (handle_records env records lists s).2 = trace s ++ tr /\
    Forall (fun e => ~ is_metrics e) tr.
Proof.
  induction records as [|record rest IH]; intros lists s; cbn [handle_records].
  - exists []. cbn. now rewrite app_nil_r.
  - unfold bind.
    destruct (handle_record env record lists s) as [r1 s1] eqn:H1.
    assert (H1tr : exists tr1, trace s1 = trace s ++ tr1 /\
                     Forall (fun e => ~ is_metrics e) tr1).
    { apply handle_record_state in H1 as [->|(oid & r0 & Hp)].
      - exists []. now rewrite app_nil_r.
      - destruct (process_order_run env oid s) as (r & s0 & tr & Hrun & Htr & _ & Hor).
        rewrite Hp in Hrun. injection Hrun as <- <-.
        eexists. split; [exact Htr|].
        constructor; [intros []|]. eapply order_run_no_metrics; eauto. }
    destruct H1tr as (tr1 & Htr1 & Hn1).
    destruct r1 as [lists1|e].
    + destruct (IH lists1 s1) as (tr2 & Htr2 & Hn2).
      exists (tr1 ++ tr2). split.
      * rewrite Htr2, Htr1. now rewrite app_assoc.
      * apply Forall_app. auto.
    + exists tr1. auto.
Qed.

(** The cursor of the metrics sink is not moved by [process_order]. *)
Lemma process_order_metrics_cursor env order_id s :
  n_metrics (process_order env order_id s).2 = n_metrics s.
Proof.
  set (I := fun s1 s2 : State => s1 = s2 /\ n_metrics s1 = n_metrics s).
  assert (H : rel_M I I (process_order env order_id) (process_order env order_id)).
  { apply rel_process_order; unfold I.
    - now intros s1 s2 [-> _].
    - intros n s1 s2 [-> H]. split; [reflexivity|]. now destruct s2.
    - intros e s1 s2 [-> H]. split; [reflexivity|]. now destruct s2.
    - intros status ts msg s1 s2 [-> H].
      destruct (update_order_status_spec env order_id status ts msg s2)
        as (s' & a & Hu & _ & _ & _ & _ & Hm & _).
      rewrite Hu. cbn. repeat split. congruence.
    - intros kind od msg s1 s2 [-> H].
      destruct (send_order_notification_spec env order_id kind od msg s2)
        as (s' & pubs & Hn & _ & _ & _ & _ & _ & _ & _ & _ & Hm).
      rewrite Hn. cbn. repeat split. congruence.
    - repeat split.
    - intros s1 s2 [-> H]. split; [reflexivity|]. split; [reflexivity|].
      rewrite <- H. unfold table_query.
      destruct s2 as [tb tr nr nc nq nu np nm]. mred.
      destruct (query_fault env nq); [reflexivity|].
      destruct order_id; try reflexivity.
      now destruct (String.eqb _ ""). }
  now destruct (H s s (conj eq_refl eq_refl)) as [_ [_ Hm]].
Qed.

Lemma handle_records_metrics_cursor env records : forall lists s,
  n_metrics (handle_records env records lists s).2 = n_metrics s.
Proof.
  induction records as [|record rest IH]; intros lists s; cbn [handle_records].
  - reflexivity.
  - unfold bind.
    destruct (handle_record env record lists s) as [r1 s1] eqn:H1.
    assert (H1m : n_metrics s1 = n_metrics s).
    { apply handle_record_state in H1 as [->|(oid & r0 & Hp)]; [reflexivity|].
      rewrite <- (process_order_metrics_cursor env oid s). now rewrite Hp. }
    destruct r1 as [lists1|e]; [rewrite IH|]; exact H1m.
Qed.

(** X14. The handler reports its metrics once, after the last record and
    with the lengths of the two lists it returns; the report is delivered
    when the metrics sink does not fault. Nothing the handler does for the
    records reaches the metrics sink, and an invocation answered with status
    500 reports no metrics at all. *)
Theorem handler_reports_metrics_once env event s r s' :
  handler env event s = (r, s') ->
  exists tr,
    Forall (fun e => ~ is_metrics e) tr /\
    match r with
    | Ret (Response200 processed failed) =>
        exists delivered,
          trace s' = trace s ++ tr ++
            [EvMetrics (length processed) (length failed) delivered] /\
          (delivered = true <-> metrics_fault env (n_metrics s) = None)
    | _ => trace s' = trace s ++ tr
    end.
Proof.
  unfold handler. unfold try_except at 1.
  destruct (getitem event "Records") as [records|e]; cbn [lift].
  2:{ intros [= <- <-]. exists []. rewrite app_nil_r. auto. }
  rewrite (bind_eq _ _ s records s) by reflexivity.
  destruct (py_iter records) as [rs|e]; cbn [lift].
  2:{ intros [= <- <-]. exists []. rewrite app_nil_r. auto. }
  rewrite (bind_eq _ _ s rs s) by reflexivity.
  destruct (handle_records_no_metrics env rs ([], []) s) as (tr & Htr & Hn).
  pose proof (handle_records_metrics_cursor env rs ([], []) s) as Hm.
  exists tr. split; [exact Hn|].
  destruct (handle_records env rs ([], []) s) as [[lists|e] s1] eqn:Hrun;
    cbn [snd] in Htr, Hm.
  - rewrite (bind_eq _ _ _ _ _ Hrun) in H.
    destruct (send_processing_metrics_spec env (length lists.1) (length lists.2) s1)
      as (s2 & d & Hs & Htr2 & _ & Hd).
    rewrite (bind_eq _ _ _ _ _ Hs) in H. injection H as <- <-.
    exists d. split.
    + rewrite Htr2, Htr. now rewrite <- app_assoc.
    + now rewrite <- Hm.
  - unfold bind in H. rewrite Hrun in H. injection H as <- <-. exact Htr.
Qed.

Lemma handler_reports_metrics_once_witness :
  exists tr,
    Forall (fun e => ~ is_metrics e) tr /\
    exists delivered,
      trace (handler env_ok (event_of [msg_o1; msg_cancel])
               (state_of [o1_pending])).2
      = trace (state_of [o1_pending]) ++ tr ++
          [EvMetrics (length [VStr "o1"]) (length [VStr "o1"]) delivered] /\
      (delivered = true <->
       metrics_fault env_ok (n_metrics (state_of [o1_pending])) = None).
Proof.
  apply (handler_reports_metrics_once env_ok (event_of [msg_o1; msg_cancel])
           (state_of [o1_pending])
           (Ret (Response200 [VStr "o1"] [VStr "o1"]))
           (handler env_ok (event_of [msg_o1; msg_cancel])
              (state_of [o1_pending])).2).
  etransitivity; [apply surjective_pairing|].
  f_equal; vm_compute; reflexivity.
Defined.

(** ** What the notifications say *)

(** X15. With a topic configured, a failure notification for an order with
    a string identifier makes exactly one publish request, whatever the
    order data: its subject is "eCommerce Order FAILED", and its text names
    the first eight characters of the identifier, the customer of the order
    data ("Unknown" when there is no order data or no customer in it), the
    reason when one is given and not empty, and the time. A fault of the
    publish is swallowed. *)
Theorem failure_notification_content env o order_data error_message s :
  topic_configured env = true ->
  exists s' delivered,
    send_order_notification env (VStr o) "FAILED" order_data error_message s
      = (Ret tt, s') /\
    trace s' = trace s ++
      [EvNotify (VStr o) "FAILED" error_message;
       EvPublish "eCommerce Order FAILED"
         (MsgFailed (VStr (String.substring 0 8 o)) (customer_of order_data)
                    (sent_message error_message) (utcnow env (n_clock s)))
         delivered] /\
    (delivered = true <-> publish_fault env (n_publish s) = None).
Proof.
  intros Hc. unfold send_order_notification, sns_publish.
  rewrite Hc. cbn [negb String.eqb Ascii.eqb Bool.eqb slice8 lift].
  rewrite (failed_customer order_data).
  destruct s as [tb tr nr nc nq nu np nm]. mred.
  destruct (publish_fault env np) as [m|]; mred.
  - eexists _, false. repeat split; try discriminate.
    now rewrite <- app_assoc.
  - eexists _, true. repeat split. now rewrite <- app_assoc.
Qed.

Lemma failure_notification_content_witness :
  exists s' delivered,
    send_order_notification env_ok (VStr "0123456789abcdef") "FAILED" None
      (Some "Failed at FULFILLMENT") (state_of [])
      = (Ret tt, s') /\
    trace s' = trace (state_of []) ++
      [EvNotify (VStr "0123456789abcdef") "FAILED" (Some "Failed at FULFILLMENT");
       EvPublish "eCommerce Order FAILED"
         (MsgFailed (VStr (String.substring 0 8 "0123456789abcdef"))
                    (customer_of None)
                    (sent_message (Some "Failed at FULFILLMENT"))
                    (utcnow env_ok (n_clock (state_of []))))
         delivered] /\
    (delivered = true <-> publish_fault env_ok (n_publish (state_of [])) = None).
Proof.
  apply (failure_notification_content env_ok "0123456789abcdef" None
           (Some "Failed at FULFILLMENT") (state_of [])).
  reflexivity.
Defined.

(** X16. A completion notification is built from the order data: with a
    topic configured and an order whose [items] have a length (or are
    absent), it makes exactly one publish request, naming the first eight
    characters of the identifier, the customer, the number of items and the
    total, each "Unknown" or zero when the order lacks it. Called without
    order data it publishes nothing and still returns. *)
Theorem completion_notification_content env o s :
  topic_configured env = true ->
  (forall od n error_message,
     py_len (dict_get od "items" (VList [])) = Ret n ->
     exists s' delivered,
       send_order_notification env (VStr o) "COMPLETED" (Some od) error_message s
         = (Ret tt, s') /\
       trace s' = trace s ++
         [EvNotify (VStr o) "COMPLETED" error_message;
          EvPublish "eCommerce Order COMPLETED"
            (MsgCompleted (VStr (String.substring 0 8 o)) (customer_of (Some od))
                          n (dict_get od "totalAmount" unknown)
                          (utcnow env (n_clock s)))
            delivered] /\
       (delivered = true <-> publish_fault env (n_publish s) = None)) /\
  (forall error_message,
     exists s',
       send_order_notification env (VStr o) "COMPLETED" None error_message s
         = (Ret tt, s') /\
       trace s' = trace s ++ [EvNotify (VStr o) "COMPLETED" error_message]).
Proof.
  intros Hc. split.
  - intros od n msg Hlen. unfold send_order_notification, sns_publish.
    rewrite Hc. cbn [negb String.eqb Ascii.eqb Bool.eqb slice8].
    destruct s as [tb tr nr nc nq nu np nm]. mred. rewrite Hlen. mred.
    destruct (publish_fault env np) as [m|]; mred.
    + eexists _, false. repeat split; try discriminate.
      now rewrite <- app_assoc.
    + eexists _, true. repeat split. now rewrite <- app_assoc.
  - intros msg. unfold send_order_notification.
    rewrite Hc. cbn [negb String.eqb Ascii.eqb Bool.eqb].
    destruct s as [tb tr nr nc nq nu np nm]. mred.
    eexists. split; reflexivity.
Qed.

Lemma completion_notification_content_witness :
  (forall od n error_message,
     py_len (dict_get od "items" (VList [])) = Ret n ->
     exists s' delivered,
       send_order_notification env_ok (VStr "o1") "COMPLETED" (Some od)
         error_message (state_of [])
         = (Ret tt, s') /\
       trace s' = trace (state_of []) ++
         [EvNotify (VStr "o1") "COMPLETED" error_message;
          EvPublish "eCommerce Order COMPLETED"
            (MsgCompleted (VStr (String.substring 0 8 "o1")) (customer_of (Some od))
                          n (dict_get od "totalAmount" unknown)
                          (utcnow env_ok (n_clock (state_of []))))
            delivered] /\
       (delivered = true <->
        publish_fault env_ok (n_publish (state_of [])) = None)) /\
  (forall error_message,
     exists s',
       send_order_notification env_ok (VStr "o1") "COMPLETED" None error_message
         (state_of [])
         = (Ret tt, s') /\
       trace s' = trace (state_of []) ++
         [EvNotify (VStr "o1") "COMPLETED" error_message]).
Proof.
  apply (completion_notification_content env_ok "o1" (state_of [])).
  reflexivity.
Defined.

(** ** A second delivery of the same order *)

Lemma same_key_refl it : same_key it it.
Proof. now split. Qed.

Lemma same_key_trans a b c : same_key a b -> same_key b c -> same_key a c.
Proof. intros [H1 H2] [H3 H4]. split; congruence. Qed.

Lemma same_key_has_order_id o a b :
  same_key a b -> has_order_id o b = has_order_id o a.
Proof. intros [H _]. unfold has_order_id. now rewrite H. Qed.

Lemma same_key_has_key o t a b : same_key a b -> has_key o t b = has_key o t a.
Proof. intros [H1 H2]. unfold has_key, has_order_id. now rewrite H1, H2. Qed.

Lemma same_key_sort_key a b : same_key a b -> sort_key b = sort_key a.
Proof. intros [_ H]. unfold sort_key. now rewrite H. Qed.

Lemma same_key_set_attrs status now msg it :
  same_key it (set_attrs status now msg it).
Proof. split; symmetry; apply set_attrs_other; discriminate. Qed.

Lemma keys_kept_refl l : Forall2 same_key l l.
Proof. induction l; constructor; auto using same_key_refl. Qed.

Lemma keys_kept_trans l1 : forall l2 l3,
  Forall2 same_key l1 l2 -> Forall2 same_key l2 l3 -> Forall2 same_key l1 l3.
Proof.
  induction l1 as [|a l1 IH]; intros l2 l3 H12 H23.
  - inversion H12; subst. inversion H23; subst. constructor.
  - inversion H12; subst. inversion H23; subst.
    constructor; eauto using same_key_trans.
Qed.

Lemma keys_kept_existsb o t l l' :
  Forall2 same_key l l' ->
  existsb (has_key o t) l' = existsb (has_key o t) l.
Proof.
  induction 1 as [|a b l l' Hab Hl IH]; cbn; [reflexivity|].
  now rewrite IH, (same_key_has_key o t a b Hab).
Qed.

Lemma keys_kept_apply_update o t status now msg tb :
  existsb (has_key o t) tb = true ->
  Forall2 same_key tb (apply_update o t (set_attrs status now msg) tb).
Proof.
  intros Hex. unfold apply_update. rewrite Hex. clear Hex.
  induction tb as [|it tb IH]; cbn; constructor; auto.
  destruct (has_key o t it); [apply same_key_set_attrs|apply same_key_refl].
Qed.

Lemma keys_kept_filter o l l' :
  Forall2 same_key l l' ->
  Forall2 same_key (List.filter (has_order_id o) l)
                   (List.filter (has_order_id o) l').
Proof.
  induction 1 as [|a b l l' Hab Hl IH]; cbn; [constructor|].
  rewrite (same_key_has_order_id o a b Hab).
  destruct (has_order_id o a); [constructor|]; auto.
Qed.

Lemma keys_kept_insert_sorted x x' l l' :
  same_key x x' -> Forall2 same_key l l' ->
  Forall2 same_key (insert_sorted x l) (insert_sorted x' l').
Proof.
  intros Hx. induction 1 as [|a b l l' Hab Hl IH]; cbn.
  - constructor; [exact Hx|constructor].
  - rewrite (same_key_sort_key x x' Hx), (same_key_sort_key a b Hab).
    destruct (String.leb (sort_key x) (sort_key a)).
    + constructor; [exact Hx|]. constructor; assumption.
    + constructor; assumption.
Qed.

Lemma keys_kept_query o l l' :
  Forall2 same_key l l' ->
  Forall2 same_key (query_items o l) (query_items o l').
Proof.
  intros H. unfold query_items, sort_items.
  apply (keys_kept_filter o) in H.
  induction H; cbn; [constructor|]. now apply keys_kept_insert_sorted.
Qed.

Lemma keeps_bind {A B} (J : State -> Prop) (c : M A) (k : A -> M B) :
  keeps J c -> (forall a, keeps J (k a)) -> keeps J (bind c k).
Proof.
  intros Hc Hk s Hs. unfold bind. specialize (Hc s Hs).
  destruct (c s) as [[a|e] s1]; cbn [snd] in *; [now apply Hk|exact Hc].
Qed.

Lemma keeps_try_except {A} (J : State -> Prop) (c : M A) (h : exn -> M A) :
  keeps J c -> (forall e, keeps J (h e)) -> keeps J (try_except c h).
Proof.
  intros Hc Hh s Hs. unfold try_except. specialize (Hc s Hs).
  destruct (c s) as [[a|e] s1]; cbn [snd] in *; [exact Hc|now apply Hh].
Qed.

Lemma keeps_ret {A} (J : State -> Prop) (a : A) : keeps J (ret a).
Proof. intros s Hs. exact Hs. Qed.

Lemma keeps_lift_ret {A B} (J : State -> Prop) (a : A) (k : A -> M B) :
  keeps J (k a) -> keeps J (bind (lift (Ret a)) k).
Proof. intros H s Hs. exact (H s Hs). Qed.

Section PipelineInvariant.

Variable env : Env.
Variable o : string.
Variable ts : value.
Variable tb0 : list item.
Variable pre : list event.

Hypothesis key_present :
  forall t, ts = VStr t -> existsb (has_key o t) tb0 = true.

Lemma inv_other_calls s s' es :
  pipeline_inv o ts tb0 pre s ->
  trace s' = trace s ++ es -> table s' = table s ->
  Forall (fun e => ~ applied_write e) es ->
  pipeline_inv o ts tb0 pre s'.
Proof.
  intros (tr & Htr & Hk & Hw) Htr' Htb' Hes.
  exists (tr ++ es). rewrite Htr', Htr, Htb', app_assoc.
  split; [reflexivity|]. split; [exact Hk|].
  intros Hex. apply Hw. apply Exists_app in Hex as [Hex|Hex]; [exact Hex|].
  exfalso. apply List.Exists_exists in Hex as (e & Hin & He).
  rewrite List.Forall_forall in Hes. exact (Hes e Hin He).
Qed.

Lemma keeps_update status msg :
  status <> "PENDING" ->
  keeps (pipeline_inv o ts tb0 pre)
        (update_order_status env (VStr o) status ts msg).
Proof.
  intros Hst s Hs.
  destruct (update_order_status_spec env (VStr o) status ts msg s)
    as (s' & a & Hu & Htr' & _ & _ & _ & _ & Hf & Ha).
  rewrite Hu. cbn [snd]. destruct a.
  - destruct Hs as (tr & Htr & Hk & _).
    destruct (Ha eq_refl) as (o' & t & [= <-] & -> & Htb).
    assert (Hex : existsb (has_key o t) (table s) = true).
    { rewrite (keys_kept_existsb o t _ _ Hk). now apply key_present. }
    eexists. rewrite Htr', Htr, <- app_assoc. split; [reflexivity|].
    split.
    + rewrite Htb. eapply keys_kept_trans; [exact Hk|].
      now apply keys_kept_apply_update.
    + intros _. exists t. split; [reflexivity|]. intros it Hin Hkey.
      destruct (apply_update_recorded o t status (utcnow env (n_clock s))
                  (sent_message msg) (table s))
        as (o1 & t1 & [= <-] & [= <-] & _ & Hrec).
      rewrite <- Htb in Hrec. destruct (Hrec it Hin Hkey) as [Hstatus _].
      exists status. auto.
  - eapply inv_other_calls; [exact Hs|exact Htr'|now apply Hf|].
    repeat constructor. intros [].
Qed.

Lemma keeps_notify kind od msg :
  keeps (pipeline_inv o ts tb0 pre)
        (send_order_notification env (VStr o) kind od msg).
Proof.
  intros s Hs.
  destruct (send_order_notification_spec env (VStr o) kind od msg s)
    as (s' & pubs & Hn & Htr' & Hp & _ & _ & Htb & _).
  rewrite Hn. cbn [snd].
  eapply inv_other_calls; [exact Hs|exact Htr'|exact Htb|].
  constructor; [intros []|].
  eapply Forall_impl; [exact Hp|]. intros [] He; cbn in *; tauto.
Qed.

Lemma keeps_exec_step k (f : Executor) order :
  quiet f -> keeps (pipeline_inv o ts tb0 pre) (exec_step k f order).
Proof.
  intros Hq s Hs. destruct (Hq order (n_random s)) as (b & n' & Hb).
  destruct (exec_step_eq k f order _ _ _ (Hb s eq_refl))
    as (s'' & He & Htr & Htb & _).
  rewrite He. cbn [snd].
  eapply inv_other_calls; [exact Hs|exact Htr|exact Htb|].
  repeat constructor. intros [].
Qed.

Variable order : item.
Hypothesis Hts : order !! "timestamp" = Some ts.

Lemma keeps_run_steps steps :
  Forall (fun step => quiet step.2) steps ->
  Forall (fun step => step.1 <> "PENDING") steps ->
  keeps (pipeline_inv o ts tb0 pre) (run_steps env (VStr o) order steps).
Proof.
  induction 1 as [|[k f] rest Hq Hrest IH]; intros Hn; cbn [run_steps].
  - apply keeps_ret.
  - inversion Hn as [|? ? Hk Hn']; subst. cbn [fst snd] in *.
    unfold dict_getitem. rewrite Hts.
    apply (keeps_lift_ret _ ts).
    apply keeps_bind; [now apply keeps_update|]. intros _.
    apply keeps_bind; [now apply keeps_exec_step|]. intros [|]; cbn [negb].
    + now apply IH.
    + apply (keeps_lift_ret _ ts).
      apply keeps_bind; [apply keeps_update; discriminate|]. intros _.
      apply keeps_bind; [apply keeps_notify|]. intros _. apply keeps_ret.
Qed.

Lemma keeps_drive_pipeline :
  keeps (pipeline_inv o ts tb0 pre)
        (try_except (drive_pipeline env (VStr o) order)
                    (process_order_except env (VStr o) (Some order))).
Proof.
  apply keeps_try_except.
  - unfold drive_pipeline. apply keeps_bind.
    + apply keeps_run_steps; [apply processing_steps_quiet|].
      repeat constructor; discriminate.
    + intros [|]; [|apply keeps_ret].
      unfold dict_getitem. rewrite Hts.
      apply (keeps_lift_ret _ ts).
      apply keeps_bind; [apply keeps_update; discriminate|]. intros _.
      apply keeps_bind; [apply keeps_notify|]. intros _. apply keeps_ret.
  - intros e. unfold process_order_except, dict_get. rewrite Hts.
    cbn [default from_option id].
    apply keeps_bind; [apply keeps_update; discriminate|]. intros _.
    apply keeps_ret.
Qed.

End PipelineInvariant.

(** X17. Once the table has applied a status write of a run of
    [process_order], a second delivery of the same order does nothing: it
    queries the table, finds the record past PENDING and returns True,
    writing nothing and notifying nobody. This holds whatever the first run
    returned: also when it failed, and when its later writes were lost and
    the record stayed at the status of a step. *)
Theorem redelivery_after_applied_write env o s r s' tr :
  process_order env (VStr o) s = (r, s') ->
  trace s' = trace s ++ tr ->
  Exists applied_write tr ->
  query_fault env (n_query s') = None ->
  exists s'',
    process_order env (VStr o) s' = (Ret true, s'') /\
    table s'' = table s' /\
    trace s'' = trace s' ++ [EvQuery (VStr o)].
Proof.
  intros Hrun Htr Hex Hf.
  assert (Hquiet : forall tr0, trace s' = trace s ++ [EvQuery (VStr o)] ++ tr0 ->
            Forall (fun e => ~ applied_write e) tr0 -> False).
  { intros tr0 Htr0 Hno. rewrite Htr0 in Htr. apply app_inv_head in Htr.
    subst tr. apply Exists_cons in Hex as [[]|Hex].
    apply List.Exists_exists in Hex as (e & Hin & He).
    rewrite List.Forall_forall in Hno. exact (Hno e Hin He). }
  revert Hrun. unfold process_order.
  destruct (table_query_spec env (VStr o) s)
    as (rq & s1 & Hq & Htr1 & Htb1 & _ & _ & Hrq).
  rewrite Hq. destruct rq as [[|order rest]|e].
  - intros [= <- <-]. exfalso. apply (Hquiet []); [|constructor].
    now rewrite Htr1.
  - destruct Hrq as (_ & o' & [= <-] & Ho & Hitems).
    unfold process_found at 1.
    destruct (negb (py_eq_str (dict_get order "status" (VStr "PENDING")) "PENDING")).
    { unfold try_except, ret. intros [= <- <-]. exfalso.
      apply (Hquiet []); [|constructor]. now rewrite Htr1. }
    destruct (order !! "timestamp") as [ts|] eqn:Hts.
    2:{ destruct (drive_pipeline_no_timestamp env (VStr o) order s1 Hts)
          as (s2 & Hd & Htr2 & _).
        rewrite Hd. intros [= <- <-]. exfalso.
        eapply Hquiet; [rewrite Htr2, Htr1, <- app_assoc; reflexivity|].
        repeat constructor. intros []. }
    intros Hrun.
    symmetry in Hitems.
    destruct (query_items_head_oldest o (table s) order rest Hitems)
      as (Hid & Hin & _).
    assert (Hkey : forall t, ts = VStr t ->
              existsb (has_key o t) (table s1) = true).
    { intros t ->. apply existsb_exists. exists order. rewrite Htb1.
      split; [exact Hin|]. unfold has_key. rewrite Hid, Hts.
      now rewrite String.eqb_refl. }
    assert (Hinv0 : pipeline_inv o ts (table s1) (trace s1) s1).
    { exists []. rewrite app_nil_r. split; [reflexivity|].
      split; [apply keys_kept_refl|]. intros H. inversion H. }
    pose proof (keeps_drive_pipeline env o ts (table s1) (trace s1) Hkey
                  order Hts s1 Hinv0) as Hinv.
    rewrite Hrun in Hinv. cbn [snd] in Hinv.
    destruct Hinv as (tr1 & Htr' & Hkeys & Hmoved).
    assert (Hex1 : Exists applied_write tr1).
    { rewrite Htr', Htr1, <- app_assoc in Htr. apply app_inv_head in Htr.
      subst tr. apply Exists_cons in Hex as [[]|Hex]. exact Hex. }
    destruct (Hmoved Hex1) as (t & -> & Hpast).
    rewrite Htb1 in Hkeys. apply (keys_kept_query o) in Hkeys.
    rewrite Hitems in Hkeys. inversion Hkeys as [|? order' ? rest' Hsame _ Heq Hq']; subst.
    symmetry in Hq'.
    destruct (query_items_head_oldest o (table s') order' rest' Hq')
      as (_ & Hin' & _).
    assert (Hk' : has_key o t order' = true).
    { rewrite (same_key_has_key o t order order' Hsame).
      unfold has_key. rewrite Hid, Hts. now rewrite String.eqb_refl. }
    destruct (Hpast order' Hin' Hk') as (st & Hst & Hne).
    destruct (table_query_ok env o s' Hf Ho) as (s2 & Hq2 & Htr2 & Htb2 & _).
    exists s2. rewrite Hq2, Hq'.
    unfold try_except, process_found, dict_get. rewrite Hst.
    cbn [default from_option id py_eq_str].
    destruct (String.eqb st "PENDING") eqn:E.
    { apply String.eqb_eq in E. contradiction. }
    cbn [negb]. repeat split; auto.
  - intros Hrun. exfalso. unfold process_order_except, raise in Hrun.
    injection Hrun as <- <-. apply (Hquiet []); [|constructor].
    now rewrite Htr1.
Qed.

Lemma redelivery_after_applied_write_witness :
  exists s'',
    process_order env_payment_declined (VStr "o1") payment_declined_run.2
      = (Ret true, s'') /\
    table s'' = table payment_declined_run.2 /\
    trace s'' = trace payment_declined_run.2 ++ [EvQuery (VStr "o1")].
Proof.
  apply (redelivery_after_applied_write env_payment_declined "o1"
           (state_of [o1_pending]) payment_declined_run.1
           payment_declined_run.2 (trace payment_declined_run.2)).
  - apply surjective_pairing.
  - reflexivity.
  - vm_compute. constructor 2. constructor 1. exact I.
  - vm_compute. reflexivity.
Defined.

(** ** Which record a run writes to *)

Lemma steps_trace_keys order_id ts tb names r tr o t status msg a :
  steps_trace order_id ts tb names r tr ->
  In (EvUpdateItem o t status msg a) tr ->
  o = order_id /\ t = ts.
Proof.
  induction 1 as [|k0 ks a0 r tr Hst IH|k0 ks a0 a' pubs Hp Hl Hrec]; intros Hin.
  - destruct Hin.
  - destruct Hin as [Hin|[Hin|Hin]]; try discriminate.
    + injection Hin as <- <- _ _ _. now split.
    + now apply IH.
  - destruct Hin as [Hin|[Hin|[Hin|[Hin|Hin]]]]; try discriminate.
    + injection Hin as <- <- _ _ _. now split.
    + injection Hin as <- <- _ _ _. now split.
    + exfalso. rewrite List.Forall_forall in Hp. exact (Hp _ Hin).
Qed.

Lemma order_run_keys order_id tb0 tb r tr ts a0 b0 tr' o t status msg a :
  order_run order_id tb0 tb r tr ->
  tr = EvUpdateItem order_id ts "VALIDATING" None a0 ::
       EvExec "VALIDATING" b0 :: tr' ->
  In (EvUpdateItem o t status msg a) tr ->
  o = order_id /\ t = ts.
Proof.
  intros Hor Hfirst Hin.
  destruct Hor as [Htb|Htb|Htb|Htb|ts1 str Hst|ts1 str a1 pubs Hst Hp Hl Hrec];
    try discriminate; unfold step_names in Hst.
  - assert (ts1 = ts) as ->.
    { inversion Hst; subst; cbn in *; congruence. }
    eapply steps_trace_keys; eauto.
  - assert (ts1 = ts) as ->.
    { inversion Hst; subst; cbn in *; congruence. }
    apply in_app_or in Hin as [Hin|[Hin|[Hin|Hin]]]; try discriminate.
    + eapply steps_trace_keys; eauto.
    + injection Hin as <- <- _ _ _. now split.
    + exfalso. rewrite List.Forall_forall in Hp. exact (Hp _ Hin).
Qed.

(** X18. Every status write of a run of [process_order] goes to one key:
    the order id it was called with and the timestamp of the record the
    query listed first, which of all the records of that order in the table
    is one with the least timestamp (the empty string standing for a record
    without a timestamp). *)
Theorem writes_go_to_oldest_record env o s r s' tr order_id ts status msg a :
  process_order env (VStr o) s = (r, s') ->
  trace s' = trace s ++ tr ->
  In (EvUpdateItem order_id ts status msg a) tr ->
  order_id = VStr o /\
  exists order,
    In order (table s) /\ has_order_id o order = true /\
    (forall it, In it (table s) -> has_order_id o it = true -> item_le order it) /\
    ts = dict_get order "timestamp" (VStr "").
Proof.
  intros Hrun Htr Hin. revert Hrun. unfold process_order.
  destruct (table_query_spec env (VStr o) s)
    as (rq & s1 & Hq & Htr1 & Htb1 & _ & _ & Hrq).
  rewrite Hq.
  assert (Hnone : s' = s1 -> False).
  { intros ->. rewrite Htr1 in Htr. apply app_inv_head in Htr. subst tr.
    destruct Hin as [Hin|[]]. discriminate. }
  destruct rq as [[|order rest]|e].
  - intros [= <- <-]. now destruct Hnone.
  - destruct Hrq as (_ & o' & [= <-] & Ho & Hitems). symmetry in Hitems.
    destruct (query_items_head_oldest o (table s) order rest Hitems)
      as (Hid & Hino & Hle).
    unfold process_found.
    destruct (negb (py_eq_str (dict_get order "status" (VStr "PENDING")) "PENDING")).
    { unfold try_except, ret. intros [= <- <-]. now destruct Hnone. }
    destruct (order !! "timestamp") as [ts0|] eqn:Hts.
    + destruct (drive_pipeline_run env (VStr o) order ts0 s1 Hts)
        as (r1 & s2 & tr1 & Hd & Htr2 & _ & Hor & a0 & b0 & tr' & Hfirst).
      unfold try_except. rewrite Hd. intros [= <- <-].
      rewrite Htr2, Htr1, <- app_assoc in Htr. apply app_inv_head in Htr.
      subst tr. destruct Hin as [Hin|Hin]; [discriminate|].
      assert (Hkey : order_id = VStr o /\ ts = ts0).
      { eapply order_run_keys; [exact Hor|exact Hfirst|exact Hin]. }
      destruct Hkey as [-> ->]. split; [reflexivity|].
      exists order. repeat split; auto.
      unfold dict_get. now rewrite Hts.
    + destruct (drive_pipeline_no_timestamp env (VStr o) order s1 Hts)
        as (s2 & Hd & Htr2 & _).
      rewrite Hd. intros [= <- <-].
      rewrite Htr2, Htr1, <- app_assoc in Htr. apply app_inv_head in Htr.
      subst tr. destruct Hin as [Hin|[Hin|[]]]; [discriminate|].
      injection Hin as <- <- _ _ _. split; [reflexivity|].
      exists order. repeat split; auto.
      unfold dict_get. now rewrite Hts.
  - unfold process_order_except, raise. intros [= <- <-]. now destruct Hnone.
Qed.

Lemma writes_go_to_oldest_record_witness :
  VStr "o1" = VStr "o1" /\
  exists order,
    In order (table (state_of [o1_second; o1_pending])) /\
    has_order_id "o1" order = true /\
    (forall it, In it (table (state_of [o1_second; o1_pending])) ->
       has_order_id "o1" it = true -> item_le order it) /\
    VStr "2024-01-01T00:00:00" = dict_get order "timestamp" (VStr "").
Proof.
  apply (writes_go_to_oldest_record env_ok "o1" (state_of [o1_second; o1_pending])
           (process_order env_ok (VStr "o1") (state_of [o1_second; o1_pending])).1
           (process_order env_ok (VStr "o1") (state_of [o1_second; o1_pending])).2
           (trace (process_order env_ok (VStr "o1")
                     (state_of [o1_second; o1_pending])).2)
           (VStr "o1") (VStr "2024-01-01T00:00:00") "VALIDATING" None true).
  - apply surjective_pairing.
  - reflexivity.
  - vm_compute. right. left. reflexivity.
Defined.

(** ** A record whose order cannot be looked up *)

Lemma table_query_raises env order_id s :
  query_fault env (n_query s) <> None \/ order_key order_id = None \/
  order_id = VStr "" ->
  exists e s1,
    table_query env order_id s = (Raise e, s1) /\
    table s1 = table s /\ trace s1 = trace s ++ [EvQuery order_id].
Proof.
  intros H. unfold table_query.
  destruct s as [tb tr nr nc nq nu np nm]. cbn in H. mred.
  destruct (query_fault env nq) as [m|]; [eexists _, _; repeat split|].
  destruct H as [H|[H|H]]; [congruence| |].
  - destruct order_id; try discriminate; eexists _, _; repeat split.
  - subst order_id. cbn. eexists _, _; repeat split.
Qed.

(** X19. A message whose order cannot be looked up, because the query of
    the table faults or because the order id is not a non-empty string, does
    not stop the batch: the fault that leaves [process_order] is caught by
    the handler, which writes nothing and counts the record as failed under
    its message id ("unknown" when it has none), not under its order id. *)
Theorem unqueryable_order_counts_message_id env m order_id p f s :
  dispatched_id env (VDict m) = Some order_id ->
  query_fault env (n_query s) <> None \/ order_key order_id = None \/
  order_id = VStr "" ->
  exists s',
    handle_record env (VDict m) (p, f) s
      = (Ret (p, f ++ [dict_get m "messageId" (VStr "unknown")]), s') /\
    table s' = table s /\
    trace s' = trace s ++ [EvQuery order_id].
Proof.
  intros Hd Hq.
  destruct (table_query_raises env order_id s Hq) as (e & s1 & Hrun & Htb & Htr).
  exists s1. split; [|auto].
  unfold dispatched_id in Hd.
  destruct (getitem (VDict m) "body") as [body|] eqn:Hb; [|discriminate].
  destruct (py_json_loads env body) as [mb|] eqn:Hj; [|discriminate].
  destruct (getitem mb "orderId") as [oid|] eqn:Ho; [|discriminate].
  destruct (getitem mb "action") as [action|] eqn:Ha; [|discriminate].
  destruct (py_eq_str action "PROCESS_ORDER") eqn:Hp; [|discriminate].
  injection Hd as ->.
  unfold handle_record. mred.
  rewrite Hb; mred. rewrite Hj; mred. rewrite Ho; mred. rewrite Ha; mred.
  rewrite Hp; mred.
  unfold process_order. rewrite Hrun. reflexivity.
Qed.

Lemma unqueryable_order_counts_message_id_witness :
  exists s',
    handle_record env_query_down_batch
      (VDict (<["messageId" := VStr "m1"]>
                (<["body" := VStr (message_json "o1" "PROCESS_ORDER")]> ∅)))
      ([], []) (state_of [o1_pending])
      = (Ret ([], [] ++
           [dict_get (<["messageId" := VStr "m1"]>
                        (<["body" := VStr (message_json "o1" "PROCESS_ORDER")]> ∅))
                     "messageId" (VStr "unknown")]), s') /\
    table s' = table (state_of [o1_pending]) /\
    trace s' = trace (state_of [o1_pending]) ++ [EvQuery (VStr "o1")].
Proof.
  apply (unqueryable_order_counts_message_id env_query_down_batch
           (<["messageId" := VStr "m1"]>
              (<["body" := VStr (message_json "o1" "PROCESS_ORDER")]> ∅))
           (VStr "o1") [] [] (state_of [o1_pending])).
  - reflexivity.
  - left. discriminate.
Defined.

Lemma table_query_raise_inv env order_id s e s1 :
  table_query env order_id s = (Raise e, s1) ->
  (query_fault env (n_query s) <> None \/ order_key order_id = None \/
   order_id = VStr "") /\
  table s1 = table s /\ trace s1 = trace s ++ [EvQuery order_id].
Proof.
  unfold table_query. destruct s as [tb tr nr nc nq nu np nm]. mred.
  destruct (query_fault env nq) as [m|] eqn:Hf.
  { intros [= <- <-]. repeat split; auto. }
  destruct order_id as [| | |o| |];
    try (intros [= <- <-]; repeat split; auto; fail).
  destruct (String.eqb o "") eqn:Ho; [|discriminate].
  apply String.eqb_eq in Ho. subst o.
  intros [= <- <-]. repeat split; auto.
Qed.

(** X20. The only fault that leaves [process_order] is the one of its
    query: whenever [process_order] raises, the table could not be queried
    (the query faulted, or the order id is not a non-empty string), what is
    raised is the [UnboundLocalError] of the unassigned [order], and nothing
    was written. In every other run it returns a boolean. *)
Theorem process_order_raises_only_on_query env order_id s e s' :
  process_order env order_id s = (Raise e, s') ->
  e = UnboundLocalError "order" /\
  (query_fault env (n_query s) <> None \/ order_key order_id = None \/
   order_id = VStr "") /\
  table s' = table s /\
  trace s' = trace s ++ [EvQuery order_id].
Proof.
  unfold process_order.
  destruct (table_query env order_id s) as [[[|order rest]|eq] s1] eqn:Hq.
  - discriminate.
  - unfold process_found.
    destruct (negb (py_eq_str (dict_get order "status" (VStr "PENDING")) "PENDING")).
    { unfold try_except, ret. discriminate. }
    destruct (order !! "timestamp") as [ts|] eqn:Hts.
    + destruct (drive_pipeline_run env order_id order ts s1 Hts)
        as (r1 & s2 & tr1 & Hd & _).
      unfold try_except. rewrite Hd. discriminate.
    + destruct (drive_pipeline_no_timestamp env order_id order s1 Hts)
        as (s2 & Hd & _).
      rewrite Hd. discriminate.
  - unfold process_order_except, raise. intros [= <- <-].
    split; [reflexivity|]. eapply table_query_raise_inv; eauto.
Qed.

Lemma process_order_raises_only_on_query_witness :
  UnboundLocalError "order" = UnboundLocalError "order" /\
  (query_fault env_query_down (n_query (state_of [o1_pending])) <> None \/
   order_key (VStr "o1") = None \/ VStr "o1" = VStr "") /\
  table query_down_run.2 = table (state_of [o1_pending]) /\
  trace query_down_run.2 = trace (state_of [o1_pending]) ++ [EvQuery (VStr "o1")].
Proof.
  apply (process_order_raises_only_on_query env_query_down (VStr "o1")
           (state_of [o1_pending]) (UnboundLocalError "order") query_down_run.2).
  etransitivity; [apply surjective_pairing|].
  f_equal; vm_compute; reflexivity.
Defined.
